(** * Vector3DTileContent: the "vctr" tile decoder of Source/Scene/Vector3DTileContent.js

    A shallow embedding of the decoder, its batch-id resolution, the point
    decoding, style application and destruction, followed by the properties
    the specification states about them. *)

From Stdlib Require Import ZArith QArith String List Lia.
From Stdlib Require Import Strings.Byte.
From stdpp Require Import base option list gmap strings pretty.

Local Open Scope Z_scope.

(** ** JavaScript values used by the decoder *)

(** JavaScript numbers that the source writes as floating literals and numbers
    read from JSON are kept as rationals; they are only moved around, never
    computed with.  The literals 2.0, 8.0, 1.0 and 0.0 of the source are the
    numbers 2, 8, 1 and 0. *)
Definition Number : Type := Q.

(** The exceptions [initialize] and the content methods can raise.
    [DeveloperError] is the class the source throws for a malformed tile (the
    specification calls it FormatError); the other three are raised by the
    JavaScript runtime itself. *)
Inductive Error : Type :=
  | DeveloperError (message : string)
  | RangeError
  | TypeError
  | SyntaxError.

(** Outcome of running a piece of JavaScript: a value, or a thrown error. *)
Inductive Completion (A : Type) : Type :=
  | Normal (a : A)
  | Throw (e : Error).
Arguments Normal {A} a.
Arguments Throw {A} e.

(** [defaultValue(a, b)] and [defined(a)] of Core. *)
Definition defaultValue {A : Type} (a : option A) (b : A) : A :=
  match a with Some x => x | None => b end.

Definition defined {A : Type} (a : option A) : bool :=
  match a with Some _ => true | None => false end.

(** ** Array buffers and typed views *)

Definition ArrayBuffer : Type := list byte.

Definition byteLengthOf (buffer : ArrayBuffer) : Z := Z.of_nat (length buffer).

(** The bytes [byteOffset .. byteOffset + len) of a buffer (fewer when the
    buffer ends before). *)
Definition bytesAt (buffer : ArrayBuffer) (byteOffset len : Z) : list byte :=
  take (Z.to_nat len) (drop (Z.to_nat byteOffset) buffer).

(** Little-endian value of a run of bytes. *)
Fixpoint littleEndian (bs : list byte) : Z :=
  match bs with
  | [] => 0
  | b :: rest => Z.of_N (Byte.to_N b) + 256 * littleEndian rest
  end.

Definition sizeOfUint16 : Z := 2.
Definition sizeOfUint32 : Z := 4.
Definition maxShort : Z := 32767.

(** [new DataView(arrayBuffer).getUint32(byteOffset, true)]: the runtime throws
    a RangeError when the four bytes are not all inside the buffer. *)
Definition getUint32 (view : ArrayBuffer) (byteOffset : Z) : Completion Z :=
  if (0 <=? byteOffset) && (byteOffset + 4 <=? byteLengthOf view)
  then Normal (littleEndian (bytesAt view byteOffset 4))
  else Throw RangeError.

(** Elements [0 .. count) of a typed view that starts at [byteOffset]. *)
Fixpoint readElements (bytesPerElement : Z) (buffer : ArrayBuffer)
    (byteOffset : Z) (count : nat) : list Z :=
  match count with
  | O => []
  | S k => littleEndian (bytesAt buffer byteOffset bytesPerElement)
           :: readElements bytesPerElement buffer (byteOffset + bytesPerElement) k
  end.

(** [new Uint16Array(buffer, byteOffset, length)] and its 8- and 32-bit
    siblings: the runtime throws a RangeError when the offset is not a
    multiple of the element size or the view does not fit in the buffer.
    The view is returned as the list of its elements (Float32Array elements
    as their 32-bit patterns). *)
Definition newTypedArray (bytesPerElement : Z) (buffer : ArrayBuffer)
    (byteOffset len : Z) : Completion (list Z) :=
  if (0 <=? byteOffset) && (byteOffset mod bytesPerElement =? 0) && (0 <=? len)
     && (byteOffset + len * bytesPerElement <=? byteLengthOf buffer)
  then Normal (readElements bytesPerElement buffer byteOffset (Z.to_nat len))
  else Throw RangeError.

Definition newUint8Array := newTypedArray 1.
Definition newUint16Array := newTypedArray sizeOfUint16.
Definition newUint32Array := newTypedArray sizeOfUint32.

(** What a store into a Uint16Array keeps of a number. *)
Definition toUint16 (x : Z) : Z := x mod 65536.

(** [typedArray.subarray(begin, end)]: both ends are clamped to the view. *)
Definition subarray (a : list Z) (begin_ end_ : Z) : list Z :=
  drop (Z.to_nat begin_) (take (Z.to_nat end_) a).

(** Modelled from the spec: Core/getStringFromTypedArray is not part of the sources; it
    turns [byteLength] bytes of the buffer, from [byteOffset], into a string. *)
Definition getStringFromTypedArray (uint8Array : ArrayBuffer)
    (byteOffset byteLength : Z) : string :=
  string_of_list_byte (bytesAt uint8Array byteOffset byteLength).

(** Modelled from the spec: Core/getMagic is not part of the sources; the magic is the
    4-byte token at the start of the tile, read as a string. *)
Definition getMagic (uint8Array : ArrayBuffer) (byteOffset : Z) : string :=
  getStringFromTypedArray uint8Array byteOffset 4.

(** ** Collaborators

    The tileset, the tile's bounding volume and its transform are objects the
    decoder only passes on; they are kept as opaque object references. *)
Definition ObjRef : Type := nat.

Record Cartesian3 : Type := { c3_x : Number; c3_y : Number; c3_z : Number }.

Definition Cartesian3_ZERO : Cartesian3 :=
  {| c3_x := 0%Q; c3_y := 0%Q; c3_z := 0%Q |}.

Record Rectangle : Type :=
  { west : Number; south : Number; east : Number; north : Number }.

Record Tile : Type :=
  { contentBoundingVolume_rectangle : Rectangle;
    _boundingVolume_boundingVolume : ObjRef;
    computedTransform : ObjRef }.

(** JSON values, as [JSON.parse] returns them for the batch table. *)
#[warnings="-register-all"]
Inductive Json : Type :=
  | JNull
  | JBool (b : bool)
  | JNumber (n : Number)
  | JString (s : string)
  | JArray (items : list Json)
  | JObject (members : list (string * Json)).

(** The feature-table JSON: one optional field per recognised key.  The keys
    that reference the binary segment hold the [byteOffset] of their
    [{byteOffset}] object. *)
Record FeatureTableJson : Type :=
  { POLYGONS_LENGTH : option Z;
    POLYLINES_LENGTH : option Z;
    POINTS_LENGTH : option Z;
    RTC_CENTER : option Cartesian3;
    RECTANGLE : option Rectangle;
    MINIMUM_HEIGHT : option Number;
    MAXIMUM_HEIGHT : option Number;
    FORMAT : option Z;
    POLYGON_BATCH_IDS : option Z;
    POLYLINE_BATCH_IDS : option Z;
    POINT_BATCH_IDS : option Z;
    POLYGON_COUNT : option Z;
    POLYGON_INDEX_COUNT : option Z;
    POLYGON_MINIMUM_HEIGHTS : option Z;
    POLYGON_MAXIMUM_HEIGHTS : option Z;
    POLYLINE_COUNT : option Z;
    POLYLINE_WIDTHS : option Z }.

(** A [Uint8Array] view used only through [.buffer] and [.byteOffset]. *)
Record Uint8ArrayView : Type :=
  { view_buffer : ArrayBuffer; view_byteOffset : Z; view_length : Z }.

(** The batch table built by [new Cesium3DTileBatchTable(content,
    featuresLength, batchTableJson, batchTableBinary, colorChangedCallback)].
    The callback of [createColorChangedCallback] closes over the content and
    [numberOfPolygons]; the latter is kept. *)
Record Cesium3DTileBatchTable : Type :=
  { featuresLength_ : Z;
    batchTableJson_ : option Json;
    batchTableBinary_ : option (list Z);
    colorChanged_numberOfPolygons : Z }.

(** The options object handed to [new Vector3DTilePolygons(...)].  The batch
    table and the pick object are references to the content's own objects and
    are not repeated here. *)
Record Vector3DTilePolygons : Type :=
  { pg_positions : list Z;
    pg_counts : list Z;
    pg_indexCounts : list Z;
    pg_indices : list Z;
    pg_minimumHeight : option Number;
    pg_maximumHeight : option Number;
    pg_polygonMinimumHeights : option (list Z);
    pg_polygonMaximumHeights : option (list Z);
    pg_center : Cartesian3;
    pg_rectangle : Rectangle;
    pg_boundingVolume : ObjRef;
    pg_batchIds : option (list Z);
    pg_isCartographic : bool;
    pg_modelMatrix : ObjRef }.

(** The options object handed to [new Vector3DTilePolylines(...)]. *)
Record Vector3DTilePolylines : Type :=
  { pl_positions : list Z;
    pl_widths : list Number;
    pl_counts : list Z;
    pl_batchIds : option (list Z);
    pl_minimumHeight : option Number;
    pl_maximumHeight : option Number;
    pl_center : Cartesian3;
    pl_rectangle : Rectangle;
    pl_boundingVolume : ObjRef }.

(** Where a decoded point lies: its grid coordinates (undefined when the
    position buffer is too short) inside the rectangle and height range they
    are interpolated in.  The interpolation and the conversion to a Cartesian
    position on the WGS84 ellipsoid are floating-point computations and are
    not unfolded. *)
Record PointPosition : Type :=
  { pos_u : option Z;
    pos_v : option Z;
    pos_height : option Z;
    pos_rectangle : Rectangle;
    pos_minimumHeight : option Number;
    pos_maximumHeight : option Number }.

Inductive VerticalOrigin : Type := VerticalOrigin_CENTER | VerticalOrigin_BOTTOM.

Record Billboard : Type :=
  { b_position : PointPosition;
    b_verticalOrigin : VerticalOrigin;
    b_batchIndex : option Z }.

Record Label : Type :=
  { l_text : string;
    l_position : PointPosition;
    l_verticalOrigin : VerticalOrigin;
    l_batchIndex : option Z }.

Record Polyline : Type := { p_positions : list PointPosition }.

(** ** Style values and the feature facade *)

Record Color : Type :=
  { red : Number; green : Number; blue : Number; alpha : Number }.

Definition Color_WHITE : Color :=
  {| red := 1%Q; green := 1%Q; blue := 1%Q; alpha := 1%Q |}.
Definition Color_BLACK : Color :=
  {| red := 0%Q; green := 0%Q; blue := 0%Q; alpha := 1%Q |}.

Inductive LabelStyle : Type :=
  | LabelStyle_FILL
  | LabelStyle_OUTLINE
  | LabelStyle_FILL_AND_OUTLINE.

Record Cartesian2 : Type := { c2_x : Number; c2_y : Number }.
Record Cartesian4 : Type :=
  { c4_x : Number; c4_y : Number; c4_z : Number; c4_w : Number }.

(** What a style property of a feature can hold. *)
Inductive Value : Type :=
  | VUndefined
  | VBoolean (b : bool)
  | VNumber (n : Number)
  | VString (s : string)
  | VColor (c : Color)
  | VLabelStyle (s : LabelStyle)
  | VNearFarScalar (near nearValue far farValue : Number)
  | VDistanceDisplayCondition (near far : Number).

(** Modelled from the spec: Cesium3DTileFeature is not part of the sources; it is the
    lazily materialised facade over (content, batchId[, billboard, label and
    polyline collections]) exposing the style-writable properties.  An
    assignment [feature.name = v] is recorded under [name]; as for any
    JavaScript object, assigning to a name the facade does not declare creates
    a property of that name and leaves every other property alone.
    [_setBillboardImage()] is the billboard-image-resolution step; the facade
    counts how often it ran. *)
Record Cesium3DTileFeature : Type :=
  { f_batchId : Z;
    f_withCollections : bool;
    f_properties : gmap string Value;
    f_billboardImageResolutions : nat }.

Definition newCesium3DTileFeature (batchId : Z) (withCollections : bool)
    : Cesium3DTileFeature :=
  {| f_batchId := batchId;
     f_withCollections := withCollections;
     f_properties := ∅;
     f_billboardImageResolutions := O |}.

(** [feature.name = v] *)
Definition assign (name : string) (v : Value) (feature : Cesium3DTileFeature)
    : Cesium3DTileFeature :=
  {| f_batchId := f_batchId feature;
     f_withCollections := f_withCollections feature;
     f_properties := <[name := v]> (f_properties feature);
     f_billboardImageResolutions := f_billboardImageResolutions feature |}.

(** [feature.name] *)
Definition property (name : string) (feature : Cesium3DTileFeature)
    : option Value :=
  f_properties feature !! name.

Definition _setBillboardImage (feature : Cesium3DTileFeature)
    : Cesium3DTileFeature :=
  {| f_batchId := f_batchId feature;
     f_withCollections := f_withCollections feature;
     f_properties := f_properties feature;
     f_billboardImageResolutions := S (f_billboardImageResolutions feature) |}.

(** A style: [style.name.evaluate(frameState, feature)] and
    [style.name.evaluateColor(frameState, feature, scratch)] for a fixed frame
    state.  The properties [applyStyle] tests with [defined] are optional. *)
Record Cesium3DTileStyle : Type :=
  { style_color : Cesium3DTileFeature -> Color;
    style_show : Cesium3DTileFeature -> Value;
    style_pointSize : Cesium3DTileFeature -> Value;
    style_pointColor : Cesium3DTileFeature -> Color;
    style_pointOutlineColor : Cesium3DTileFeature -> Color;
    style_pointOutlineWidth : Cesium3DTileFeature -> Value;
    style_labelOutlineColor : Cesium3DTileFeature -> Color;
    style_labelOutlineWidth : Cesium3DTileFeature -> Value;
    style_font : Cesium3DTileFeature -> Value;
    style_labelStyle : Cesium3DTileFeature -> Value;
    style_labelText : option (Cesium3DTileFeature -> Value);
    style_backgroundColor : option (Cesium3DTileFeature -> Color);
    style_backgroundPadding : option (Cesium3DTileFeature -> Value);
    style_backgroundEnabled : Cesium3DTileFeature -> Value;
    style_scaleByDistance : option (Cesium3DTileFeature -> Cartesian4);
    style_translucencyByDistance : option (Cesium3DTileFeature -> Cartesian4);
    style_distanceDisplayCondition : option (Cesium3DTileFeature -> Cartesian2);
    style_heightOffset : Cesium3DTileFeature -> Value;
    style_anchorLineEnabled : Cesium3DTileFeature -> Value;
    style_anchorLineColor : Cesium3DTileFeature -> Color;
    style_image : option (Cesium3DTileFeature -> Value) }.

(** ** The content object *)

(** [when.defer()]: a deferred is pending until it is resolved; resolving it
    again changes nothing. *)
Inductive Deferred : Type := Pending | Resolved.

Definition resolve (d : Deferred) : Deferred := Resolved.

Record Vector3DTileContent : Type :=
  { _tileset : ObjRef;
    _tile : Tile;
    _url : string;
    _polygons : option Vector3DTilePolygons;
    _polylines : option Vector3DTilePolylines;
    _billboardCollection : option (list Billboard);
    _labelCollection : option (list Label);
    _polylineCollection : option (list Polyline);
    _readyPromise : Deferred;
    _batchTable : option Cesium3DTileBatchTable;
    _features : option (list Cesium3DTileFeature);
    featurePropertiesDirty : bool;
    (** the own [isDestroyed] property, once [destroyObject] installed one;
        until then the method of the prototype answers *)
    own_isDestroyed : option bool }.

Definition with_polygons (v : option Vector3DTilePolygons) (c : Vector3DTileContent) :=
  {| _tileset := _tileset c; _tile := _tile c; _url := _url c;
     _polygons := v; _polylines := _polylines c;
     _billboardCollection := _billboardCollection c;
     _labelCollection := _labelCollection c;
     _polylineCollection := _polylineCollection c;
     _readyPromise := _readyPromise c; _batchTable := _batchTable c;
     _features := _features c;
     featurePropertiesDirty := featurePropertiesDirty c;
     own_isDestroyed := own_isDestroyed c |}.

Definition with_polylines (v : option Vector3DTilePolylines) (c : Vector3DTileContent) :=
  {| _tileset := _tileset c; _tile := _tile c; _url := _url c;
     _polygons := _polygons c; _polylines := v;
     _billboardCollection := _billboardCollection c;
     _labelCollection := _labelCollection c;
     _polylineCollection := _polylineCollection c;
     _readyPromise := _readyPromise c; _batchTable := _batchTable c;
     _features := _features c;
     featurePropertiesDirty := featurePropertiesDirty c;
     own_isDestroyed := own_isDestroyed c |}.

Definition with_billboardCollection (v : option (list Billboard)) (c : Vector3DTileContent) :=
  {| _tileset := _tileset c; _tile := _tile c; _url := _url c;
     _polygons := _polygons c; _polylines := _polylines c;
     _billboardCollection := v;
     _labelCollection := _labelCollection c;
     _polylineCollection := _polylineCollection c;
     _readyPromise := _readyPromise c; _batchTable := _batchTable c;
     _features := _features c;
     featurePropertiesDirty := featurePropertiesDirty c;
     own_isDestroyed := own_isDestroyed c |}.

Definition with_labelCollection (v : option (list Label)) (c : Vector3DTileContent) :=
  {| _tileset := _tileset c; _tile := _tile c; _url := _url c;
     _polygons := _polygons c; _polylines := _polylines c;
     _billboardCollection := _billboardCollection c;
     _labelCollection := v;
     _polylineCollection := _polylineCollection c;
     _readyPromise := _readyPromise c; _batchTable := _batchTable c;
     _features := _features c;
     featurePropertiesDirty := featurePropertiesDirty c;
     own_isDestroyed := own_isDestroyed c |}.

Definition with_polylineCollection (v : option (list Polyline)) (c : Vector3DTileContent) :=
  {| _tileset := _tileset c; _tile := _tile c; _url := _url c;
     _polygons := _polygons c; _polylines := _polylines c;
     _billboardCollection := _billboardCollection c;
     _labelCollection := _labelCollection c;
     _polylineCollection := v;
     _readyPromise := _readyPromise c; _batchTable := _batchTable c;
     _features := _features c;
     featurePropertiesDirty := featurePropertiesDirty c;
     own_isDestroyed := own_isDestroyed c |}.

Definition with_readyPromise (v : Deferred) (c : Vector3DTileContent) :=
  {| _tileset := _tileset c; _tile := _tile c; _url := _url c;
     _polygons := _polygons c; _polylines := _polylines c;
     _billboardCollection := _billboardCollection c;
     _labelCollection := _labelCollection c;
     _polylineCollection := _polylineCollection c;
     _readyPromise := v; _batchTable := _batchTable c;
     _features := _features c;
     featurePropertiesDirty := featurePropertiesDirty c;
     own_isDestroyed := own_isDestroyed c |}.

Definition with_batchTable (v : option Cesium3DTileBatchTable) (c : Vector3DTileContent) :=
  {| _tileset := _tileset c; _tile := _tile c; _url := _url c;
     _polygons := _polygons c; _polylines := _polylines c;
     _billboardCollection := _billboardCollection c;
     _labelCollection := _labelCollection c;
     _polylineCollection := _polylineCollection c;
     _readyPromise := _readyPromise c; _batchTable := v;
     _features := _features c;
     featurePropertiesDirty := featurePropertiesDirty c;
     own_isDestroyed := own_isDestroyed c |}.

Definition with_features (v : option (list Cesium3DTileFeature)) (c : Vector3DTileContent) :=
  {| _tileset := _tileset c; _tile := _tile c; _url := _url c;
     _polygons := _polygons c; _polylines := _polylines c;
     _billboardCollection := _billboardCollection c;
     _labelCollection := _labelCollection c;
     _polylineCollection := _polylineCollection c;
     _readyPromise := _readyPromise c; _batchTable := _batchTable c;
     _features := v;
     featurePropertiesDirty := featurePropertiesDirty c;
     own_isDestroyed := own_isDestroyed c |}.

Definition with_own_isDestroyed (v : option bool) (c : Vector3DTileContent) :=
  {| _tileset := _tileset c; _tile := _tile c; _url := _url c;
     _polygons := _polygons c; _polylines := _polylines c;
     _billboardCollection := _billboardCollection c;
     _labelCollection := _labelCollection c;
     _polylineCollection := _polylineCollection c;
     _readyPromise := _readyPromise c; _batchTable := _batchTable c;
     _features := _features c;
     featurePropertiesDirty := featurePropertiesDirty c;
     own_isDestroyed := v |}.

(** ** Code that runs on a content object

    A piece of code that reads and writes the fields of [this] (or [content])
    and may throw.  A throw keeps the writes made before it, as in
    JavaScript. *)
Definition Js (A : Type) : Type :=
  Vector3DTileContent -> Vector3DTileContent * Completion A.

Definition ret {A : Type} (a : A) : Js A := fun c => (c, Normal a).

Definition throw {A : Type} (e : Error) : Js A := fun c => (c, Throw e).

Definition bind {A B : Type} (m : Js A) (k : A -> Js B) : Js B :=
  fun c =>
    match m c with
    | (c', Normal a) => k a c'
    | (c', Throw e) => (c', Throw e)
    end.

Definition lift {A : Type} (r : Completion A) : Js A := fun c => (c, r).

Definition this : Js Vector3DTileContent := fun c => (c, Normal c).

Definition update_this (f : Vector3DTileContent -> Vector3DTileContent)
    : Js unit :=
  fun c => (f c, Normal tt).

Declare Scope js_scope.
Delimit Scope js_scope with js.
Notation "x <- m ;; k" := (bind m (fun x => k))
  (at level 100, m at next level, right associativity) : js_scope.
Notation "m ;; k" := (bind m (fun _ => k))
  (at level 100, right associativity) : js_scope.

(** [for (i = from; i < from + count; ++i) body(i)] *)
Fixpoint forLoop (from : Z) (count : nat) (body : Z -> Js unit) : Js unit :=
  match count with
  | O => ret tt
  | S k => bind (body from) (fun _ => forLoop (from + 1) k body)
  end.

(** ** Point decoding *)

(** Modelled from the spec: AttributeCompression.zigZagDeltaDecode is not part of
    the sources.  Each element holds a zig-zag-encoded difference:
    [delta = (x >> 1) XOR -(x & 1)]. *)
Definition zigZagDecode (value : Z) : Z :=
  Z.lxor (Z.shiftr value 1) (- Z.land value 1).

(** Modelled from the spec: the differences of one array are accumulated as a
    running sum, in index order, and stored back into the 16-bit array. *)
Fixpoint zigZagDeltaDecodeFrom (sum : Z) (buffer : list Z) : list Z :=
  match buffer with
  | [] => []
  | x :: rest =>
      let sum := sum + zigZagDecode x in
      toUint16 sum :: zigZagDeltaDecodeFrom sum rest
  end.

(** Modelled from the spec: the three arrays (u, v, height) are decoded
    independently of each other. *)
Definition zigZagDeltaDecode (uBuffer vBuffer heightBuffer : list Z)
    : list Z * list Z * list Z :=
  (zigZagDeltaDecodeFrom 0 uBuffer,
   zigZagDeltaDecodeFrom 0 vBuffer,
   zigZagDeltaDecodeFrom 0 heightBuffer).

(** Modelled from the spec: the encoder is not part of the repository.  A
    signed difference is zig-zag encoded, [(d << 1) XOR (d >> 31)], and stored
    in a 16-bit element. *)
Definition zigZagEncode (delta : Z) : Z :=
  Z.lxor (Z.shiftl delta 1) (Z.shiftr delta 31).

(** Modelled from the spec: successive differences of the absolute
    coordinates, the first one taken from 0. *)
Fixpoint zigZagDeltaEncodeFrom (previous : Z) (coordinates : list Z) : list Z :=
  match coordinates with
  | [] => []
  | x :: rest =>
      toUint16 (zigZagEncode (x - previous)) :: zigZagDeltaEncodeFrom x rest
  end.

Definition zigZagDeltaEncode (u v height : list Z) : list Z * list Z * list Z :=
  (zigZagDeltaEncodeFrom 0 u,
   zigZagDeltaEncodeFrom 0 v,
   zigZagDeltaEncodeFrom 0 height).

(** ** Batch ids (initialize, lines 326-389) *)

(** Lines 331-344: a type has explicit ids when it has primitives and the
    feature table declares its batch-id array; the ids are then a Uint16Array
    over the feature-table binary. *)
Definition suppliesBatchIds (numberOf : Z) (key : option Z) : bool :=
  (0 <? numberOf) && defined key.

Definition explicitBatchIds (featureTableBinary : Uint8ArrayView)
    (numberOf : Z) (key : option Z) : Completion (option (list Z)) :=
  if suppliesBatchIds numberOf key then
    match key with
    | Some byteOffset =>
        match newUint16Array (view_buffer featureTableBinary)
                (view_byteOffset featureTableBinary + byteOffset) numberOf with
        | Normal ids => Normal (Some ids)
        | Throw e => Throw e
        end
    | None => Normal None
    end
  else Normal None.

(** [ids = new Uint16Array(count); for (i = 0; i < count; ++i) ids[i] = maxId++;]
    returns the array and the counter after the loop. *)
Fixpoint fillSequential (count : nat) (maxId : Z) : list Z * Z :=
  match count with
  | O => ([], maxId)
  | S k =>
      let '(rest, after) := fillSequential k (maxId + 1) in
      (toUint16 maxId :: rest, after)
  end.

(** [for (i = 0; i < numberOf; ++i) maxId = Math.max(maxId, ids[i]);] *)
Definition maxOfIds (ids : option (list Z)) (numberOf : Z) (maxId : Z) : Z :=
  match ids with
  | Some a => fold_left Z.max (take (Z.to_nat numberOf) a) maxId
  | None => maxId
  end.

Definition synthesizeOne (ids : option (list Z)) (numberOf : Z) (maxId : Z)
    : option (list Z) * Z :=
  if negb (defined ids) && (0 <? numberOf) then
    let '(a, after) := fillSequential (Z.to_nat numberOf) maxId in
    (Some a, after)
  else (ids, maxId).

(** Lines 346-389. *)
Definition synthesizeBatchIds
    (numberOfPolygons numberOfPolylines numberOfPoints : Z)
    (polygonBatchIds polylineBatchIds pointBatchIds : option (list Z))
    : option (list Z) * option (list Z) * option (list Z) :=
  if negb (defined polygonBatchIds) && negb (defined polylineBatchIds)
     && negb (defined pointBatchIds) then
    let maxId := -1 in
    let maxId := maxOfIds polygonBatchIds numberOfPolygons maxId in
    let maxId := maxOfIds polylineBatchIds numberOfPolylines maxId in
    let maxId := maxOfIds pointBatchIds numberOfPoints maxId in
    let maxId := maxId + 1 in
    let '(polygonBatchIds, maxId) :=
      synthesizeOne polygonBatchIds numberOfPolygons maxId in
    let '(polylineBatchIds, maxId) :=
      synthesizeOne polylineBatchIds numberOfPolylines maxId in
    let '(pointBatchIds, maxId) :=
      synthesizeOne pointBatchIds numberOfPoints maxId in
    (polygonBatchIds, polylineBatchIds, pointBatchIds)
  else (polygonBatchIds, polylineBatchIds, pointBatchIds).

(** Lines 326-389 as a whole: the three batch-id arrays the builders get. *)
Definition resolveBatchIds (featureTableJson : FeatureTableJson)
    (featureTableBinary : Uint8ArrayView)
    (numberOfPolygons numberOfPolylines numberOfPoints : Z)
    : Completion (option (list Z) * option (list Z) * option (list Z)) :=
  match explicitBatchIds featureTableBinary numberOfPolygons
          (POLYGON_BATCH_IDS featureTableJson) with
  | Throw e => Throw e
  | Normal polygonBatchIds =>
  match explicitBatchIds featureTableBinary numberOfPolylines
          (POLYLINE_BATCH_IDS featureTableJson) with
  | Throw e => Throw e
  | Normal polylineBatchIds =>
  match explicitBatchIds featureTableBinary numberOfPoints
          (POINT_BATCH_IDS featureTableJson) with
  | Throw e => Throw e
  | Normal pointBatchIds =>
      Normal (synthesizeBatchIds numberOfPolygons numberOfPolylines
                numberOfPoints polygonBatchIds polylineBatchIds pointBatchIds)
  end end end.

(** ** initialize *)

Local Open Scope js_scope.

(** A view over the feature-table binary named by a [{byteOffset}] key; reading
    [.byteOffset] of a key the feature table lacks is a TypeError. *)
Definition featureTableArray (bytesPerElement : Z)
    (featureTableBinary : Uint8ArrayView) (key : option Z) (len : Z)
    : Completion (list Z) :=
  match key with
  | None => Throw TypeError
  | Some byteOffset =>
      newTypedArray bytesPerElement (view_buffer featureTableBinary)
        (view_byteOffset featureTableBinary + byteOffset) len
  end.

(** Lines 446-455: the widths of the polylines. *)
Definition polylineWidths (featureTableJson : FeatureTableJson)
    (featureTableBinary : Uint8ArrayView) (numberOfPolylines : Z)
    : Completion (list Number) :=
  if negb (defined (POLYLINE_WIDTHS featureTableJson)) then
    Normal (replicate (Z.to_nat numberOfPolylines) 2%Q)
  else
    match featureTableArray sizeOfUint16 featureTableBinary
            (POLYLINE_WIDTHS featureTableJson) numberOfPolylines with
    | Normal widths => Normal (map inject_Z widths)
    | Throw e => Throw e
    end.

(** Lines 396-437.  Returns the byte offset after the polygon sections. *)
Definition createPolygons (arrayBuffer : ArrayBuffer) (byteOffset : Z)
    (indicesByteLength positionByteLength : Z)
    (featureTableJson : FeatureTableJson) (featureTableBinary : Uint8ArrayView)
    (numberOfPolygons : Z) (polygonBatchIds : option (list Z))
    (minHeight maxHeight : option Number) (center : Cartesian3)
    (rectangle : Rectangle) (isCartographic : bool) (modelMatrix : ObjRef)
    : Js Z :=
  indices <- lift (newUint32Array arrayBuffer byteOffset
                     (indicesByteLength / sizeOfUint32)) ;;
  let byteOffset := byteOffset + indicesByteLength in
  polygonPositions <- lift (newUint16Array arrayBuffer byteOffset
                              (positionByteLength / sizeOfUint16)) ;;
  let byteOffset := byteOffset + positionByteLength in
  counts <- lift (featureTableArray sizeOfUint32 featureTableBinary
                    (POLYGON_COUNT featureTableJson) numberOfPolygons) ;;
  indexCounts <- lift (featureTableArray sizeOfUint32 featureTableBinary
                         (POLYGON_INDEX_COUNT featureTableJson) numberOfPolygons) ;;
  heights <-
    (if defined (POLYGON_MINIMUM_HEIGHTS featureTableJson)
        && defined (POLYGON_MAXIMUM_HEIGHTS featureTableJson) then
       polygonMinimumHeights <- lift (featureTableArray 4 featureTableBinary
           (POLYGON_MINIMUM_HEIGHTS featureTableJson) numberOfPolygons) ;;
       polygonMaximumHeights <- lift (featureTableArray 4 featureTableBinary
           (POLYGON_MAXIMUM_HEIGHTS featureTableJson) numberOfPolygons) ;;
       ret (Some polygonMinimumHeights, Some polygonMaximumHeights)
     else ret (None, None)) ;;
  content <- this ;;
  update_this (with_polygons (Some
    {| pg_positions := polygonPositions;
       pg_counts := counts;
       pg_indexCounts := indexCounts;
       pg_indices := indices;
       pg_minimumHeight := minHeight;
       pg_maximumHeight := maxHeight;
       pg_polygonMinimumHeights := fst heights;
       pg_polygonMaximumHeights := snd heights;
       pg_center := center;
       pg_rectangle := rectangle;
       pg_boundingVolume := _boundingVolume_boundingVolume (_tile content);
       pg_batchIds := polygonBatchIds;
       pg_isCartographic := isCartographic;
       pg_modelMatrix := modelMatrix |})) ;;
  ret byteOffset.

(** Lines 439-469.  Returns the byte offset after the polyline positions. *)
Definition createPolylines (arrayBuffer : ArrayBuffer) (byteOffset : Z)
    (polylinePositionByteLength : Z)
    (featureTableJson : FeatureTableJson) (featureTableBinary : Uint8ArrayView)
    (numberOfPolylines : Z) (polylineBatchIds : option (list Z))
    (minHeight maxHeight : option Number) (center : Cartesian3)
    (rectangle : Rectangle) : Js Z :=
  polylinePositions <- lift (newUint16Array arrayBuffer byteOffset
                               (polylinePositionByteLength / sizeOfUint16)) ;;
  let byteOffset := byteOffset + polylinePositionByteLength in
  polylineCounts <- lift (featureTableArray sizeOfUint32 featureTableBinary
                            (POLYLINE_COUNT featureTableJson) numberOfPolylines) ;;
  widths <- lift (polylineWidths featureTableJson featureTableBinary
                    numberOfPolylines) ;;
  content <- this ;;
  update_this (with_polylines (Some
    {| pl_positions := polylinePositions;
       pl_widths := widths;
       pl_counts := polylineCounts;
       pl_batchIds := polylineBatchIds;
       pl_minimumHeight := minHeight;
       pl_maximumHeight := maxHeight;
       pl_center := center;
       pl_rectangle := rectangle;
       pl_boundingVolume := _boundingVolume_boundingVolume (_tile content) |})) ;;
  ret byteOffset.

(** Lines 486-513: the billboard, the label and the anchor-line placeholder of
    point [i]. *)
Definition addPoint (pointBatchIds : option (list Z))
    (uBuffer vBuffer heightBuffer : list Z) (rectangle : Rectangle)
    (minHeight maxHeight : option Number) (i : Z) : Js unit :=
  id <- match pointBatchIds with
        | None => throw TypeError
        | Some ids => ret (ids !! Z.to_nat i)
        end ;;
  let position :=
    {| pos_u := uBuffer !! Z.to_nat i;
       pos_v := vBuffer !! Z.to_nat i;
       pos_height := heightBuffer !! Z.to_nat i;
       pos_rectangle := rectangle;
       pos_minimumHeight := minHeight;
       pos_maximumHeight := maxHeight |} in
  update_this (fun content => with_billboardCollection
    (option_map (fun collection => collection ++
       [ {| b_position := position;
            b_verticalOrigin := VerticalOrigin_BOTTOM;
            b_batchIndex := id |} ])
       (_billboardCollection content)) content) ;;
  update_this (fun content => with_labelCollection
    (option_map (fun collection => collection ++
       [ {| l_text := " ";
            l_position := position;
            l_verticalOrigin := VerticalOrigin_BOTTOM;
            l_batchIndex := id |} ])
       (_labelCollection content)) content) ;;
  update_this (fun content => with_polylineCollection
    (option_map (fun collection => collection ++
       [ {| p_positions := [position; position] |} ])
       (_polylineCollection content)) content).

(** Lines 471-514. *)
Definition createPoints (arrayBuffer : ArrayBuffer) (byteOffset : Z)
    (pointsPositionByteLength : Z) (numberOfPoints : Z)
    (pointBatchIds : option (list Z)) (rectangle : Rectangle)
    (minHeight maxHeight : option Number) : Js unit :=
  pointPositions <- lift (newUint16Array arrayBuffer byteOffset
                            (pointsPositionByteLength / sizeOfUint16)) ;;
  update_this (with_billboardCollection (Some [])) ;;
  update_this (with_labelCollection (Some [])) ;;
  update_this (with_polylineCollection (Some [])) ;;
  let uBuffer := subarray pointPositions 0 numberOfPoints in
  let vBuffer := subarray pointPositions numberOfPoints (2 * numberOfPoints) in
  let heightBuffer :=
    subarray pointPositions (2 * numberOfPoints) (3 * numberOfPoints) in
  let '(uBuffer, vBuffer, heightBuffer) :=
    zigZagDeltaDecode uBuffer vBuffer heightBuffer in
  forLoop 0 (Z.to_nat numberOfPoints)
    (addPoint pointBatchIds uBuffer vBuffer heightBuffer rectangle
       minHeight maxHeight).

(** Lines 306-514: everything after the batch table has been created, for a
    tile with at least one primitive. *)
Definition decodePrimitives (arrayBuffer : ArrayBuffer) (byteOffset : Z)
    (featureTableJson : FeatureTableJson) (featureTableBinary : Uint8ArrayView)
    (indicesByteLength positionByteLength : Z)
    (polylinePositionByteLength pointsPositionByteLength : Z)
    (numberOfPolygons numberOfPolylines numberOfPoints : Z) : Js unit :=
  content <- this ;;
  let center :=
    match RTC_CENTER featureTableJson with
    | Some packed => packed
    | None => Cartesian3_ZERO
    end in
  let rectangle :=
    match RECTANGLE featureTableJson with
    | Some packed => packed
    | None => contentBoundingVolume_rectangle (_tile content)
    end in
  let minHeight := MINIMUM_HEIGHT featureTableJson in
  let maxHeight := MAXIMUM_HEIGHT featureTableJson in
  let format := defaultValue (FORMAT featureTableJson) 0 in
  let isCartographic := format =? 0 in
  let modelMatrix := computedTransform (_tile content) in
  ids <- lift (resolveBatchIds featureTableJson featureTableBinary
                 numberOfPolygons numberOfPolylines numberOfPoints) ;;
  let '(polygonBatchIds, polylineBatchIds, pointBatchIds) := ids in
  byteOffset <-
    (if 0 <? numberOfPolygons then
       createPolygons arrayBuffer byteOffset indicesByteLength
         positionByteLength featureTableJson featureTableBinary
         numberOfPolygons polygonBatchIds minHeight maxHeight center
         rectangle isCartographic modelMatrix
     else ret byteOffset) ;;
  byteOffset <-
    (if 0 <? numberOfPolylines then
       createPolylines arrayBuffer byteOffset polylinePositionByteLength
         featureTableJson featureTableBinary numberOfPolylines
         polylineBatchIds minHeight maxHeight center rectangle
     else ret byteOffset) ;;
  if 0 <? numberOfPoints then
    createPoints arrayBuffer byteOffset pointsPositionByteLength
      numberOfPoints pointBatchIds rectangle minHeight maxHeight
  else ret tt.

Section Decoder.

(** [JSON.parse] of the feature-table text, read through the keys
    [initialize] looks at, and of the batch-table text; [None] is a
    SyntaxError. *)
Variable JSON_parse_featureTable : string -> option FeatureTableJson.
Variable JSON_parse_batchTable : string -> option Json.

Definition JSON_parse {A : Type} (parse : string -> option A) (text : string)
    : Completion A :=
  match parse text with
  | Some json => Normal json
  | None => Throw SyntaxError
  end.

(** Lines 273-292: the optional batch-table JSON and binary. *)
Definition readBatchTable (arrayBuffer : ArrayBuffer) (byteOffset : Z)
    (batchTableJSONByteLength batchTableBinaryByteLength : Z)
    : Completion (option Json * option (list Z) * Z) :=
  let uint8Array := arrayBuffer in
  if 0 <? batchTableJSONByteLength then
    let batchTableString :=
      getStringFromTypedArray uint8Array byteOffset batchTableJSONByteLength in
    match JSON_parse JSON_parse_batchTable batchTableString with
    | Throw e => Throw e
    | Normal batchTableJson =>
        let byteOffset := byteOffset + batchTableJSONByteLength in
        if 0 <? batchTableBinaryByteLength then
          match newUint8Array arrayBuffer byteOffset
                  batchTableBinaryByteLength with
          | Throw e => Throw e
          | Normal batchTableBinary =>
              Normal (Some batchTableJson, Some batchTableBinary,
                      byteOffset + batchTableBinaryByteLength)
          end
        else Normal (Some batchTableJson, None, byteOffset)
    end
  else Normal (None, None, byteOffset).

(** Lines 242-304: the section lengths, the two tables and the batch table
    object; then the primitives, unless the tile has none. *)
Definition decodeTile (arrayBuffer : ArrayBuffer) (byteOffset : Z) : Js unit :=
  let uint8Array := arrayBuffer in
  let view := arrayBuffer in
  featureTableJSONByteLength <- lift (getUint32 view byteOffset) ;;
  let byteOffset := byteOffset + sizeOfUint32 in
  if featureTableJSONByteLength =? 0 then
    throw (DeveloperError
             "Feature table must have a byte length greater than zero")
  else
  featureTableBinaryByteLength <- lift (getUint32 view byteOffset) ;;
  let byteOffset := byteOffset + sizeOfUint32 in
  batchTableJSONByteLength <- lift (getUint32 view byteOffset) ;;
  let byteOffset := byteOffset + sizeOfUint32 in
  batchTableBinaryByteLength <- lift (getUint32 view byteOffset) ;;
  let byteOffset := byteOffset + sizeOfUint32 in
  indicesByteLength <- lift (getUint32 view byteOffset) ;;
  let byteOffset := byteOffset + sizeOfUint32 in
  positionByteLength <- lift (getUint32 view byteOffset) ;;
  let byteOffset := byteOffset + sizeOfUint32 in
  polylinePositionByteLength <- lift (getUint32 view byteOffset) ;;
  let byteOffset := byteOffset + sizeOfUint32 in
  pointsPositionByteLength <- lift (getUint32 view byteOffset) ;;
  let byteOffset := byteOffset + sizeOfUint32 in
  let featureTableString :=
    getStringFromTypedArray uint8Array byteOffset featureTableJSONByteLength in
  featureTableJson <-
    lift (JSON_parse JSON_parse_featureTable featureTableString) ;;
  let byteOffset := byteOffset + featureTableJSONByteLength in
  _ <- lift (newUint8Array arrayBuffer byteOffset
               featureTableBinaryByteLength) ;;
  let featureTableBinary :=
    {| view_buffer := arrayBuffer;
       view_byteOffset := byteOffset;
       view_length := featureTableBinaryByteLength |} in
  let byteOffset := byteOffset + featureTableBinaryByteLength in
  batchTableParts <- lift (readBatchTable arrayBuffer byteOffset
      batchTableJSONByteLength batchTableBinaryByteLength) ;;
  let '(batchTableJson, batchTableBinary, byteOffset) := batchTableParts in
  let numberOfPolygons :=
    defaultValue (POLYGONS_LENGTH featureTableJson) 0 in
  let numberOfPolylines :=
    defaultValue (POLYLINES_LENGTH featureTableJson) 0 in
  let numberOfPoints := defaultValue (POINTS_LENGTH featureTableJson) 0 in
  let totalPrimitives :=
    numberOfPolygons + numberOfPolylines + numberOfPoints in
  let batchTable :=
    {| featuresLength_ := totalPrimitives;
       batchTableJson_ := batchTableJson;
       batchTableBinary_ := batchTableBinary;
       colorChanged_numberOfPolygons := numberOfPolygons |} in
  update_this (with_batchTable (Some batchTable)) ;;
  if totalPrimitives =? 0 then ret tt
  else
    decodePrimitives arrayBuffer byteOffset featureTableJson
      featureTableBinary indicesByteLength positionByteLength
      polylinePositionByteLength pointsPositionByteLength
      numberOfPolygons numberOfPolylines numberOfPoints.

(** Lines 214-240: the magic, the version and the byte length; an empty
    tile resolves the ready promise and returns. *)
Definition initialize (arrayBuffer : ArrayBuffer) (byteOffset : option Z)
    : Js unit :=
  let byteOffset := defaultValue byteOffset 0 in
  let uint8Array := arrayBuffer in
  let magic := getMagic uint8Array byteOffset in
  if negb (String.eqb magic "vctr") then
    throw (DeveloperError
             ("Invalid Vector tile.  Expected magic=vctr.  Read magic="
              +:+ magic))
  else
  let view := arrayBuffer in
  let byteOffset := byteOffset + sizeOfUint32 in
  version <- lift (getUint32 view byteOffset) ;;
  if negb (version =? 1) then
    throw (DeveloperError
             ("Only Vector tile version 1 is supported.  Version "
              +:+ pretty version +:+ " is not."))
  else
  let byteOffset := byteOffset + sizeOfUint32 in
  byteLength <- lift (getUint32 view byteOffset) ;;
  let byteOffset := byteOffset + sizeOfUint32 in
  if byteLength =? 0 then
    update_this (fun content =>
      with_readyPromise (resolve (_readyPromise content)) content)
  else decodeTile arrayBuffer byteOffset.

(** The constructor: the fields as lines 65-83 set them, then
    [initialize].  The result is the object as the constructor left it,
    with what the constructor threw, if it did. *)
Definition newVector3DTileContent (tileset : ObjRef) (tile : Tile)
    (url : string) (arrayBuffer : ArrayBuffer) (byteOffset : option Z)
    : Vector3DTileContent * Completion unit :=
  initialize arrayBuffer byteOffset
    {| _tileset := tileset;
       _tile := tile;
       _url := url;
       _polygons := None;
       _polylines := None;
       _billboardCollection := None;
       _labelCollection := None;
       _polylineCollection := None;
       _readyPromise := Pending;
       _batchTable := None;
       _features := None;
       featurePropertiesDirty := false;
       own_isDestroyed := None |}.

End Decoder.

(** ** Properties of the content interface (lines 88-196) *)

Definition featuresLength (content : Vector3DTileContent) : Z :=
  match _batchTable content with
  | Some batchTable => featuresLength_ batchTable
  | None => 0
  end.

Definition pointsLength (content : Vector3DTileContent) : Z := 0.

Definition trianglesLength (content : Vector3DTileContent) : Z := 0.

Definition geometryByteLength (content : Vector3DTileContent) : Z := 0.

Definition texturesByteLength (content : Vector3DTileContent) : Z := 0.

Definition readyPromise (content : Vector3DTileContent) : Deferred :=
  _readyPromise content.

(** ** Features (lines 517-556) *)

Definition createFeatures : Js unit :=
  content <- this ;;
  let featuresLength := featuresLength content in
  if negb (defined (_features content)) && (0 <? featuresLength) then
    let billboardCollection := _billboardCollection content in
    let features :=
      map (fun i =>
             match billboardCollection with
             | Some billboards =>
                 if i <? Z.of_nat (length billboards)
                 then newCesium3DTileFeature i true
                 else newCesium3DTileFeature i false
             | None => newCesium3DTileFeature i false
             end)
          (seqZ 0 featuresLength) in
    update_this (with_features (Some features))
  else ret tt.

(** [getFeature(batchId)] returns the facade stored at [_features[batchId]]
    itself ([None] when the array has no such element). *)
Definition getFeature (batchId : Z) : Js (option Cesium3DTileFeature) :=
  content <- this ;;
  let featuresLength := featuresLength content in
  if (batchId <? 0) || (featuresLength <=? batchId) then
    throw (DeveloperError
             ("batchId is required and between zero and featuresLength - 1 ("
              +:+ pretty (featuresLength - 1) +:+ ")."))
  else
    createFeatures ;;
    content <- this ;;
    match _features content with
    | None => throw TypeError
    | Some features => ret (features !! Z.to_nat batchId)
    end.

(** The assignments of a loop body, made on one feature in the order of the
    source. *)
Definition assignAll
    (assignments : list (Cesium3DTileFeature -> Cesium3DTileFeature))
    (feature : Cesium3DTileFeature) : Cesium3DTileFeature :=
  fold_left (fun f step => step f) assignments feature.

(** The assignments of a loop body act on the facade [getFeature] returned,
    which is the element of [_features]: they are written back in place. *)
Definition onFeature (i : Z)
    (assignments : list (Cesium3DTileFeature -> Cesium3DTileFeature))
    : Js unit :=
  feature <- getFeature i ;;
  match feature with
  | None => throw TypeError
  | Some feature =>
      let feature := assignAll assignments feature in
      update_this (fun content =>
        with_features
          (option_map (fun features => <[Z.to_nat i := feature]> features)
             (_features content))
          content)
  end.

(** ** Styling (lines 572-684) *)

(** The body of the loop of [clearStyle], lines 577-599. *)
Definition clearStyleAssignments
    : list (Cesium3DTileFeature -> Cesium3DTileFeature) :=
  [ assign "show" (VBoolean true);
    assign "color" (VColor Color_WHITE);
    assign "pointSize" (VNumber 8%Q);
    assign "pointColor" (VColor Color_WHITE);
    assign "pointOutlineColor" (VColor Color_BLACK);
    assign "pointOutlineWidth" (VNumber 0%Q);
    assign "labelOutlineColor" (VColor Color_WHITE);
    assign "labelOutlineWidth" (VNumber 1%Q);
    assign "font" (VString "30px sans-serif");
    assign "labelStyle" (VLabelStyle LabelStyle_FILL);
    assign "labelText" VUndefined;
    assign "backgroundColor" VUndefined;
    assign "backgroundPadding" VUndefined;
    assign "backgroundEnabled" (VBoolean false);
    assign "scaleByDistance" VUndefined;
    assign "translucencyByDistance" VUndefined;
    assign "distanceDisplayCondition" VUndefined;
    assign "heightOffset" (VNumber 0%Q);
    assign "anchorLineEnabled" (VBoolean false);
    assign "anchorLineColor" (VColor Color_WHITE);
    assign "image" VUndefined;
    _setBillboardImage ].

Definition clearStyle : Js unit :=
  content <- this ;;
  match _features content with
  | None => throw TypeError
  | Some features =>
      forLoop 0 (length features) (fun i => onFeature i clearStyleAssignments)
  end.

(** [feature.name = style.name.evaluate(frameState, feature)] *)
Definition assignEvaluated (name : string)
    (expression : Cesium3DTileFeature -> Value)
    (feature : Cesium3DTileFeature) : Cesium3DTileFeature :=
  assign name (expression feature) feature.

(** [feature.name = style.name.evaluateColor(frameState, feature, scratch)] *)
Definition assignEvaluatedColor (name : string)
    (expression : Cesium3DTileFeature -> Color)
    (feature : Cesium3DTileFeature) : Cesium3DTileFeature :=
  assign name (VColor (expression feature)) feature.

Definition newNearFarScalar (cart4 : Cartesian4) : Value :=
  VNearFarScalar (c4_x cart4) (c4_y cart4) (c4_z cart4) (c4_w cart4).

Definition newDistanceDisplayCondition (cart2 : Cartesian2) : Value :=
  VDistanceDisplayCondition (c2_x cart2) (c2_y cart2).

(** The body of the loop of [applyStyle], lines 624-682, with the property
    names as the source spells them. *)
Definition applyStyleAssignments (style : Cesium3DTileStyle)
    : list (Cesium3DTileFeature -> Cesium3DTileFeature) :=
  [ assignEvaluatedColor "color" (style_color style);
    assignEvaluated "show" (style_show style);
    assignEvaluated "pointSize" (style_pointSize style);
    assignEvaluatedColor "pointColor" (style_pointColor style);
    assignEvaluatedColor "pointOutlineColor" (style_pointOutlineColor style);
    assignEvaluated "pointOutlineWidth" (style_pointOutlineWidth style);
    assignEvaluatedColor "labelOutlineColor" (style_labelOutlineColor style);
    assignEvaluated "labelOutlineWidth" (style_labelOutlineWidth style);
    assignEvaluated "font" (style_font style);
    assignEvaluated "labelStyle" (style_labelStyle style);
    match style_labelText style with
    | Some labelText => assignEvaluated "labelText" labelText
    | None => assign "labelText" VUndefined
    end;
    match style_backgroundColor style with
    | Some backgroundColor =>
        assignEvaluatedColor "backgroundColor" backgroundColor
    | None => fun feature => feature
    end;
    match style_backgroundPadding style with
    | Some backgroundPadding =>
        assignEvaluated "backgroundPadding" backgroundPadding
    | None => fun feature => feature
    end;
    assignEvaluated "backgroundEnabled" (style_backgroundEnabled style);
    match style_scaleByDistance style with
    | Some scaleByDistance =>
        fun feature =>
          let scaleByDistanceCart4 := scaleByDistance feature in
          assign "scaleByDistance" (newNearFarScalar scaleByDistanceCart4)
            feature
    | None => assign "scaleBydistance" VUndefined
    end;
    match style_translucencyByDistance style with
    | Some translucencyByDistance =>
        fun feature =>
          let translucencyByDistanceCart4 := translucencyByDistance feature in
          assign "translucencyByDistance"
            (newNearFarScalar translucencyByDistanceCart4) feature
    | None => assign "translucencyByDistance" VUndefined
    end;
    match style_distanceDisplayCondition style with
    | Some distanceDisplayCondition =>
        fun feature =>
          let distanceDisplayConditionCart2 :=
            distanceDisplayCondition feature in
          assign "distanceDisplatCondition"
            (newDistanceDisplayCondition distanceDisplayConditionCart2)
            feature
    | None => assign "distanceDisplayCondition" VUndefined
    end;
    assignEvaluated "heightOffset" (style_heightOffset style);
    assignEvaluated "anchorLineEnabled" (style_anchorLineEnabled style);
    assignEvaluatedColor "anchorLineColor" (style_anchorLineColor style);
    match style_image style with
    | Some image => assignEvaluated "image" image
    | None => assign "image" VUndefined
    end;
    _setBillboardImage ].

Definition applyStyle (style : option Cesium3DTileStyle) : Js unit :=
  createFeatures ;;
  match style with
  | None => clearStyle
  | Some style =>
      content <- this ;;
      match _features content with
      | None => throw TypeError
      | Some features =>
          forLoop 0 (length features)
            (fun i => onFeature i (applyStyleAssignments style))
      end
  end.

(** ** Destruction (lines 724-739) *)

(** [isDestroyed] as the prototype defines it (line 725). *)
Definition prototype_isDestroyed : bool := false.

(** [content.isDestroyed()]: an own property shadows the prototype's. *)
Definition isDestroyed (content : Vector3DTileContent) : bool :=
  match own_isDestroyed content with
  | Some answer => answer
  | None => prototype_isDestroyed
  end.

(** [member && member.destroy()]: an undefined member stays undefined.
    Modelled from the spec: the [destroy] methods of the primitive sets, the
    collections and the batch table are not part of the sources; they release the
    object and return undefined. *)
Definition andDestroy {A : Type} (member : option A) : option A :=
  match member with
  | None => None
  | Some _ => None
  end.

(** Modelled from the spec: Core/destroyObject is not part of the sources; after it ran
    on an object, [isDestroyed()] of that object returns true. *)
Definition destroyObject (content : Vector3DTileContent) : Vector3DTileContent :=
  with_own_isDestroyed (Some true) content.

Definition destroy : Js unit :=
  update_this (fun c => with_polygons (andDestroy (_polygons c)) c) ;;
  update_this (fun c => with_polylines (andDestroy (_polylines c)) c) ;;
  update_this (fun c =>
    with_billboardCollection (andDestroy (_billboardCollection c)) c) ;;
  update_this (fun c =>
    with_labelCollection (andDestroy (_labelCollection c)) c) ;;
  update_this (fun c =>
    with_polylineCollection (andDestroy (_polylineCollection c)) c) ;;
  update_this (fun c => with_batchTable (andDestroy (_batchTable c)) c) ;;
  update_this destroyObject.

(** ** Notions used to state the properties *)

(** Absolute coordinates on the quantization grid, 0..32767. *)
Definition quantized (coordinates : list Z) : Prop :=
  Forall (fun x => 0 <= x <= maxShort) coordinates.

(** The features are consistent with the batch table: when they have been
    created, there is one per row of the batch table. *)
Definition featuresConsistent (content : Vector3DTileContent) : Prop :=
  forall features,
    _features content = Some features ->
    Z.of_nat (length features) = featuresLength content.

(** The documented defaults of a feature without style. *)
Definition hasDefaultStyle (feature : Cesium3DTileFeature) : Prop :=
  property "show" feature = Some (VBoolean true)
  /\ property "color" feature = Some (VColor Color_WHITE)
  /\ property "pointSize" feature = Some (VNumber 8%Q)
  /\ property "pointColor" feature = Some (VColor Color_WHITE)
  /\ property "pointOutlineColor" feature = Some (VColor Color_BLACK)
  /\ property "pointOutlineWidth" feature = Some (VNumber 0%Q)
  /\ property "labelOutlineColor" feature = Some (VColor Color_WHITE)
  /\ property "labelOutlineWidth" feature = Some (VNumber 1%Q)
  /\ property "font" feature = Some (VString "30px sans-serif")
  /\ property "labelStyle" feature = Some (VLabelStyle LabelStyle_FILL)
  /\ property "labelText" feature = Some VUndefined
  /\ property "backgroundColor" feature = Some VUndefined
  /\ property "backgroundPadding" feature = Some VUndefined
  /\ property "backgroundEnabled" feature = Some (VBoolean false)
  /\ property "scaleByDistance" feature = Some VUndefined
  /\ property "translucencyByDistance" feature = Some VUndefined
  /\ property "distanceDisplayCondition" feature = Some VUndefined
  /\ property "heightOffset" feature = Some (VNumber 0%Q)
  /\ property "anchorLineEnabled" feature = Some (VBoolean false)
  /\ property "anchorLineColor" feature = Some (VColor Color_WHITE)
  /\ property "image" feature = Some VUndefined.

(** An assignment that leaves the property [name] of a feature alone. *)
Definition keeps (name : string)
    (step : Cesium3DTileFeature -> Cesium3DTileFeature) : Prop :=
  forall feature, property name (step feature) = property name feature.

(** The ids [first, first + 1, ...] of a type with [count] primitives; a type
    without primitives has no id array. *)
Definition sequentialIds (first count : Z) : option (list Z) :=
  if 0 <? count then Some (seqZ first count) else None.

(** The same ids as 16-bit elements keep them. *)
Definition storedSequentialIds (first count : Z) : option (list Z) :=
  if 0 <? count then Some (map toUint16 (seqZ first count)) else None.

(** The ids of the three types together. *)
Definition allBatchIds
    (ids : option (list Z) * option (list Z) * option (list Z)) : list Z :=
  default [] ids.1.1 ++ default [] ids.1.2 ++ default [] ids.2.

(** The feature table of a tile: the JSON text that follows the 44-byte
    header, parsed. *)
Definition tileFeatureTable
    (JSON_parse_featureTable : string -> option FeatureTableJson)
    (arrayBuffer : ArrayBuffer) (byteOffset : option Z)
    : option FeatureTableJson :=
  match getUint32 arrayBuffer (defaultValue byteOffset 0 + 12) with
  | Normal featureTableJSONByteLength =>
      JSON_parse_featureTable
        (getStringFromTypedArray arrayBuffer (defaultValue byteOffset 0 + 44)
           featureTableJSONByteLength)
  | Throw _ => None
  end.

(** What the builders of a content were given, for a tile with the feature
    table [featureTableJson]: the polygon and polyline sets got the batch ids
    that lines 326-389 resolve, the polyline set got the widths of lines
    446-455, and the billboard of point [i] got the [i]-th point batch id. *)
Definition buildersGiven (featureTableJson : FeatureTableJson)
    (content : Vector3DTileContent) : Prop :=
  let numberOfPolygons := defaultValue (POLYGONS_LENGTH featureTableJson) 0 in
  let numberOfPolylines := defaultValue (POLYLINES_LENGTH featureTableJson) 0 in
  let numberOfPoints := defaultValue (POINTS_LENGTH featureTableJson) 0 in
  exists featureTableBinary ids,
    (forall polygons,
       _polygons content = Some polygons ->
       resolveBatchIds featureTableJson featureTableBinary
         numberOfPolygons numberOfPolylines numberOfPoints = Normal ids
       /\ pg_batchIds polygons = ids.1.1)
    /\ (forall polylines,
          _polylines content = Some polylines ->
          resolveBatchIds featureTableJson featureTableBinary
            numberOfPolygons numberOfPolylines numberOfPoints = Normal ids
          /\ pl_batchIds polylines = ids.1.2
          /\ polylineWidths featureTableJson featureTableBinary
               numberOfPolylines
             = Normal (pl_widths polylines))
    /\ (forall billboards,
          _billboardCollection content = Some billboards ->
          resolveBatchIds featureTableJson featureTableBinary
            numberOfPolygons numberOfPolylines numberOfPoints = Normal ids
          /\ (length billboards <= Z.to_nat numberOfPoints)%nat
          /\ forall i billboard,
               billboards !! i = Some billboard ->
               exists pointBatchIds,
                 ids.2 = Some pointBatchIds
                 /\ b_batchIndex billboard = pointBatchIds !! i).

(** ** Sample tiles

    Buffers and feature tables used to run the decoder on concrete input. *)

Definition byteOfZ (x : Z) : byte :=
  default "000"%byte (Byte.of_N (Z.to_N (x mod 256))).

Definition uint16Bytes (x : Z) : list byte :=
  [byteOfZ x; byteOfZ (x / 256)].

Definition uint32Bytes (x : Z) : list byte :=
  [byteOfZ x; byteOfZ (x / 256); byteOfZ (x / 65536); byteOfZ (x / 16777216)].

(** A tile: the 44-byte header, with the section lengths taken from the
    sections, followed by the sections themselves. *)
Definition makeTile (magic : string) (version : Z) (empty : bool)
    (featureTableJSON featureTableBinary indices positions : list byte)
    (polylinePositions pointsPositions : list byte) : ArrayBuffer :=
  let body :=
    featureTableJSON ++ featureTableBinary ++ indices ++ positions
    ++ polylinePositions ++ pointsPositions in
  list_byte_of_string magic
  ++ uint32Bytes version
  ++ uint32Bytes (if empty then 0 else 44 + byteLengthOf body)
  ++ uint32Bytes (byteLengthOf featureTableJSON)
  ++ uint32Bytes (byteLengthOf featureTableBinary)
  ++ uint32Bytes 0
  ++ uint32Bytes 0
  ++ uint32Bytes (byteLengthOf indices)
  ++ uint32Bytes (byteLengthOf positions)
  ++ uint32Bytes (byteLengthOf polylinePositions)
  ++ uint32Bytes (byteLengthOf pointsPositions)
  ++ body.

Definition sampleTileObject : Tile :=
  {| contentBoundingVolume_rectangle :=
       {| west := 0%Q; south := 0%Q; east := 1%Q; north := 1%Q |};
     _boundingVolume_boundingVolume := 1%nat;
     computedTransform := 2%nat |}.

(** A feature table with the given counts that declares no batch ids and no
    widths.  The polygon counts are at offset 0 of the binary, the polygon
    index counts at 8 and the polyline counts at 16. *)
Definition sampleFeatureTable (polygons polylines points : Z) : FeatureTableJson :=
  {| POLYGONS_LENGTH := Some polygons;
     POLYLINES_LENGTH := Some polylines;
     POINTS_LENGTH := Some points;
     RTC_CENTER := None;
     RECTANGLE := None;
     MINIMUM_HEIGHT := Some 0%Q;
     MAXIMUM_HEIGHT := Some 100%Q;
     FORMAT := None;
     POLYGON_BATCH_IDS := None;
     POLYLINE_BATCH_IDS := None;
     POINT_BATCH_IDS := None;
     POLYGON_COUNT := Some 0;
     POLYGON_INDEX_COUNT := Some 8;
     POLYGON_MINIMUM_HEIGHTS := None;
     POLYGON_MAXIMUM_HEIGHTS := None;
     POLYLINE_COUNT := Some 16;
     POLYLINE_WIDTHS := None |}.

(** The same feature table with the polygon batch ids declared at offset 28 of
    the binary. *)
Definition sampleFeatureTableWithPolygonIds (polygons polylines points : Z)
    : FeatureTableJson :=
  {| POLYGONS_LENGTH := Some polygons;
     POLYLINES_LENGTH := Some polylines;
     POINTS_LENGTH := Some points;
     RTC_CENTER := None;
     RECTANGLE := None;
     MINIMUM_HEIGHT := Some 0%Q;
     MAXIMUM_HEIGHT := Some 100%Q;
     FORMAT := None;
     POLYGON_BATCH_IDS := Some 28;
     POLYLINE_BATCH_IDS := None;
     POINT_BATCH_IDS := None;
     POLYGON_COUNT := Some 0;
     POLYGON_INDEX_COUNT := Some 8;
     POLYGON_MINIMUM_HEIGHTS := None;
     POLYGON_MAXIMUM_HEIGHTS := None;
     POLYLINE_COUNT := Some 16;
     POLYLINE_WIDTHS := None |}.

(** The binary of the sample feature tables: two polygons of 3 vertices and 3
    indices each, three polylines of 2 vertices each, and the polygon batch
    ids 7 and 9. *)
Definition sampleFeatureTableBinary : list byte :=
  uint32Bytes 3 ++ uint32Bytes 3
  ++ uint32Bytes 3 ++ uint32Bytes 3
  ++ uint32Bytes 2 ++ uint32Bytes 2 ++ uint32Bytes 2
  ++ uint16Bytes 7 ++ uint16Bytes 9.

Definition sampleIndices : list byte :=
  flat_map uint32Bytes [0; 1; 2; 3; 4; 5].

Definition samplePolygonPositions : list byte :=
  flat_map uint16Bytes [0; 100; 200; 300; 400; 500; 0; 0; 100; 100; 200; 200].

Definition samplePolylinePositions : list byte :=
  flat_map uint16Bytes
    [0; 10; 20; 30; 40; 50; 0; 10; 20; 30; 40; 50; 0; 0; 0; 0; 0; 0].

(** Three points at (10, 0, 7), (5, 32767, 7) and (32767, 0, 8), delta and
    zig-zag encoded. *)
Definition samplePointPositions : list byte :=
  let '(u, v, height) :=
    zigZagDeltaEncode [10; 5; 32767] [0; 32767; 0] [7; 7; 8] in
  flat_map uint16Bytes (u ++ v ++ height).

(** Two polygons, three polylines and three points. *)
Definition sampleTile : ArrayBuffer :=
  makeTile "vctr" 1 false (list_byte_of_string "{  }")
    sampleFeatureTableBinary sampleIndices samplePolygonPositions
    samplePolylinePositions samplePointPositions.

Definition sampleEmptyTile : ArrayBuffer :=
  makeTile "vctr" 1 true [] [] [] [] [] [].

Definition sampleBadMagicTile : ArrayBuffer :=
  makeTile "xxxx" 1 true [] [] [] [] [] [].

Definition sampleVersion2Tile : ArrayBuffer :=
  makeTile "vctr" 2 true [] [] [] [] [] [].

(** The parsers of the samples: whatever the text, the feature table is the
    given one and the batch table is an empty object. *)
Definition sampleParse (featureTableJson : FeatureTableJson)
    : string -> option FeatureTableJson :=
  fun _ => Some featureTableJson.

Definition sampleParseBatchTable : string -> option Json :=
  fun _ => Some (JObject []).

Definition decodeSample (featureTableJson : FeatureTableJson)
    (arrayBuffer : ArrayBuffer) : Vector3DTileContent * Completion unit :=
  newVector3DTileContent (sampleParse featureTableJson) sampleParseBatchTable
    0%nat sampleTileObject "sample.vctr" arrayBuffer None.

(** Three points and nothing else. *)
Definition samplePointsTile : ArrayBuffer :=
  makeTile "vctr" 1 false (list_byte_of_string "{  }")
    [] [] [] [] samplePointPositions.

(** A style that defines every optional property; its distance display
    condition is (10, 1000) for every feature. *)
Definition sampleStyle : Cesium3DTileStyle :=
  {| style_color := fun _ => Color_BLACK;
     style_show := fun _ => VBoolean true;
     style_pointSize := fun _ => VNumber 4%Q;
     style_pointColor := fun _ => Color_BLACK;
     style_pointOutlineColor := fun _ => Color_WHITE;
     style_pointOutlineWidth := fun _ => VNumber 2%Q;
     style_labelOutlineColor := fun _ => Color_BLACK;
     style_labelOutlineWidth := fun _ => VNumber 3%Q;
     style_font := fun _ => VString "12px serif";
     style_labelStyle := fun _ => VLabelStyle LabelStyle_OUTLINE;
     style_labelText := Some (fun _ => VString "name");
     style_backgroundColor := Some (fun _ => Color_WHITE);
     style_backgroundPadding := Some (fun _ => VNumber 5%Q);
     style_backgroundEnabled := fun _ => VBoolean true;
     style_scaleByDistance :=
       Some (fun _ => {| c4_x := 1%Q; c4_y := 2%Q; c4_z := 3%Q; c4_w := 4%Q |});
     style_translucencyByDistance :=
       Some (fun _ => {| c4_x := 5%Q; c4_y := 6%Q; c4_z := 7%Q; c4_w := 8%Q |});
     style_distanceDisplayCondition :=
       Some (fun _ => {| c2_x := 10%Q; c2_y := 1000%Q |});
     style_heightOffset := fun _ => VNumber 9%Q;
     style_anchorLineEnabled := fun _ => VBoolean true;
     style_anchorLineColor := fun _ => Color_BLACK;
     style_image := Some (fun _ => VString "icon.png") |}.

(** A feature table with the given polygon and polyline counts, no points and
    the given POLYGON_BATCH_IDS key; the arrays it references are at offset 0
    of the binary. *)
Definition sampleFeatureTableSmall (polygons polylines : Z)
    (polygonBatchIds : option Z) : FeatureTableJson :=
  {| POLYGONS_LENGTH := Some polygons;
     POLYLINES_LENGTH := Some polylines;
     POINTS_LENGTH := Some 0;
     RTC_CENTER := None;
     RECTANGLE := None;
     MINIMUM_HEIGHT := Some 0%Q;
     MAXIMUM_HEIGHT := Some 100%Q;
     FORMAT := None;
     POLYGON_BATCH_IDS := polygonBatchIds;
     POLYLINE_BATCH_IDS := None;
     POINT_BATCH_IDS := None;
     POLYGON_COUNT := Some 0;
     POLYGON_INDEX_COUNT := Some 0;
     POLYGON_MINIMUM_HEIGHTS := None;
     POLYGON_MAXIMUM_HEIGHTS := None;
     POLYLINE_COUNT := Some 0;
     POLYLINE_WIDTHS := None |}.

(** A view over an empty feature-table binary. *)
Definition sampleEmptyBinary : Uint8ArrayView :=
  {| view_buffer := []; view_byteOffset := 0; view_length := 0 |}.

(** ** More notions used to state properties *)

(** The content as lines 65-83 of the constructor set it, before
    [initialize] runs. *)
Definition freshContent (tileset : ObjRef) (tile : Tile) (url : string)
    : Vector3DTileContent :=
  {| _tileset := tileset;
     _tile := tile;
     _url := url;
     _polygons := None;
     _polylines := None;
     _billboardCollection := None;
     _labelCollection := None;
     _polylineCollection := None;
     _readyPromise := Pending;
     _batchTable := None;
     _features := None;
     featurePropertiesDirty := false;
     own_isDestroyed := None |}.

(** The fields that decoding the primitives does not write. *)
Definition sameOutsidePrimitives (c c' : Vector3DTileContent) : Prop :=
  _tileset c' = _tileset c
  /\ _tile c' = _tile c
  /\ _url c' = _url c
  /\ _readyPromise c' = _readyPromise c
  /\ _batchTable c' = _batchTable c
  /\ _features c' = _features c
  /\ featurePropertiesDirty c' = featurePropertiesDirty c
  /\ own_isDestroyed c' = own_isDestroyed c.

(** A content without primitive sets and point collections. *)
Definition noPrimitives (c : Vector3DTileContent) : Prop :=
  _polygons c = None
  /\ _polylines c = None
  /\ _billboardCollection c = None
  /\ _labelCollection c = None
  /\ _polylineCollection c = None.

(** A tile whose header is valid and whose feature-table JSON is empty
    although its byteLength is not 0. *)
Definition sampleNoFeatureTableTile : ArrayBuffer :=
  makeTile "vctr" 1 false [] [] [] [] [] [].

(** The sample tile cut off in the middle of its table of section lengths. *)
Definition sampleTruncatedTile : ArrayBuffer := take 30 sampleTile.

(** The position record of point [i] (lines 489-498). *)
Definition pointPositionAt (uBuffer vBuffer heightBuffer : list Z)
    (rectangle : Rectangle) (minHeight maxHeight : option Number) (i : nat)
    : PointPosition :=
  {| pos_u := uBuffer !! i;
     pos_v := vBuffer !! i;
     pos_height := heightBuffer !! i;
     pos_rectangle := rectangle;
     pos_minimumHeight := minHeight;
     pos_maximumHeight := maxHeight |}.

(** The billboards, labels and anchor lines of the first [n] points, as the
    loop of lines 486-513 adds them. *)
Definition billboardsOf (ids uBuffer vBuffer heightBuffer : list Z)
    (rectangle : Rectangle) (minHeight maxHeight : option Number) (n : nat)
    : list Billboard :=
  map (fun i =>
         {| b_position :=
              pointPositionAt uBuffer vBuffer heightBuffer rectangle
                minHeight maxHeight i;
            b_verticalOrigin := VerticalOrigin_BOTTOM;
            b_batchIndex := ids !! i |})
      (seq 0 n).

Definition labelsOf (ids uBuffer vBuffer heightBuffer : list Z)
    (rectangle : Rectangle) (minHeight maxHeight : option Number) (n : nat)
    : list Label :=
  map (fun i =>
         {| l_text := " ";
            l_position :=
              pointPositionAt uBuffer vBuffer heightBuffer rectangle
                minHeight maxHeight i;
            l_verticalOrigin := VerticalOrigin_BOTTOM;
            l_batchIndex := ids !! i |})
      (seq 0 n).

Definition anchorLinesOf (uBuffer vBuffer heightBuffer : list Z)
    (rectangle : Rectangle) (minHeight maxHeight : option Number) (n : nat)
    : list Polyline :=
  map (fun i =>
         {| p_positions :=
              [ pointPositionAt uBuffer vBuffer heightBuffer rectangle
                  minHeight maxHeight i;
                pointPositionAt uBuffer vBuffer heightBuffer rectangle
                  minHeight maxHeight i ] |})
      (seq 0 n).

(** The three point collections of a content, set together. *)
Definition withPointCollections (billboards : list Billboard)
    (labels : list Label) (polylines : list Polyline)
    (c : Vector3DTileContent) : Vector3DTileContent :=
  with_polylineCollection (Some polylines)
    (with_labelCollection (Some labels)
       (with_billboardCollection (Some billboards) c)).

(** The decoded coordinate arrays of the points of a position buffer
    (lines 481-484). *)
Definition decodedPointBuffers (pointPositions : list Z) (numberOfPoints : Z)
    : list Z * list Z * list Z :=
  zigZagDeltaDecode
    (subarray pointPositions 0 numberOfPoints)
    (subarray pointPositions numberOfPoints (2 * numberOfPoints))
    (subarray pointPositions (2 * numberOfPoints) (3 * numberOfPoints)).

(** The three counts [initialize] reads from a feature table
    (lines 294-298). *)
Definition numberOfPolygonsOf (featureTableJson : FeatureTableJson) : Z :=
  defaultValue (POLYGONS_LENGTH featureTableJson) 0.

Definition numberOfPolylinesOf (featureTableJson : FeatureTableJson) : Z :=
  defaultValue (POLYLINES_LENGTH featureTableJson) 0.

Definition numberOfPointsOf (featureTableJson : FeatureTableJson) : Z :=
  defaultValue (POINTS_LENGTH featureTableJson) 0.

Definition totalPrimitivesOf (featureTableJson : FeatureTableJson) : Z :=
  numberOfPolygonsOf featureTableJson + numberOfPolylinesOf featureTableJson
  + numberOfPointsOf featureTableJson.

(** The center and the rectangle the builders of a tile work in
    (lines 306-318). *)
Definition centerOf (featureTableJson : FeatureTableJson) : Cartesian3 :=
  defaultValue (RTC_CENTER featureTableJson) Cartesian3_ZERO.

Definition rectangleOf (featureTableJson : FeatureTableJson) (tile : Tile)
    : Rectangle :=
  defaultValue (RECTANGLE featureTableJson)
    (contentBoundingVolume_rectangle tile).

(** A polygon set built for a feature table and a tile: its frame of
    reference and its per-polygon arrays. *)
Definition polygonsBuiltFor (featureTableJson : FeatureTableJson) (tile : Tile)
    (polygons : Vector3DTilePolygons) : Prop :=
  0 < numberOfPolygonsOf featureTableJson
  /\ pg_center polygons = centerOf featureTableJson
  /\ pg_rectangle polygons = rectangleOf featureTableJson tile
  /\ pg_minimumHeight polygons = MINIMUM_HEIGHT featureTableJson
  /\ pg_maximumHeight polygons = MAXIMUM_HEIGHT featureTableJson
  /\ pg_isCartographic polygons
     = (defaultValue (FORMAT featureTableJson) 0 =? 0)
  /\ pg_modelMatrix polygons = computedTransform tile
  /\ pg_boundingVolume polygons = _boundingVolume_boundingVolume tile
  /\ is_Some (POLYGON_COUNT featureTableJson)
  /\ is_Some (POLYGON_INDEX_COUNT featureTableJson)
  /\ Z.of_nat (length (pg_counts polygons))
     = numberOfPolygonsOf featureTableJson
  /\ Z.of_nat (length (pg_indexCounts polygons))
     = numberOfPolygonsOf featureTableJson
  /\ (forall ids, pg_batchIds polygons = Some ids ->
                  Z.of_nat (length ids) = numberOfPolygonsOf featureTableJson).

Definition polylinesBuiltFor (featureTableJson : FeatureTableJson)
    (tile : Tile) (polylines : Vector3DTilePolylines) : Prop :=
  0 < numberOfPolylinesOf featureTableJson
  /\ pl_center polylines = centerOf featureTableJson
  /\ pl_rectangle polylines = rectangleOf featureTableJson tile
  /\ pl_minimumHeight polylines = MINIMUM_HEIGHT featureTableJson
  /\ pl_maximumHeight polylines = MAXIMUM_HEIGHT featureTableJson
  /\ pl_boundingVolume polylines = _boundingVolume_boundingVolume tile
  /\ is_Some (POLYLINE_COUNT featureTableJson)
  /\ Z.of_nat (length (pl_counts polylines))
     = numberOfPolylinesOf featureTableJson
  /\ Z.of_nat (length (pl_widths polylines))
     = numberOfPolylinesOf featureTableJson
  /\ (forall ids, pl_batchIds polylines = Some ids ->
                  Z.of_nat (length ids)
                  = numberOfPolylinesOf featureTableJson).

(** Point collections built for a feature table: either one record per point
    in each, every record with a batch id, or three empty collections (the
    points have no batch ids and the loop stopped at the first point). *)
Definition pointsBuiltFor (featureTableJson : FeatureTableJson) (tile : Tile)
    (billboards : list Billboard) (labels : list Label)
    (polylines : list Polyline) : Prop :=
  0 < numberOfPointsOf featureTableJson
  /\ length labels = length billboards
  /\ length polylines = length billboards
  /\ (billboards = []
      \/ Z.of_nat (length billboards) = numberOfPointsOf featureTableJson)
  /\ Forall (fun billboard =>
               is_Some (b_batchIndex billboard)
               /\ b_verticalOrigin billboard = VerticalOrigin_BOTTOM
               /\ pos_rectangle (b_position billboard)
                  = rectangleOf featureTableJson tile)
            billboards
  /\ Forall (fun label =>
               is_Some (l_batchIndex label)
               /\ l_text label = " "
               /\ l_verticalOrigin label = VerticalOrigin_BOTTOM)
            labels
  /\ Forall (fun polyline =>
               exists position, p_positions polyline = [position; position])
            polylines.

(** What the constructor leaves in a content, for a tile with the feature
    table [featureTableJson]. *)
Definition decodedFor (featureTableJson : FeatureTableJson) (tile : Tile)
    (content : Vector3DTileContent) (r : Completion unit) : Prop :=
  (forall polygons,
     _polygons content = Some polygons ->
     polygonsBuiltFor featureTableJson tile polygons)
  /\ (forall polylines,
        _polylines content = Some polylines ->
        polylinesBuiltFor featureTableJson tile polylines)
  /\ (_billboardCollection content = None
      /\ _labelCollection content = None
      /\ _polylineCollection content = None
      \/ exists billboards labels polylines,
           _billboardCollection content = Some billboards
           /\ _labelCollection content = Some labels
           /\ _polylineCollection content = Some polylines
           /\ pointsBuiltFor featureTableJson tile billboards labels
                polylines)
  /\ (r = Normal tt ->
      (0 < numberOfPolygonsOf featureTableJson ->
       is_Some (_polygons content))
      /\ (0 < numberOfPolylinesOf featureTableJson ->
          is_Some (_polylines content))
      /\ (0 < numberOfPointsOf featureTableJson ->
          exists billboards,
            _billboardCollection content = Some billboards
            /\ Z.of_nat (length billboards)
               = numberOfPointsOf featureTableJson)).

(** A content with, possibly, a polygon set, a polyline set and point
    collections added. *)
Definition addPolygons (built : option Vector3DTilePolygons)
    (c : Vector3DTileContent) : Vector3DTileContent :=
  match built with
  | Some polygons => with_polygons (Some polygons) c
  | None => c
  end.

Definition addPolylines (built : option Vector3DTilePolylines)
    (c : Vector3DTileContent) : Vector3DTileContent :=
  match built with
  | Some polylines => with_polylines (Some polylines) c
  | None => c
  end.

Definition addPoints
    (built : option (list Billboard * list Label * list Polyline))
    (c : Vector3DTileContent) : Vector3DTileContent :=
  match built with
  | Some (billboards, labels, polylines) =>
      withPointCollections billboards labels polylines c
  | None => c
  end.

(** The sample feature table without the POLYGON_COUNT key. *)
Definition sampleFeatureTableWithoutPolygonCount
    (polygons polylines points : Z) : FeatureTableJson :=
  {| POLYGONS_LENGTH := Some polygons;
     POLYLINES_LENGTH := Some polylines;
     POINTS_LENGTH := Some points;
     RTC_CENTER := None;
     RECTANGLE := None;
     MINIMUM_HEIGHT := Some 0%Q;
     MAXIMUM_HEIGHT := Some 100%Q;
     FORMAT := None;
     POLYGON_BATCH_IDS := None;
     POLYLINE_BATCH_IDS := None;
     POINT_BATCH_IDS := None;
     POLYGON_COUNT := None;
     POLYGON_INDEX_COUNT := Some 8;
     POLYGON_MINIMUM_HEIGHTS := None;
     POLYGON_MAXIMUM_HEIGHTS := None;
     POLYLINE_COUNT := Some 16;
     POLYLINE_WIDTHS := None |}.

(** The features of a content are indexed by batch id: when they have been
    created there is one per row of the batch table, and the feature at
    index [i] has the batch id [i]. *)
Definition featuresIndexed (content : Vector3DTileContent) : Prop :=
  forall features,
    _features content = Some features ->
    Z.of_nat (length features) = featuresLength content
    /\ forall i feature,
         features !! i = Some feature -> f_batchId feature = Z.of_nat i.

(** The features of a content as [createFeatures] leaves them: the existing
    ones, or fresh ones when there were none. *)
Definition materialized (content : Vector3DTileContent)
    : list Cesium3DTileFeature :=
  default [] (_features (createFeatures content).1).

(** The features of a content after a call of [applyStyle]. *)
Definition styled (style : option Cesium3DTileStyle)
    (content : Vector3DTileContent) : list Cesium3DTileFeature :=
  default [] (_features (applyStyle style content).1).


(** A style that defines none of the optional properties. *)
Definition sampleStyleWithoutOptionals : Cesium3DTileStyle :=
  {| style_color := fun _ => Color_BLACK;
     style_show := fun _ => VBoolean true;
     style_pointSize := fun _ => VNumber 4%Q;
     style_pointColor := fun _ => Color_BLACK;
     style_pointOutlineColor := fun _ => Color_WHITE;
     style_pointOutlineWidth := fun _ => VNumber 2%Q;
     style_labelOutlineColor := fun _ => Color_BLACK;
     style_labelOutlineWidth := fun _ => VNumber 3%Q;
     style_font := fun _ => VString "12px serif";
     style_labelStyle := fun _ => VLabelStyle LabelStyle_OUTLINE;
     style_labelText := None;
     style_backgroundColor := None;
     style_backgroundPadding := None;
     style_backgroundEnabled := fun _ => VBoolean true;
     style_scaleByDistance := None;
     style_translucencyByDistance := None;
     style_distanceDisplayCondition := None;
     style_heightOffset := fun _ => VNumber 9%Q;
     style_anchorLineEnabled := fun _ => VBoolean true;
     style_anchorLineColor := fun _ => Color_BLACK;
     style_image := None |}.

(** The content of the sample tile with three points, and the same content
    after a first pass of the sample style. *)
Definition samplePointsContent : Vector3DTileContent :=
  (decodeSample (sampleFeatureTable 0 0 3) samplePointsTile).1.

Definition sampleStyledContent : Vector3DTileContent :=
  (applyStyle (Some sampleStyle) samplePointsContent).1.

(** ** The content in the scene (lines 198-204, 539-541, 689-719)

    [update], [hasProperty] and the color-changed callback call methods of
    the collaborators.  Those methods are not part of the sources: a call is
    recorded, in order, and returns. *)

Inductive ExternalCall : Type :=
  | BatchTable_update
  | Polygons_update
  | Polylines_update
  | BillboardCollection_update
  | LabelCollection_update
  | PolylineCollection_update
  | Polygons_readyPromise_then
  | Polygons_updateCommands (batchId : Z) (color : Color).

Global Instance Number_eq_dec : EqDecision Number.
Proof. unfold Number. solve_decision. Defined.

Global Instance Color_eq_dec : EqDecision Color.
Proof. solve_decision. Defined.

Global Instance ExternalCall_eq_dec : EqDecision ExternalCall.
Proof. solve_decision. Defined.

(** The values [update] gives to [_polygonReadyPromise]: [true], or the
    promise that [then] returned. *)
Inductive PolygonReadyPromise : Type :=
  | PolygonReadyPromise_true
  | PolygonReadyPromise_then.

(** The content object with the field that [update] adds to it (the
    constructor does not set it, so it starts undefined), and the calls made
    so far on its collaborators. *)
Record LiveContent : Type :=
  { live_content : Vector3DTileContent;
    _polygonReadyPromise : option PolygonReadyPromise;
    calls : list ExternalCall }.

Definition live (content : Vector3DTileContent) : LiveContent :=
  {| live_content := content; _polygonReadyPromise := None; calls := [] |}.

Definition call (e : ExternalCall) (s : LiveContent) : LiveContent :=
  {| live_content := live_content s;
     _polygonReadyPromise := _polygonReadyPromise s;
     calls := calls s ++ [e] |}.

(** [if (condition) { collaborator.method(...); }] *)
Definition callIf (condition : bool) (e : ExternalCall) (s : LiveContent)
    : LiveContent :=
  if condition then call e s else s.

(** Line 711: [this._polygonReadyPromise = this._polygons.readyPromise.then(...)]. *)
Definition registerThen (s : LiveContent) : LiveContent :=
  {| live_content := live_content s;
     _polygonReadyPromise := Some PolygonReadyPromise_then;
     calls := calls s ++ [Polygons_readyPromise_then] |}.

(** Lines 715-716. *)
Definition resolveNow (s : LiveContent) : LiveContent :=
  {| live_content :=
       with_readyPromise (resolve (_readyPromise (live_content s)))
         (live_content s);
     _polygonReadyPromise := Some PolygonReadyPromise_true;
     calls := calls s |}.


(** Lines 689-719.  Calling [update] of an undefined label or polyline
    collection is a TypeError. *)
Definition update (s : LiveContent) : LiveContent * Completion unit :=
  let s :=
    callIf (defined (_batchTable (live_content s))) BatchTable_update s in
  let s := callIf (defined (_polygons (live_content s))) Polygons_update s in
  let s := callIf (defined (_polylines (live_content s))) Polylines_update s in
  let '(s, r) :=
    if defined (_billboardCollection (live_content s)) then
      let s := call BillboardCollection_update s in
      if defined (_labelCollection (live_content s)) then
        let s := call LabelCollection_update s in
        if defined (_polylineCollection (live_content s)) then
          (call PolylineCollection_update s, Normal tt)
        else (s, Throw TypeError)
      else (s, Throw TypeError)
    else (s, Normal tt) in
  match r with
  | Throw e => (s, Throw e)
  | Normal _ =>
      if negb (defined (_polygonReadyPromise s)) then
        if defined (_polygons (live_content s)) then
          (registerThen s, Normal tt)
        else (resolveNow s, Normal tt)
      else (s, Normal tt)
  end.

(** Lines 198-204: the callback the batch table is given, called with a batch
    id and a color. *)
Definition createColorChangedCallback (numberOfPolygons : Z) (batchId : Z)
    (color : Color) (s : LiveContent) : LiveContent :=
  callIf (defined (_polygons (live_content s)) && (batchId <? numberOfPolygons))
    (Polygons_updateCommands batchId color) s.

(** Lines 539-541.  [BatchTable_hasProperty] is the method of the batch
    table; calling it on an undefined batch table is a TypeError. *)
Definition hasProperty
    (BatchTable_hasProperty : Cesium3DTileBatchTable -> Z -> string -> bool)
    (batchId : Z) (name : string) (content : Vector3DTileContent)
    : Completion bool :=
  match _batchTable content with
  | Some batchTable => Normal (BatchTable_hasProperty batchTable batchId name)
  | None => Throw TypeError
  end.

(** [update] called once per frame, for a number of frames, until it throws. *)
Fixpoint updates (frames : nat) (s : LiveContent)
    : LiveContent * Completion unit :=
  match frames with
  | O => (s, Normal tt)
  | S k =>
      match update s with
      | (s', Normal _) => updates k s'
      | (s', Throw e) => (s', Throw e)
      end
  end.

(** How often a call was made. *)
Definition callsOf (e : ExternalCall) (s : LiveContent) : nat :=
  length (filter (eq e) (calls s)).

(** The three point collections exist together or not at all. *)
Definition pointCollectionsTogether (content : Vector3DTileContent) : Prop :=
  defined (_labelCollection content) = defined (_billboardCollection content)
  /\ defined (_polylineCollection content)
     = defined (_billboardCollection content).

(** The calls one frame makes on the live collaborators of a content. *)
Definition frameCalls (content : Vector3DTileContent) : list ExternalCall :=
  (if defined (_batchTable content) then [BatchTable_update] else [])
  ++ (if defined (_polygons content) then [Polygons_update] else [])
  ++ (if defined (_polylines content) then [Polylines_update] else [])
  ++ (if defined (_billboardCollection content)
      then [BillboardCollection_update; LabelCollection_update;
            PolylineCollection_update]
      else []).

(** * DynamicObjectCollection (src/unnamed/part_000)

    An observable collection of objects with unique ids.  A DynamicObject is
    a reference: two of them are the same when they are the same object, and
    [id_of] reads the [id] property of one.  The [_hash] object is used as a
    map from ids to objects; an id is a string, and ids that name a property
    every JavaScript object inherits (such as toString) are outside the
    model.  The listeners of the [_collectionChanged] event are not part of
    the sources: the event keeps the added and removed arrays it was raised
    with, as they were at that moment.  [computeAvailability] needs the time
    arithmetic of JulianDate and is left out. *)

Module DynamicObjectCollection.

Section Collection.

Context {DynamicObject : Type} `{EqDecision DynamicObject}.
Variable id_of : DynamicObject -> string.

Record Collection : Type :=
  { _added : list DynamicObject;
    _array : list DynamicObject;
    _collectionChanged : list (list DynamicObject * list DynamicObject);
    _removed : list DynamicObject;
    _hash : gmap string (option DynamicObject);
    _suspectRefCount : Z }.

(** Lines 36-43. *)
Definition newDynamicObjectCollection : Collection :=
  {| _added := [];
     _array := [];
     _collectionChanged := [];
     _removed := [];
     _hash := ∅;
     _suspectRefCount := 0 |}.

(** [hash[id]]: undefined when the property is missing and when it holds
    undefined. *)
Definition hashGet (hash : gmap string (option DynamicObject)) (id : string)
    : option DynamicObject :=
  match hash !! id with
  | Some value => value
  | None => None
  end.

(** [array.indexOf(x)]: the first index that holds [x], or -1. *)
Definition indexOf (x : DynamicObject) (array : list DynamicObject) : Z :=
  match list_find (fun y => y = x) array with
  | Some (i, _) => Z.of_nat i
  | None => -1
  end.

(** [array.splice(start, 1)]: a negative start counts from the end. *)
Definition splice1 (start : Z) (array : list DynamicObject)
    : list DynamicObject :=
  let len := Z.of_nat (length array) in
  let start :=
    if start <? 0 then Z.max (len + start) 0 else Z.min start len in
  delete (Z.to_nat start) array.

(** Lines 19-29. *)
Definition fireChangedEvent (collection : Collection) : Collection :=
  if _suspectRefCount collection =? 0 then
    let added := _added collection in
    let removed := _removed collection in
    if negb (Nat.eqb (length added) 0) || negb (Nat.eqb (length removed) 0)
    then
      {| _added := [];
         _array := _array collection;
         _collectionChanged :=
           _collectionChanged collection ++ [(added, removed)];
         _removed := [];
         _hash := _hash collection;
         _suspectRefCount := _suspectRefCount collection |}
    else collection
  else collection.

(** Lines 54-56. *)
Definition suspendEvents (collection : Collection) : Collection * Completion unit :=
  ({| _added := _added collection;
      _array := _array collection;
      _collectionChanged := _collectionChanged collection;
      _removed := _removed collection;
      _hash := _hash collection;
      _suspectRefCount := _suspectRefCount collection + 1 |},
   Normal tt).

(** Lines 68-75. *)
Definition resumeEvents (collection : Collection) : Collection * Completion unit :=
  if _suspectRefCount collection =? 0 then
    (collection,
     Throw (DeveloperError
              "resumeEvents can not be called before suspendEvents."))
  else
    (fireChangedEvent
       {| _added := _added collection;
          _array := _array collection;
          _collectionChanged := _collectionChanged collection;
          _removed := _removed collection;
          _hash := _hash collection;
          _suspectRefCount := _suspectRefCount collection - 1 |},
     Normal tt).

(** Lines 148-169. *)
Definition add (dynamicObject : option DynamicObject) (collection : Collection)
    : Collection * Completion unit :=
  match dynamicObject with
  | None => (collection, Throw (DeveloperError "dynamicObject is required."))
  | Some dynamicObject =>
      let id := id_of dynamicObject in
      let hash := _hash collection in
      if defined (hashGet hash id) then
        (collection,
         Throw (DeveloperError
                  ("An object with id " +:+ id
                   +:+ " already exists in this collection.")))
      else
        let hash := <[id := Some dynamicObject]> hash in
        let array := _array collection ++ [dynamicObject] in
        let removed := _removed collection in
        let index := indexOf dynamicObject removed in
        let '(added, removed) :=
          if negb (index =? -1) then (_added collection, splice1 index removed)
          else (_added collection ++ [dynamicObject], removed) in
        (fireChangedEvent
           {| _added := added;
              _array := array;
              _collectionChanged := _collectionChanged collection;
              _removed := removed;
              _hash := hash;
              _suspectRefCount := _suspectRefCount collection |},
         Normal tt)
  end.

(** Lines 196-218. *)
Definition removeById (id : option string) (collection : Collection)
    : Collection * Completion bool :=
  match id with
  | None => (collection, Throw (DeveloperError "id is required."))
  | Some id =>
      let hash := _hash collection in
      let array := _array collection in
      let dynamicObject := hashGet hash id in
      let result := defined dynamicObject in
      match dynamicObject with
      | Some dynamicObject =>
          let hash := <[id := None]> hash in
          let array := splice1 (indexOf dynamicObject array) array in
          let added := _added collection in
          let index := indexOf dynamicObject added in
          let '(added, removed) :=
            if negb (index =? -1) then (splice1 index added, _removed collection)
            else (added, _removed collection ++ [dynamicObject]) in
          (fireChangedEvent
             {| _added := added;
                _array := array;
                _collectionChanged := _collectionChanged collection;
                _removed := removed;
                _hash := hash;
                _suspectRefCount := _suspectRefCount collection |},
           Normal result)
      | None => (collection, Normal result)
      end
  end.

(** Lines 180-185. *)
Definition remove (dynamicObject : option DynamicObject) (collection : Collection)
    : Collection * Completion bool :=
  match dynamicObject with
  | None => (collection, Throw (DeveloperError "dynamicObject is required"))
  | Some dynamicObject => removeById (Some (id_of dynamicObject)) collection
  end.

(** Lines 224-243. *)
Definition removeAll (collection : Collection) : Collection :=
  let removed := _removed collection in
  let added := _added collection in
  let array := _array collection in
  let removed :=
    fold_left
      (fun removed existingItem =>
         if indexOf existingItem added =? -1 then removed ++ [existingItem]
         else removed)
      array removed in
  fireChangedEvent
    {| _added := [];
       _array := [];
       _collectionChanged := _collectionChanged collection;
       _removed := removed;
       _hash := ∅;
       _suspectRefCount := _suspectRefCount collection |}.



(** Lines 281-291.  [created] is the object [new DynamicObject(id)] returns
    when it is evaluated. *)
Definition getOrCreateObject (created : DynamicObject) (id : option string)
    (collection : Collection) : Collection * Completion DynamicObject :=
  match id with
  | None => (collection, Throw (DeveloperError "id is required."))
  | Some id =>
      match hashGet (_hash collection) id with
      | Some dynamicObject => (collection, Normal dynamicObject)
      | None =>
          match add (Some created) collection with
          | (collection, Normal _) => (collection, Normal created)
          | (collection, Throw e) => (collection, Throw e)
          end
      end
  end.

(** ** Notions used to state the properties *)

(** The calls a client can make on a collection. *)
Inductive Operation : Type :=
  | Add (dynamicObject : option DynamicObject)
  | Remove (dynamicObject : option DynamicObject)
  | RemoveById (id : option string)
  | RemoveAll
  | GetOrCreateObject (created : DynamicObject) (id : option string)
  | SuspendEvents
  | ResumeEvents.

(** The collection after a call, whether the call returned or threw. *)
Definition after (operation : Operation) (collection : Collection) : Collection :=
  match operation with
  | Add dynamicObject => (add dynamicObject collection).1
  | Remove dynamicObject => (remove dynamicObject collection).1
  | RemoveById id => (removeById id collection).1
  | RemoveAll => removeAll collection
  | GetOrCreateObject created id => (getOrCreateObject created id collection).1
  | SuspendEvents => (suspendEvents collection).1
  | ResumeEvents => (resumeEvents collection).1
  end.



End Collection.

End DynamicObjectCollection.

(** * Properties *)

(** ** Zig-zag delta coding *)

Lemma land_1_mod_2 (a : Z) : Z.land a 1 = a mod 2.
Proof. exact (Z.land_ones a 1 ltac:(lia)). Qed.

Lemma zigZagDecode_even (d : Z) : 0 <= d -> zigZagDecode (2 * d) = d.
Proof.
  intros Hd. unfold zigZagDecode.
  rewrite Z.shiftr_div_pow2 by lia.
  change (2 ^ 1) with 2.
  replace (2 * d / 2) with d by (apply Z.div_unique_exact; lia).
  replace (Z.land (2 * d) 1) with 0.
  - apply Z.lxor_0_r.
  - rewrite land_1_mod_2. symmetry. rewrite Z.mul_comm. apply Z.mod_mul. lia.
Qed.

Lemma zigZagDecode_odd (d : Z) : d < 0 -> zigZagDecode (- 2 * d - 1) = d.
Proof.
  intros Hd. unfold zigZagDecode.
  rewrite Z.shiftr_div_pow2 by lia.
  change (2 ^ 1) with 2.
  replace ((- 2 * d - 1) / 2) with (- d - 1)
    by (apply (Z.div_unique _ _ _ 1); lia).
  replace (Z.land (- 2 * d - 1) 1) with 1.
  - change (- (1)) with (-1). rewrite Z.lxor_m1_r.
    unfold Z.lnot. lia.
  - rewrite land_1_mod_2. apply (Z.mod_unique _ _ (- d - 1)); lia.
Qed.

Lemma zigZagEncode_nonneg (d : Z) : 0 <= d < 2 ^ 31 -> zigZagEncode d = 2 * d.
Proof.
  intros Hd. unfold zigZagEncode.
  rewrite Z.shiftl_mul_pow2 by lia.
  rewrite Z.shiftr_div_pow2 by lia.
  rewrite Z.div_small by lia.
  rewrite Z.lxor_0_r. change (2 ^ 1) with 2. lia.
Qed.

Lemma zigZagEncode_neg (d : Z) :
  - 2 ^ 31 <= d < 0 -> zigZagEncode d = - 2 * d - 1.
Proof.
  intros Hd. unfold zigZagEncode.
  rewrite Z.shiftl_mul_pow2 by lia.
  rewrite Z.shiftr_div_pow2 by lia.
  replace (d / 2 ^ 31) with (-1)
    by (apply (Z.div_unique _ _ _ (d + 2 ^ 31)); lia).
  rewrite Z.lxor_m1_r. unfold Z.lnot. change (2 ^ 1) with 2. lia.
Qed.

(** A difference that fits in a signed 16-bit integer survives being encoded,
    stored in a 16-bit element and decoded. *)
Lemma zigZag_roundtrip (d : Z) :
  -32768 <= d <= 32767 -> zigZagDecode (toUint16 (zigZagEncode d)) = d.
Proof.
  intros Hd. unfold toUint16.
  destruct (Z.neg_nonneg_cases d) as [Hneg | Hpos].
  - rewrite zigZagEncode_neg by lia.
    rewrite Z.mod_small by lia. by apply zigZagDecode_odd.
  - rewrite zigZagEncode_nonneg by lia.
    rewrite Z.mod_small by lia. by apply zigZagDecode_even.
Qed.

Lemma zigZagDelta_roundtrip_from (coordinates : list Z) (previous : Z) :
  0 <= previous <= maxShort ->
  quantized coordinates ->
  zigZagDeltaDecodeFrom previous (zigZagDeltaEncodeFrom previous coordinates)
  = coordinates.
Proof.
  unfold quantized, maxShort.
  revert previous.
  induction coordinates as [| x rest IH]; intros previous Hp Hq; [done |].
  apply Forall_cons in Hq as [Hx Hrest].
  cbn [zigZagDeltaEncodeFrom zigZagDeltaDecodeFrom].
  rewrite zigZag_roundtrip by lia.
  replace (previous + (x - previous)) with x by lia.
  rewrite IH by done.
  unfold toUint16. by rewrite Z.mod_small by lia.
Qed.

Example zigZagDeltaDecode_sample :
  zigZagDeltaDecode [20; 9; 65534] [0; 1; 2] [65533; 65534; 3]
  = ([10; 5; 32772], [0; 65535; 0], [32769; 0; 65534]).
Proof. reflexivity. Qed.

(** C5: zig-zag delta decoding inverts delta-then-zig-zag encoding.  For every
    N >= 0 and every three arrays of absolute coordinates on the 16-bit
    quantization grid (0..32767), encoding the successive differences and
    decoding them, each array on its own and in index order, gives back the
    original coordinates exactly. *)
Theorem zigZagDeltaDecode_inverts_encode (u v height : list Z) :
  quantized u -> quantized v -> quantized height ->
  zigZagDeltaDecode (zigZagDeltaEncode u v height).1.1
                    (zigZagDeltaEncode u v height).1.2
                    (zigZagDeltaEncode u v height).2
  = (u, v, height).
Proof.
  intros Hu Hv Hh. unfold zigZagDeltaDecode, zigZagDeltaEncode. cbn [fst snd].
  rewrite !zigZagDelta_roundtrip_from; try done; unfold maxShort; lia.
Qed.

Lemma zigZagDeltaDecode_inverts_encode_witness :
  zigZagDeltaDecode
    (zigZagDeltaEncode [10; 5; 32767] [0; 32767; 0] [7; 7; 8]).1.1
    (zigZagDeltaEncode [10; 5; 32767] [0; 32767; 0] [7; 7; 8]).1.2
    (zigZagDeltaEncode [10; 5; 32767] [0; 32767; 0] [7; 7; 8]).2
  = ([10; 5; 32767], [0; 32767; 0], [7; 7; 8]).
Proof.
  apply (zigZagDeltaDecode_inverts_encode [10; 5; 32767] [0; 32767; 0] [7; 7; 8]);
    unfold quantized, maxShort; repeat constructor; lia.
Defined.

(** ** Running code on a content object *)

Lemma bind_Normal {A B : Type} (m : Js A) (k : A -> Js B) c c' a :
  m c = (c', Normal a) -> bind m k c = k a c'.
Proof. intros H. unfold bind. by rewrite H. Qed.

Lemma bind_Throw {A B : Type} (m : Js A) (k : A -> Js B) c c' e :
  m c = (c', Throw e) -> bind m k c = (c', Throw e).
Proof. intros H. unfold bind. by rewrite H. Qed.

Lemma bind_lift_Normal {A B : Type} (r : Completion A) (k : A -> Js B) c a :
  r = Normal a -> bind (lift r) k c = k a c.
Proof. intros ->. reflexivity. Qed.

Lemma bind_lift_Throw {A B : Type} (r : Completion A) (k : A -> Js B) c e :
  r = Throw e -> bind (lift r) k c = (c, Throw e).
Proof. intros ->. reflexivity. Qed.

(** ** Header validation *)

Section HeaderProperties.

Variable JSON_parse_featureTable : string -> option FeatureTableJson.
Variable JSON_parse_batchTable : string -> option Json.

Lemma initialize_bad_magic arrayBuffer byteOffset content :
  getMagic arrayBuffer (defaultValue byteOffset 0) <> "vctr" ->
  initialize JSON_parse_featureTable JSON_parse_batchTable
    arrayBuffer byteOffset content
  = (content,
     Throw (DeveloperError
              ("Invalid Vector tile.  Expected magic=vctr.  Read magic="
               +:+ getMagic arrayBuffer (defaultValue byteOffset 0)))).
Proof.
  intros Hmagic. unfold initialize.
  destruct (String.eqb_spec (getMagic arrayBuffer (defaultValue byteOffset 0))
              "vctr") as [Heq | Hne]; [done |].
  reflexivity.
Qed.

Lemma initialize_bad_version arrayBuffer byteOffset content version :
  getMagic arrayBuffer (defaultValue byteOffset 0) = "vctr" ->
  getUint32 arrayBuffer (defaultValue byteOffset 0 + 4) = Normal version ->
  version <> 1 ->
  initialize JSON_parse_featureTable JSON_parse_batchTable
    arrayBuffer byteOffset content
  = (content,
     Throw (DeveloperError
              ("Only Vector tile version 1 is supported.  Version "
               +:+ pretty version +:+ " is not."))).
Proof.
  intros Hmagic Hversion Hne. unfold initialize.
  rewrite Hmagic. cbn [String.eqb Ascii.eqb Bool.eqb negb].
  unfold sizeOfUint32.
  rewrite (bind_lift_Normal _ _ _ _ Hversion).
  destruct (Z.eqb_spec version 1) as [-> | _]; [done |].
  reflexivity.
Qed.

Lemma initialize_good_header arrayBuffer byteOffset content :
  getMagic arrayBuffer (defaultValue byteOffset 0) = "vctr" ->
  getUint32 arrayBuffer (defaultValue byteOffset 0 + 4) = Normal 1 ->
  initialize JSON_parse_featureTable JSON_parse_batchTable
    arrayBuffer byteOffset content
  = bind (lift (getUint32 arrayBuffer (defaultValue byteOffset 0 + 8)))
      (fun byteLength =>
         if byteLength =? 0 then
           update_this (fun content =>
             with_readyPromise (resolve (_readyPromise content)) content)
         else
           decodeTile JSON_parse_featureTable JSON_parse_batchTable
             arrayBuffer (defaultValue byteOffset 0 + 12))
      content.
Proof.
  intros Hmagic Hversion. unfold initialize.
  rewrite Hmagic. cbn [String.eqb Ascii.eqb Bool.eqb negb].
  unfold sizeOfUint32.
  rewrite (bind_lift_Normal _ _ _ _ Hversion).
  cbn [Z.eqb Pos.eqb negb].
  replace (defaultValue byteOffset 0 + 4 + 4 + 4)
    with (defaultValue byteOffset 0 + 12) by lia.
  replace (defaultValue byteOffset 0 + 4 + 4)
    with (defaultValue byteOffset 0 + 8) by lia.
  reflexivity.
Qed.

(** C1: constructing the content throws the format error (a DeveloperError)
    when the 4-byte magic is not "vctr" or when the version field is not 1,
    and it leaves the content as it was: nothing has been allocated.  When
    the magic is "vctr" and the version is 1, header validation succeeds
    and [initialize] goes on with the byte length and the rest of the
    tile. *)
Theorem initialize_validates_header arrayBuffer byteOffset content :
  ((getMagic arrayBuffer (defaultValue byteOffset 0) <> "vctr"
    \/ exists version,
         getUint32 arrayBuffer (defaultValue byteOffset 0 + 4)
         = Normal version /\ version <> 1) ->
   exists message,
     initialize JSON_parse_featureTable JSON_parse_batchTable
    arrayBuffer byteOffset content
     = (content, Throw (DeveloperError message)))
  /\ (getMagic arrayBuffer (defaultValue byteOffset 0) = "vctr" ->
      getUint32 arrayBuffer (defaultValue byteOffset 0 + 4) = Normal 1 ->
      initialize JSON_parse_featureTable JSON_parse_batchTable
    arrayBuffer byteOffset content
      = bind (lift (getUint32 arrayBuffer (defaultValue byteOffset 0 + 8)))
          (fun byteLength =>
             if byteLength =? 0 then
               update_this (fun content =>
                 with_readyPromise (resolve (_readyPromise content)) content)
             else
               decodeTile JSON_parse_featureTable JSON_parse_batchTable
                 arrayBuffer (defaultValue byteOffset 0 + 12))
          content).
Proof.
  split.
  - intros Hbad.
    destruct (decide (getMagic arrayBuffer (defaultValue byteOffset 0)
                      = "vctr")) as [Hmagic | Hmagic].
    + destruct Hbad as [Hne | (version & Hversion & Hne)]; [done |].
      eexists. by apply initialize_bad_version.
    + eexists. by apply initialize_bad_magic.
  - apply initialize_good_header.
Qed.

(** C2: a tile whose byteLength field is 0 is decoded no further than the
    header: the constructor returns normally, the ready promise is
    resolved, featuresLength is 0, and neither primitive sets, nor a batch
    table, nor collections, nor features have been allocated. *)
Theorem empty_tile_is_ready tileset tile url arrayBuffer byteOffset :
  getMagic arrayBuffer (defaultValue byteOffset 0) = "vctr" ->
  getUint32 arrayBuffer (defaultValue byteOffset 0 + 4) = Normal 1 ->
  getUint32 arrayBuffer (defaultValue byteOffset 0 + 8) = Normal 0 ->
  exists content,
    newVector3DTileContent JSON_parse_featureTable JSON_parse_batchTable
      tileset tile url arrayBuffer byteOffset
    = (content, Normal tt)
    /\ readyPromise content = Resolved
    /\ featuresLength content = 0
    /\ _polygons content = None
    /\ _polylines content = None
    /\ _batchTable content = None
    /\ _billboardCollection content = None
    /\ _labelCollection content = None
    /\ _polylineCollection content = None
    /\ _features content = None.
Proof.
  intros Hmagic Hversion Hlength. unfold newVector3DTileContent.
  rewrite initialize_good_header by done.
  rewrite (bind_lift_Normal _ _ _ _ Hlength).
  cbn [Z.eqb]. unfold update_this.
  eexists. split; [reflexivity |]. by repeat split.
Qed.

(** Whatever the tile, the content the constructor leaves reports
    pointsLength 0. *)
Lemma pointsLength_constructed tileset tile url arrayBuffer byteOffset :
  pointsLength
    (newVector3DTileContent JSON_parse_featureTable JSON_parse_batchTable
       tileset tile url arrayBuffer byteOffset).1 = 0.
Proof. reflexivity. Qed.

End HeaderProperties.

Lemma initialize_validates_header_witness :
  (exists message,
     decodeSample (sampleFeatureTable 0 0 0) sampleBadMagicTile
     = ((decodeSample (sampleFeatureTable 0 0 0) sampleBadMagicTile).1,
        Throw (DeveloperError message)))
  /\ (exists message,
        decodeSample (sampleFeatureTable 0 0 0) sampleVersion2Tile
        = ((decodeSample (sampleFeatureTable 0 0 0) sampleVersion2Tile).1,
           Throw (DeveloperError message)))
  /\ decodeSample (sampleFeatureTable 0 0 0) sampleEmptyTile
     = ((decodeSample (sampleFeatureTable 0 0 0) sampleEmptyTile).1, Normal tt).
Proof.
  unfold decodeSample, newVector3DTileContent.
  split; [| split].
  - destruct (proj1 (initialize_validates_header
                       (sampleParse (sampleFeatureTable 0 0 0))
                       sampleParseBatchTable sampleBadMagicTile None
                       {| _tileset := 0%nat; _tile := sampleTileObject;
                          _url := "sample.vctr"; _polygons := None;
                          _polylines := None; _billboardCollection := None;
                          _labelCollection := None;
                          _polylineCollection := None;
                          _readyPromise := Pending; _batchTable := None;
                          _features := None;
                          featurePropertiesDirty := false;
                          own_isDestroyed := None |}))
      as [message Hmessage].
    + left. vm_compute. discriminate.
    + exists message. rewrite Hmessage. reflexivity.
  - destruct (proj1 (initialize_validates_header
                       (sampleParse (sampleFeatureTable 0 0 0))
                       sampleParseBatchTable sampleVersion2Tile None
                       {| _tileset := 0%nat; _tile := sampleTileObject;
                          _url := "sample.vctr"; _polygons := None;
                          _polylines := None; _billboardCollection := None;
                          _labelCollection := None;
                          _polylineCollection := None;
                          _readyPromise := Pending; _batchTable := None;
                          _features := None;
                          featurePropertiesDirty := false;
                          own_isDestroyed := None |}))
      as [message Hmessage].
    + right. exists 2. split; [reflexivity | lia].
    + exists message. rewrite Hmessage. reflexivity.
  - rewrite (proj2 (initialize_validates_header
                      (sampleParse (sampleFeatureTable 0 0 0))
                      sampleParseBatchTable sampleEmptyTile None _));
      reflexivity.
Defined.

Lemma empty_tile_is_ready_witness :
  exists content,
    decodeSample (sampleFeatureTable 0 0 0) sampleEmptyTile
    = (content, Normal tt)
    /\ readyPromise content = Resolved
    /\ featuresLength content = 0
    /\ _polygons content = None
    /\ _polylines content = None
    /\ _batchTable content = None
    /\ _billboardCollection content = None
    /\ _labelCollection content = None
    /\ _polylineCollection content = None
    /\ _features content = None.
Proof.
  apply (empty_tile_is_ready (sampleParse (sampleFeatureTable 0 0 0))
           sampleParseBatchTable 0%nat sampleTileObject "sample.vctr"
           sampleEmptyTile None); reflexivity.
Defined.

(** ** Destruction *)

(** C9: destroying a content object, in particular one whose ready promise is
    still pending, does not throw; afterwards [isDestroyed()] returns true and
    the polygon set, the polyline set, the billboard, label and polyline
    collections and the batch table have been released.  The ready promise is
    left as it was. *)
Theorem destroy_releases_everything (content : Vector3DTileContent) :
  exists content',
    destroy content = (content', Normal tt)
    /\ isDestroyed content' = true
    /\ _polygons content' = None
    /\ _polylines content' = None
    /\ _billboardCollection content' = None
    /\ _labelCollection content' = None
    /\ _polylineCollection content' = None
    /\ _batchTable content' = None
    /\ readyPromise content' = readyPromise content.
Proof.
  eexists. split; [reflexivity |].
  cbn. unfold andDestroy.
  repeat split;
    try (by destruct (_polygons content));
    try (by destruct (_polylines content));
    try (by destruct (_billboardCollection content));
    try (by destruct (_labelCollection content));
    try (by destruct (_polylineCollection content));
    try (by destruct (_batchTable content)).
Qed.

(** Destroying the sample tile right after construction, while its ready
    promise is pending. *)
Example destroy_sample_before_ready :
  readyPromise (decodeSample (sampleFeatureTable 2 3 3) sampleTile).1 = Pending
  /\ isDestroyed (decodeSample (sampleFeatureTable 2 3 3) sampleTile).1 = false
  /\ isDestroyed
       (destroy (decodeSample (sampleFeatureTable 2 3 3) sampleTile).1).1
     = true.
Proof. vm_compute. done. Qed.

(** ** pointsLength *)

(** C10: pointsLength returns 0 for every content object, also for one whose
    tile declares POINTS_LENGTH > 0 and for which the billboards, labels and
    anchor lines of the points have been built: on the sample tile with three
    points, three of each are built and pointsLength is still 0. *)
Theorem pointsLength_is_always_zero :
  (forall content : Vector3DTileContent, pointsLength content = 0)
  /\ exists content billboards labels polylines,
       POINTS_LENGTH (sampleFeatureTable 2 3 3) = Some 3
       /\ decodeSample (sampleFeatureTable 2 3 3) sampleTile
          = (content, Normal tt)
       /\ _billboardCollection content = Some billboards
       /\ _labelCollection content = Some labels
       /\ _polylineCollection content = Some polylines
       /\ length billboards = 3%nat
       /\ length labels = 3%nat
       /\ length polylines = 3%nat
       /\ pointsLength content = 0.
Proof.
  split; [reflexivity |].
  eexists _, _, _, _.
  split; [reflexivity |].
  split; [vm_compute; reflexivity |].
  cbn. done.
Qed.

(** ** Styling *)

Lemma featuresLength_with_features v content :
  featuresLength (with_features v content) = featuresLength content.
Proof. reflexivity. Qed.

Lemma createFeatures_existing content features :
  _features content = Some features ->
  createFeatures content = (content, Normal tt).
Proof.
  intros H. unfold createFeatures, bind, this. by rewrite H.
Qed.

Lemma createFeatures_fresh content :
  _features content = None ->
  0 < featuresLength content ->
  exists features,
    createFeatures content = (with_features (Some features) content, Normal tt)
    /\ Z.of_nat (length features) = featuresLength content
    /\ Forall (fun feature => f_properties feature = ∅) features.
Proof.
  intros Hnone Hpos. unfold createFeatures, bind, this. rewrite Hnone.
  destruct (Z.ltb_spec 0 (featuresLength content)) as [_ | ?]; [| lia].
  cbn [defined negb andb]. unfold update_this.
  eexists. split; [reflexivity |]. split.
  - rewrite length_map, length_seqZ. lia.
  - apply Forall_map, Forall_forall. intros i _.
    by destruct (_billboardCollection content) as [billboards |];
      [destruct (i <? Z.of_nat (length billboards)) |].
Qed.

Lemma getFeature_existing content features i :
  _features content = Some features ->
  0 <= i < featuresLength content ->
  getFeature i content = (content, Normal (features !! Z.to_nat i)).
Proof.
  intros Hfeatures Hi. unfold getFeature.
  unfold bind at 1. unfold this at 1.
  destruct (Z.ltb_spec i 0) as [? | _]; [lia |].
  destruct (Z.leb_spec (featuresLength content) i) as [? | _]; [lia |].
  cbn [orb].
  rewrite (bind_Normal _ _ _ _ _ (createFeatures_existing _ _ Hfeatures)).
  unfold bind, this. by rewrite Hfeatures.
Qed.

Lemma onFeature_existing content features i feature assignments :
  _features content = Some features ->
  0 <= i < featuresLength content ->
  features !! Z.to_nat i = Some feature ->
  onFeature i assignments content
  = (with_features
       (Some (<[Z.to_nat i := assignAll assignments feature]> features))
       content,
     Normal tt).
Proof.
  intros Hfeatures Hi Hfeature. unfold onFeature.
  rewrite (bind_Normal _ _ _ _ _ (getFeature_existing _ _ _ Hfeatures Hi)).
  rewrite Hfeature. unfold update_this. by rewrite Hfeatures.
Qed.

(** The loop over the features applies the assignments to each of them, in
    place. *)
Lemma forLoop_onFeature assignments rest :
  forall styled content,
    _features content = Some (styled ++ rest) ->
    Z.of_nat (length (styled ++ rest)) <= featuresLength content ->
    forLoop (Z.of_nat (length styled)) (length rest)
      (fun i => onFeature i assignments) content
    = (with_features (Some (styled ++ map (assignAll assignments) rest))
         content,
       Normal tt).
Proof.
  induction rest as [| feature rest IH]; intros styled content Hfeatures Hlen.
  - cbn. rewrite <- Hfeatures. by destruct content.
  - cbn [forLoop length].
    rewrite length_app in Hlen. cbn [length] in Hlen.
    erewrite bind_Normal; cycle 1.
    { apply (onFeature_existing _ _ _ feature _ Hfeatures); [lia |].
      rewrite Nat2Z.id. by rewrite list_lookup_middle. }
    rewrite Nat2Z.id.
    replace (<[length styled := assignAll assignments feature]>
               (styled ++ feature :: rest))
      with ((styled ++ [assignAll assignments feature]) ++ rest).
    2:{ rewrite <- (Nat.add_0_r (length styled)) at 1.
        rewrite insert_app_r. cbn. by rewrite <- app_assoc. }
    replace (Z.of_nat (length styled) + 1)
      with (Z.of_nat (length (styled ++ [assignAll assignments feature])))
      by (rewrite length_app; cbn [length]; lia).
    rewrite IH.
    + cbn [map]. rewrite <- app_assoc. reflexivity.
    + reflexivity.
    + rewrite featuresLength_with_features, !length_app. cbn [length]. lia.
Qed.

Lemma styleLoop_run assignments content features :
  _features content = Some features ->
  Z.of_nat (length features) <= featuresLength content ->
  forLoop 0 (length features) (fun i => onFeature i assignments) content
  = (with_features (Some (map (assignAll assignments) features)) content,
     Normal tt).
Proof.
  intros Hfeatures Hlen.
  apply (forLoop_onFeature assignments features [] content); done.
Qed.

Lemma property_assign name name' v feature :
  property name' (assign name v feature)
  = if String.eqb name name' then Some v else property name' feature.
Proof.
  unfold property, assign. cbn [f_properties].
  destruct (String.eqb_spec name name') as [-> | Hne].
  - apply lookup_insert_eq.
  - by apply lookup_insert_ne.
Qed.

Lemma property_assignEvaluated name name' expression feature :
  property name' (assignEvaluated name expression feature)
  = if String.eqb name name' then Some (expression feature)
    else property name' feature.
Proof. apply property_assign. Qed.

Lemma property_assignEvaluatedColor name name' expression feature :
  property name' (assignEvaluatedColor name expression feature)
  = if String.eqb name name' then Some (VColor (expression feature))
    else property name' feature.
Proof. apply property_assign. Qed.

Lemma property_setBillboardImage name feature :
  property name (_setBillboardImage feature) = property name feature.
Proof. reflexivity. Qed.

Lemma clearStyleAssignments_defaults feature :
  hasDefaultStyle (assignAll clearStyleAssignments feature).
Proof.
  unfold hasDefaultStyle, assignAll, clearStyleAssignments.
  cbn [fold_left].
  repeat split;
    rewrite property_setBillboardImage, !property_assign; reflexivity.
Qed.

(** What [applyStyle] does on a content whose features exist or can be
    created: every feature gets the assignments of the loop body. *)
Lemma applyStyle_run style content :
  featuresConsistent content ->
  0 < featuresLength content ->
  exists before,
    (_features content = Some before
     \/ _features content = None
        /\ Forall (fun feature => f_properties feature = ∅) before)
    /\ Z.of_nat (length before) = featuresLength content
    /\ applyStyle style content
       = (with_features
            (Some (map (assignAll
                          match style with
                          | None => clearStyleAssignments
                          | Some style => applyStyleAssignments style
                          end) before))
            content,
          Normal tt).
Proof.
  intros Hconsistent Hpos.
  assert (exists before,
    (_features content = Some before
     \/ _features content = None
        /\ Forall (fun feature => f_properties feature = ∅) before)
    /\ Z.of_nat (length before) = featuresLength content
    /\ createFeatures content
       = (with_features (Some before) content, Normal tt))
    as (before & Hbefore & Hlen & Hcreate).
  { destruct (_features content) as [features |] eqn:Hfeatures.
    - exists features. split; [by left |]. split; [by apply Hconsistent |].
      rewrite (createFeatures_existing _ _ Hfeatures).
      rewrite <- Hfeatures. by destruct content.
    - destruct (createFeatures_fresh _ Hfeatures Hpos)
        as (features & Hcreate & Hlen & Hempty).
      exists features. split; [by right |]. done. }
  exists before. split; [done |]. split; [done |].
  unfold applyStyle. rewrite (bind_Normal _ _ _ _ _ Hcreate).
  destruct style as [style |].
  - unfold bind at 1, this at 1. cbn [_features with_features].
    rewrite styleLoop_run; [reflexivity | reflexivity |].
    rewrite featuresLength_with_features. lia.
  - unfold clearStyle. unfold bind at 1, this at 1.
    cbn [_features with_features].
    rewrite styleLoop_run; [reflexivity | reflexivity |].
    rewrite featuresLength_with_features. lia.
Qed.

(** Without features to create, [applyStyle] with an undefined style leaves
    the features of the content as they are: none, or an empty array. *)
Lemma applyStyle_undefined_without_features content :
  featuresConsistent content ->
  featuresLength content <= 0 ->
  _features (applyStyle None content).1 = _features content
  /\ (_features content = None \/ _features content = Some []).
Proof.
  intros Hconsistent Hnone. unfold applyStyle, clearStyle.
  destruct (_features content) as [features |] eqn:Hfeatures.
  - rewrite (bind_Normal _ _ _ _ _ (createFeatures_existing _ _ Hfeatures)).
    unfold bind at 1, this at 1. rewrite Hfeatures.
    specialize (Hconsistent features Hfeatures).
    destruct features as [| feature features]; [| cbn [length] in *; lia].
    cbn. auto.
  - assert (createFeatures content = (content, Normal tt)) as Hcreate.
    { unfold createFeatures, bind, this. rewrite Hfeatures.
      by destruct (Z.ltb_spec 0 (featuresLength content)); [lia |]. }
    rewrite (bind_Normal _ _ _ _ _ Hcreate).
    unfold bind, this. rewrite Hfeatures. cbn. auto.
Qed.

(** C7: after [applyStyle] with an undefined style, every feature of the
    content has the documented defaults; in particular its color is white,
    its pointOutlineColor black, its pointOutlineWidth 0, its
    labelOutlineWidth 1 and its anchorLineEnabled false.  When the content
    has features (featuresLength > 0) the call returns normally and there is
    one feature per row of the batch table. *)
Theorem applyStyle_undefined_resets_features content :
  featuresConsistent content ->
  (0 < featuresLength content ->
   exists content' features,
     applyStyle None content = (content', Normal tt)
     /\ _features content' = Some features
     /\ Z.of_nat (length features) = featuresLength content)
  /\ forall features feature,
       _features (applyStyle None content).1 = Some features ->
       feature ∈ features ->
       hasDefaultStyle feature
       /\ property "color" feature = Some (VColor Color_WHITE)
       /\ property "pointOutlineColor" feature = Some (VColor Color_BLACK)
       /\ property "pointOutlineWidth" feature = Some (VNumber 0%Q)
       /\ property "labelOutlineWidth" feature = Some (VNumber 1%Q)
       /\ property "anchorLineEnabled" feature = Some (VBoolean false).
Proof.
  intros Hconsistent. split.
  - intros Hpos.
    destruct (applyStyle_run None content Hconsistent Hpos)
      as (before & _ & Hlen & Hrun).
    eexists _, _. split; [exact Hrun |]. split; [reflexivity |].
    by rewrite length_map.
  - intros features feature Hfeatures Hin.
    destruct (Z.lt_ge_cases 0 (featuresLength content)) as [Hpos | Hnone].
    + destruct (applyStyle_run None content Hconsistent Hpos)
        as (before & _ & _ & Hrun).
      rewrite Hrun in Hfeatures. injection Hfeatures as <-.
      apply list_elem_of_fmap in Hin as (old & -> & _).
      pose proof (clearStyleAssignments_defaults old) as Hdefaults.
      split; [done |]. unfold hasDefaultStyle in Hdefaults. tauto.
    + destruct (applyStyle_undefined_without_features content Hconsistent
                  Hnone) as [Hsame [Hnone' | Hempty]];
        rewrite Hsame in Hfeatures; [congruence |].
      rewrite Hempty in Hfeatures. injection Hfeatures as <-.
      by apply elem_of_nil in Hin.
Qed.

Lemma applyStyle_undefined_resets_features_witness :
  exists content' features,
    applyStyle None (decodeSample (sampleFeatureTable 0 0 3) samplePointsTile).1
    = (content', Normal tt)
    /\ _features content' = Some features
    /\ length features = 3%nat
    /\ forall feature,
         feature ∈ features ->
         property "color" feature = Some (VColor Color_WHITE)
         /\ property "pointOutlineColor" feature = Some (VColor Color_BLACK)
         /\ property "pointOutlineWidth" feature = Some (VNumber 0%Q)
         /\ property "labelOutlineWidth" feature = Some (VNumber 1%Q)
         /\ property "anchorLineEnabled" feature = Some (VBoolean false).
Proof.
  destruct (applyStyle_undefined_resets_features
              (decodeSample (sampleFeatureTable 0 0 3) samplePointsTile).1)
    as [Hruns Hdefaults].
  { intros features Hfeatures. vm_compute in Hfeatures. discriminate. }
  destruct Hruns as (content' & features & Hrun & Hfeatures & Hlen).
  { vm_compute. reflexivity. }
  exists content', features.
  split; [exact Hrun |]. split; [exact Hfeatures |].
  split.
  { apply Nat2Z.inj. rewrite Hlen. vm_compute. reflexivity. }
  intros feature Hin.
  apply (Hdefaults features feature); [| exact Hin].
  rewrite Hrun. exact Hfeatures.
Defined.

Lemma assignAll_keeps name assignments :
  Forall (keeps name) assignments ->
  forall feature,
    property name (assignAll assignments feature) = property name feature.
Proof.
  unfold assignAll.
  induction 1 as [| step rest Hstep _ IH]; intros feature; [done |].
  cbn [fold_left]. by rewrite IH.
Qed.

Lemma keeps_assign name name' v :
  String.eqb name' name = false -> keeps name (assign name' v).
Proof. intros Hne feature. by rewrite property_assign, Hne. Qed.

Lemma keeps_assignEvaluated name name' expression :
  String.eqb name' name = false ->
  keeps name (assignEvaluated name' expression).
Proof. intros Hne feature. by rewrite property_assignEvaluated, Hne. Qed.

Lemma keeps_assignEvaluatedColor name name' expression :
  String.eqb name' name = false ->
  keeps name (assignEvaluatedColor name' expression).
Proof. intros Hne feature. by rewrite property_assignEvaluatedColor, Hne. Qed.

Lemma keeps_id name : keeps name (fun feature => feature).
Proof. by intros feature. Qed.

Lemma keeps_setBillboardImage name : keeps name _setBillboardImage.
Proof. by intros feature. Qed.

(** The loop body of [applyStyle] never assigns [distanceDisplayCondition]
    when the style defines it: the assignment of line 667 goes to a property
    of another name. *)
Lemma applyStyleAssignments_distanceDisplayCondition style condition feature :
  style_distanceDisplayCondition style = Some condition ->
  property "distanceDisplayCondition"
    (assignAll (applyStyleAssignments style) feature)
  = property "distanceDisplayCondition" feature.
Proof.
  intros Hcondition. apply assignAll_keeps.
  unfold applyStyleAssignments. rewrite Hcondition.
  repeat apply Forall_cons_2; try apply Forall_nil_2;
    try (apply keeps_assignEvaluated; reflexivity);
    try (apply keeps_assignEvaluatedColor; reflexivity);
    try apply keeps_setBillboardImage.
  - destruct (style_labelText style);
      [apply keeps_assignEvaluated | apply keeps_assign]; reflexivity.
  - destruct (style_backgroundColor style);
      [apply keeps_assignEvaluatedColor; reflexivity | apply keeps_id].
  - destruct (style_backgroundPadding style);
      [apply keeps_assignEvaluated; reflexivity | apply keeps_id].
  - destruct (style_scaleByDistance style);
      [intros f; cbv beta zeta; by rewrite property_assign
      | apply keeps_assign; reflexivity].
  - destruct (style_translucencyByDistance style);
      [intros f; cbv beta zeta; by rewrite property_assign
      | apply keeps_assign; reflexivity].
  - destruct (style_image style);
      [apply keeps_assignEvaluated | apply keeps_assign]; reflexivity.
Qed.

(** With a style that defines distanceDisplayCondition, [applyStyle] returns
    normally and leaves the distanceDisplayCondition of every feature as it
    was before the call. *)
Lemma applyStyle_keeps_distanceDisplayCondition style condition content :
  style_distanceDisplayCondition style = Some condition ->
  featuresConsistent content ->
  0 < featuresLength content ->
  exists content' before after,
    applyStyle (Some style) content = (content', Normal tt)
    /\ (_features content = Some before
        \/ _features content = None
           /\ Forall (fun feature => f_properties feature = ∅) before)
    /\ _features content' = Some after
    /\ length after = length before
    /\ forall i old new,
         before !! i = Some old ->
         after !! i = Some new ->
         property "distanceDisplayCondition" new
         = property "distanceDisplayCondition" old.
Proof.
  intros Hcondition Hconsistent Hpos.
  destruct (applyStyle_run (Some style) content Hconsistent Hpos)
    as (before & Hbefore & Hlen & Hrun).
  eexists _, before, _. split; [exact Hrun |]. split; [exact Hbefore |].
  split; [reflexivity |]. split; [by rewrite length_map |].
  intros i old new Hold Hnew.
  rewrite list_lookup_fmap, Hold in Hnew.
  cbn [fmap option_fmap option_map] in Hnew.
  injection Hnew as <-.
  by apply (applyStyleAssignments_distanceDisplayCondition style condition).
Qed.

(** C8 (the code does not do this): on the sample tile with three points,
    [applyStyle] with a style whose distanceDisplayCondition evaluates to
    (10, 1000) returns normally, yet no feature has its
    distanceDisplayCondition set: the condition is stored under the name
    distanceDisplatCondition, as line 667 spells it, whereas the sibling
    translucencyByDistance of the same style is stored under its own name. *)
Theorem applyStyle_sample_distanceDisplayCondition :
  style_distanceDisplayCondition sampleStyle
  = Some (fun _ => {| c2_x := 10%Q; c2_y := 1000%Q |})
  /\ (applyStyle (Some sampleStyle)
        (decodeSample (sampleFeatureTable 0 0 3) samplePointsTile).1).2
     = Normal tt
  /\ option_map
       (map (fun feature =>
               (property "distanceDisplayCondition" feature,
                property "distanceDisplatCondition" feature,
                property "translucencyByDistance" feature)))
       (_features
          (applyStyle (Some sampleStyle)
             (decodeSample (sampleFeatureTable 0 0 3) samplePointsTile).1).1)
     = Some
         [ (None, Some (VDistanceDisplayCondition 10%Q 1000%Q),
            Some (VNearFarScalar 5%Q 6%Q 7%Q 8%Q));
           (None, Some (VDistanceDisplayCondition 10%Q 1000%Q),
            Some (VNearFarScalar 5%Q 6%Q 7%Q 8%Q));
           (None, Some (VDistanceDisplayCondition 10%Q 1000%Q),
            Some (VNearFarScalar 5%Q 6%Q 7%Q 8%Q)) ].
Proof.
  split; [reflexivity |].
  split; vm_compute; reflexivity.
Qed.

(** ** Batch ids *)

Lemma fillSequential_seqZ count maxId :
  fillSequential count maxId
  = (toUint16 <$> seqZ maxId (Z.of_nat count), maxId + Z.of_nat count).
Proof.
  revert maxId. induction count as [| count IH]; intros maxId.
  - cbn [fillSequential]. rewrite seqZ_nil by done. cbn. f_equal. lia.
  - cbn [fillSequential]. rewrite IH.
    rewrite Nat2Z.inj_succ, (seqZ_cons maxId) by lia.
    replace (Z.pred (Z.succ (Z.of_nat count))) with (Z.of_nat count) by lia.
    cbn [fmap list_fmap]. f_equal. lia.
Qed.

Lemma toUint16_seqZ first count :
  0 <= first -> first + count <= 65536 ->
  toUint16 <$> seqZ first count = seqZ first count.
Proof.
  intros Hfirst Hlast.
  apply list_eq. intros i. rewrite list_lookup_fmap.
  destruct (seqZ first count !! i) as [x |] eqn:Hx; [| done].
  apply lookup_seqZ in Hx as [-> Hi].
  cbn. unfold toUint16. by rewrite Z.mod_small by lia.
Qed.

Lemma synthesizeOne_sequential numberOf maxId :
  0 <= numberOf -> 0 <= maxId -> maxId + numberOf <= 65536 ->
  synthesizeOne None numberOf maxId
  = (sequentialIds maxId numberOf, maxId + numberOf).
Proof.
  intros Hn Hm Hlast. unfold synthesizeOne, sequentialIds. cbn [defined negb andb].
  destruct (Z.ltb_spec 0 numberOf) as [Hpos | Hzero].
  - rewrite fillSequential_seqZ, Z2Nat.id by lia.
    by rewrite toUint16_seqZ by lia.
  - f_equal. lia.
Qed.

Lemma explicitBatchIds_not_supplied featureTableBinary numberOf key :
  suppliesBatchIds numberOf key = false ->
  explicitBatchIds featureTableBinary numberOf key = Normal None.
Proof. intros H. unfold explicitBatchIds. by rewrite H. Qed.

Lemma explicitBatchIds_supplied featureTableBinary numberOf key ids :
  suppliesBatchIds numberOf key = true ->
  explicitBatchIds featureTableBinary numberOf key = Normal ids ->
  exists a, ids = Some a.
Proof.
  intros H. unfold explicitBatchIds. rewrite H.
  destruct key as [byteOffset |].
  2:{ unfold suppliesBatchIds in H. by rewrite andb_false_r in H. }
  destruct (newUint16Array _ _ _); [| done].
  intros [= <-]. by eexists.
Qed.

Lemma NoDup_sequentialIds a b c :
  0 <= a -> 0 <= b -> 0 <= c ->
  NoDup (allBatchIds
           (sequentialIds 0 a, sequentialIds a b, sequentialIds (a + b) c)).
Proof.
  intros Ha Hb Hc.
  assert (forall first count x,
            x ∈ default [] (sequentialIds first count) ->
            first <= x < first + count) as Hrange.
  { intros first count x. unfold sequentialIds.
    destruct (0 <? count); cbn; [| by intros ?%elem_of_nil].
    intros ?%elem_of_seqZ. lia. }
  assert (forall first count, NoDup (default [] (sequentialIds first count)))
    as Hnodup.
  { intros first count. unfold sequentialIds.
    destruct (0 <? count); cbn; [apply NoDup_seqZ | apply NoDup_nil_2]. }
  unfold allBatchIds. cbn [fst snd].
  apply NoDup_app. split; [apply Hnodup |]. split.
  - intros x Hx [Hy | Hy]%elem_of_app;
      apply Hrange in Hx; apply Hrange in Hy; lia.
  - apply NoDup_app. split; [apply Hnodup |]. split; [| apply Hnodup].
    intros x Hx Hy. apply Hrange in Hx. apply Hrange in Hy. lia.
Qed.

(** Without explicit ids, the three arrays are filled from one counter that
    starts at 0; each id is stored in a 16-bit element. *)
Lemma resolveBatchIds_not_supplied featureTableJson featureTableBinary
    numberOfPolygons numberOfPolylines numberOfPoints :
  suppliesBatchIds numberOfPolygons (POLYGON_BATCH_IDS featureTableJson)
  = false ->
  suppliesBatchIds numberOfPolylines (POLYLINE_BATCH_IDS featureTableJson)
  = false ->
  suppliesBatchIds numberOfPoints (POINT_BATCH_IDS featureTableJson) = false ->
  0 <= numberOfPolygons -> 0 <= numberOfPolylines -> 0 <= numberOfPoints ->
  resolveBatchIds featureTableJson featureTableBinary
    numberOfPolygons numberOfPolylines numberOfPoints
  = Normal
      (storedSequentialIds 0 numberOfPolygons,
       storedSequentialIds numberOfPolygons numberOfPolylines,
       storedSequentialIds (numberOfPolygons + numberOfPolylines)
         numberOfPoints).
Proof.
  intros Hpg Hpl Hpt Hnpg Hnpl Hnpt. unfold resolveBatchIds.
  rewrite !explicitBatchIds_not_supplied by done.
  unfold synthesizeBatchIds, maxOfIds, synthesizeOne, storedSequentialIds.
  cbn [defined negb andb].
  rewrite !fillSequential_seqZ.
  replace (-1 + 1) with 0 by lia.
  destruct (Z.ltb_spec 0 numberOfPolygons),
    (Z.ltb_spec 0 numberOfPolylines), (Z.ltb_spec 0 numberOfPoints);
    cbn [defined negb andb];
    rewrite ?fillSequential_seqZ, ?Z2Nat.id by lia;
    repeat (f_equal; try lia).
Qed.

Lemma resolveBatchIds_explicit featureTableJson featureTableBinary
    numberOfPolygons numberOfPolylines numberOfPoints
    polygonBatchIds polylineBatchIds pointBatchIds :
  suppliesBatchIds numberOfPolygons (POLYGON_BATCH_IDS featureTableJson)
  = true
  \/ suppliesBatchIds numberOfPolylines (POLYLINE_BATCH_IDS featureTableJson)
     = true
  \/ suppliesBatchIds numberOfPoints (POINT_BATCH_IDS featureTableJson)
     = true ->
  explicitBatchIds featureTableBinary numberOfPolygons
    (POLYGON_BATCH_IDS featureTableJson) = Normal polygonBatchIds ->
  explicitBatchIds featureTableBinary numberOfPolylines
    (POLYLINE_BATCH_IDS featureTableJson) = Normal polylineBatchIds ->
  explicitBatchIds featureTableBinary numberOfPoints
    (POINT_BATCH_IDS featureTableJson) = Normal pointBatchIds ->
  resolveBatchIds featureTableJson featureTableBinary
    numberOfPolygons numberOfPolylines numberOfPoints
  = Normal (polygonBatchIds, polylineBatchIds, pointBatchIds).
Proof.
  intros Hsupplied Hpg Hpl Hpt. unfold resolveBatchIds.
  rewrite Hpg, Hpl, Hpt. f_equal.
  unfold synthesizeBatchIds.
  destruct Hsupplied as [H | [H | H]].
  - destruct (explicitBatchIds_supplied _ _ _ _ H Hpg) as [a ->]. done.
  - destruct (explicitBatchIds_supplied _ _ _ _ H Hpl) as [a ->].
    cbn. by rewrite andb_false_r.
  - destruct (explicitBatchIds_supplied _ _ _ _ H Hpt) as [a ->].
    cbn. by rewrite andb_false_r.
Qed.

Lemma resolveBatchIds_inv featureTableJson featureTableBinary
    numberOfPolygons numberOfPolylines numberOfPoints ids :
  resolveBatchIds featureTableJson featureTableBinary
    numberOfPolygons numberOfPolylines numberOfPoints = Normal ids ->
  exists polygonBatchIds polylineBatchIds pointBatchIds,
    explicitBatchIds featureTableBinary numberOfPolygons
      (POLYGON_BATCH_IDS featureTableJson) = Normal polygonBatchIds
    /\ explicitBatchIds featureTableBinary numberOfPolylines
         (POLYLINE_BATCH_IDS featureTableJson) = Normal polylineBatchIds
    /\ explicitBatchIds featureTableBinary numberOfPoints
         (POINT_BATCH_IDS featureTableJson) = Normal pointBatchIds.
Proof.
  unfold resolveBatchIds.
  destruct (explicitBatchIds _ numberOfPolygons _); [| done].
  destruct (explicitBatchIds _ numberOfPolylines _); [| done].
  destruct (explicitBatchIds _ numberOfPoints _); [| done].
  intros _. by eexists _, _, _.
Qed.

(** ** What initialize hands to the builders *)

(** Names the outcome of the first statement of a sequence. *)
Ltac run_first H content r E :=
  match type of H with
  | (match ?m with pair _ _ => _ end) = _ => destruct m as [content r] eqn:E
  end.

Lemma forLoop_invariant (Inv : Z -> Vector3DTileContent -> Prop)
    (body : Z -> Js unit) :
  (forall i content,
     Inv i content ->
     match body i content with
     | (content', Normal _) => Inv (i + 1) content'
     | (content', Throw _) => Inv i content'
     end) ->
  forall count from content,
    Inv from content ->
    exists i,
      from <= i <= from + Z.of_nat count
      /\ Inv i (forLoop from count body content).1.
Proof.
  intros Hbody. induction count as [| count IH]; intros from content Hinv.
  - exists from. split; [lia | done].
  - cbn [forLoop]. unfold bind.
    specialize (Hbody from content Hinv).
    destruct (body from content) as [content' [[] | e]].
    + destruct (IH (from + 1) content' Hbody) as (i & Hi & Hinv').
      exists i. split; [lia | done].
    + exists from. split; [lia | done].
Qed.

Lemma createPolygons_effect arrayBuffer byteOffset indicesByteLength
    positionByteLength featureTableJson featureTableBinary numberOfPolygons
    polygonBatchIds minHeight maxHeight center rectangle isCartographic
    modelMatrix content content' r :
  createPolygons arrayBuffer byteOffset indicesByteLength positionByteLength
    featureTableJson featureTableBinary numberOfPolygons polygonBatchIds
    minHeight maxHeight center rectangle isCartographic modelMatrix content
  = (content', r) ->
  _polylines content' = _polylines content
  /\ _billboardCollection content' = _billboardCollection content
  /\ (_polygons content' = _polygons content
      \/ exists polygons,
           _polygons content' = Some polygons
           /\ pg_batchIds polygons = polygonBatchIds).
Proof.
  unfold createPolygons, bind, lift, this, update_this, ret.
  intros Hrun.
  repeat (case_match; simplify_eq); cbn; eauto 6.
Qed.

Lemma createPolylines_effect arrayBuffer byteOffset polylinePositionByteLength
    featureTableJson featureTableBinary numberOfPolylines polylineBatchIds
    minHeight maxHeight center rectangle content content' r :
  createPolylines arrayBuffer byteOffset polylinePositionByteLength
    featureTableJson featureTableBinary numberOfPolylines polylineBatchIds
    minHeight maxHeight center rectangle content
  = (content', r) ->
  _polygons content' = _polygons content
  /\ _billboardCollection content' = _billboardCollection content
  /\ (_polylines content' = _polylines content
      \/ exists polylines,
           _polylines content' = Some polylines
           /\ pl_batchIds polylines = polylineBatchIds
           /\ polylineWidths featureTableJson featureTableBinary
                numberOfPolylines
              = Normal (pl_widths polylines)).
Proof.
  unfold createPolylines, bind, lift, this, update_this, ret.
  intros Hrun.
  repeat (case_match; simplify_eq); cbn; eauto 10.
Qed.

Lemma createPoints_effect arrayBuffer byteOffset pointsPositionByteLength
    numberOfPoints pointBatchIds rectangle minHeight maxHeight
    content content' r :
  createPoints arrayBuffer byteOffset pointsPositionByteLength numberOfPoints
    pointBatchIds rectangle minHeight maxHeight content
  = (content', r) ->
  _polygons content' = _polygons content
  /\ _polylines content' = _polylines content
  /\ (_billboardCollection content' = _billboardCollection content
      \/ exists billboards,
           _billboardCollection content' = Some billboards
           /\ (length billboards <= Z.to_nat numberOfPoints)%nat
           /\ forall i billboard,
                billboards !! i = Some billboard ->
                exists ids,
                  pointBatchIds = Some ids
                  /\ b_batchIndex billboard = ids !! i).
Proof.
  unfold createPoints. unfold bind at 1, lift at 1.
  destruct (newUint16Array arrayBuffer byteOffset
              (pointsPositionByteLength / sizeOfUint16))
    as [pointPositions | e]; [| intros [= <- <-]; auto].
  unfold bind, update_this.
  cbn [with_billboardCollection with_labelCollection with_polylineCollection
       _tileset _tile _url _polygons _polylines _billboardCollection
       _labelCollection _polylineCollection _readyPromise _batchTable
       _features featurePropertiesDirty own_isDestroyed].
  destruct (zigZagDeltaDecode _ _ _) as [[uBuffer vBuffer] heightBuffer].
  intros Hrun.
  set (Inv := fun (i : Z) (c : Vector3DTileContent) =>
    _polygons c = _polygons content
    /\ _polylines c = _polylines content
    /\ exists billboards,
         _billboardCollection c = Some billboards
         /\ Z.of_nat (length billboards) = i
         /\ forall k billboard,
              billboards !! k = Some billboard ->
              exists ids,
                pointBatchIds = Some ids
                /\ b_batchIndex billboard = ids !! k).
  match type of Hrun with
  | forLoop ?from ?count ?body ?start = _ =>
      assert (forall i c,
                Inv i c ->
                match body i c with
                | (c', Normal _) => Inv (i + 1) c'
                | (c', Throw _) => Inv i c'
                end) as Hbody;
      [| destruct (forLoop_invariant Inv body Hbody count from start)
           as (i & Hi & Hinv) ]
  end.
  - intros i c (Hpg & Hpl & billboards & Hbs & Hlen & Hids).
    unfold addPoint, bind, throw, ret, update_this.
    destruct pointBatchIds as [ids |]; [| by (repeat split; eauto)].
    cbn. rewrite Hbs. cbn.
    repeat split; try done.
    eexists. split; [reflexivity |]. split.
    { rewrite length_app. cbn [length]. lia. }
    intros k billboard Hk.
    apply lookup_app_Some in Hk as [Hk | [Hge Hk]]; [by apply Hids |].
    apply list_lookup_singleton_Some in Hk as [Hk <-].
    exists ids. split; [done |]. cbn. f_equal. lia.
  - repeat split; try done. exists []. by repeat split.
  - rewrite Hrun in Hinv. cbn [fst] in Hinv.
    destruct Hinv as (Hpg & Hpl & billboards & Hbs & Hlen & Hids).
    repeat split; try done. right. exists billboards.
    split; [done |]. split; [lia | done].
Qed.

Lemma decodePrimitives_effect arrayBuffer byteOffset featureTableJson
    featureTableBinary indicesByteLength positionByteLength
    polylinePositionByteLength pointsPositionByteLength
    numberOfPolygons numberOfPolylines numberOfPoints content content' r :
  decodePrimitives arrayBuffer byteOffset featureTableJson featureTableBinary
    indicesByteLength positionByteLength polylinePositionByteLength
    pointsPositionByteLength numberOfPolygons numberOfPolylines numberOfPoints
    content
  = (content', r) ->
  _polygons content = None ->
  _polylines content = None ->
  _billboardCollection content = None ->
  exists ids,
    (forall polygons,
       _polygons content' = Some polygons ->
       resolveBatchIds featureTableJson featureTableBinary
         numberOfPolygons numberOfPolylines numberOfPoints = Normal ids
       /\ pg_batchIds polygons = ids.1.1)
    /\ (forall polylines,
          _polylines content' = Some polylines ->
          resolveBatchIds featureTableJson featureTableBinary
            numberOfPolygons numberOfPolylines numberOfPoints = Normal ids
          /\ pl_batchIds polylines = ids.1.2
          /\ polylineWidths featureTableJson featureTableBinary
               numberOfPolylines
             = Normal (pl_widths polylines))
    /\ (forall billboards,
          _billboardCollection content' = Some billboards ->
          resolveBatchIds featureTableJson featureTableBinary
            numberOfPolygons numberOfPolylines numberOfPoints = Normal ids
          /\ (length billboards <= Z.to_nat numberOfPoints)%nat
          /\ forall i billboard,
               billboards !! i = Some billboard ->
               exists pointBatchIds,
                 ids.2 = Some pointBatchIds
                 /\ b_batchIndex billboard = pointBatchIds !! i).
Proof.
  intros Hrun Hpg Hpl Hbs. unfold decodePrimitives in Hrun.
  unfold bind at 1, this at 1 in Hrun.
  unfold bind at 1, lift at 1 in Hrun.
  destruct (resolveBatchIds featureTableJson featureTableBinary
              numberOfPolygons numberOfPolylines numberOfPoints)
    as [[[polygonBatchIds polylineBatchIds] pointBatchIds] | e] eqn:Hids.
  2:{ injection Hrun as <- <-. exists (None, None, None).
      rewrite Hpg, Hpl, Hbs. by repeat split. }
  exists (polygonBatchIds, polylineBatchIds, pointBatchIds). cbn [fst snd].
  unfold bind at 1 in Hrun.
  run_first Hrun content1 r1 Hrun1.
  assert (_polylines content1 = None
          /\ _billboardCollection content1 = None
          /\ (_polygons content1 = None
              \/ exists polygons,
                   _polygons content1 = Some polygons
                   /\ pg_batchIds polygons = polygonBatchIds))
    as (Hpl1 & Hbs1 & Hpg1).
  { destruct (0 <? numberOfPolygons).
    - apply createPolygons_effect in Hrun1 as (-> & -> & Hpg1).
      rewrite Hpg in Hpg1. done.
    - injection Hrun1 as <- _. auto. }
  assert (forall c,
            _polygons c = _polygons content1 ->
            forall polygons,
              _polygons c = Some polygons ->
              Normal (polygonBatchIds, polylineBatchIds, pointBatchIds)
              = Normal (polygonBatchIds, polylineBatchIds, pointBatchIds)
              /\ pg_batchIds polygons = polygonBatchIds) as Hpolygons.
  { intros c -> polygons Hsome.
    destruct Hpg1 as [Hnone | (polygons' & Hsome' & Hgiven)]; [congruence |].
    split; [done | congruence]. }
  destruct r1 as [byteOffset1 | e1].
  2:{ injection Hrun as <- <-. rewrite Hpl1, Hbs1.
      split; [by apply Hpolygons |]. by split. }
  unfold bind at 1 in Hrun.
  run_first Hrun content2 r2 Hrun2.
  assert (_polygons content2 = _polygons content1
          /\ _billboardCollection content2 = None
          /\ (_polylines content2 = None
              \/ exists polylines,
                   _polylines content2 = Some polylines
                   /\ pl_batchIds polylines = polylineBatchIds
                   /\ polylineWidths featureTableJson featureTableBinary
                        numberOfPolylines
                      = Normal (pl_widths polylines)))
    as (Hpg2 & Hbs2 & Hpl2).
  { destruct (0 <? numberOfPolylines).
    - apply createPolylines_effect in Hrun2 as (-> & -> & Hpl2).
      rewrite Hpl1 in Hpl2. done.
    - injection Hrun2 as <- _. auto. }
  assert (forall c,
            _polylines c = _polylines content2 ->
            forall polylines,
              _polylines c = Some polylines ->
              Normal (polygonBatchIds, polylineBatchIds, pointBatchIds)
              = Normal (polygonBatchIds, polylineBatchIds, pointBatchIds)
              /\ pl_batchIds polylines = polylineBatchIds
              /\ polylineWidths featureTableJson featureTableBinary
                   numberOfPolylines
                 = Normal (pl_widths polylines)) as Hpolylines.
  { intros c -> polylines Hsome.
    destruct Hpl2 as [Hnone | (polylines' & Hsome' & Hgiven & Hwidths)];
      [congruence |].
    split; [done |]. split; congruence. }
  destruct r2 as [byteOffset2 | e2].
  2:{ injection Hrun as <- <-. rewrite Hbs2.
      split; [by apply Hpolygons |]. split; [by apply Hpolylines |]. done. }
  destruct (0 <? numberOfPoints).
  - apply createPoints_effect in Hrun as (Hpg3 & Hpl3 & Hbs3).
    split; [apply Hpolygons; congruence |].
    split; [by apply Hpolylines |].
    intros billboards Hsome. split; [done |].
    destruct Hbs3 as [Hsame | (billboards' & Hsome' & Hlen & Hgiven)];
      [congruence |].
    by replace billboards with billboards' by congruence.
  - injection Hrun as <- <-. rewrite Hbs2.
    split; [by apply Hpolygons |]. split; [by apply Hpolylines |]. done.
Qed.

Lemma buildersGiven_nothing_built featureTableJson content :
  _polygons content = None ->
  _polylines content = None ->
  _billboardCollection content = None ->
  buildersGiven featureTableJson content.
Proof.
  intros Hpg Hpl Hbs. exists sampleEmptyBinary, (None, None, None).
  rewrite Hpg, Hpl, Hbs. by repeat split.
Qed.

Section DecoderProperties.

Variable JSON_parse_featureTable : string -> option FeatureTableJson.
Variable JSON_parse_batchTable : string -> option Json.

Lemma decodeTile_buildersGiven arrayBuffer byteOffset content content' r
    featureTableJSONByteLength featureTableJson :
  decodeTile JSON_parse_featureTable JSON_parse_batchTable arrayBuffer
    byteOffset content = (content', r) ->
  getUint32 arrayBuffer byteOffset = Normal featureTableJSONByteLength ->
  JSON_parse_featureTable
    (getStringFromTypedArray arrayBuffer (byteOffset + 32)
       featureTableJSONByteLength)
  = Some featureTableJson ->
  _polygons content = None ->
  _polylines content = None ->
  _billboardCollection content = None ->
  buildersGiven featureTableJson content'.
Proof.
  intros Hrun Hlength Hparse Hpg Hpl Hbs.
  unfold decodeTile in Hrun. cbv zeta in Hrun. unfold sizeOfUint32 in Hrun.
  rewrite (bind_lift_Normal _ _ _ _ Hlength) in Hrun.
  destruct (featureTableJSONByteLength =? 0).
  { injection Hrun as <- _. by apply buildersGiven_nothing_built. }
  repeat match type of Hrun with
  | bind (lift ?x) _ _ = _ =>
      let E := fresh "E" in
      destruct x eqn:E;
        unfold bind at 1, lift at 1 in Hrun; cbv beta iota in Hrun;
        [| injection Hrun as <- _; by apply buildersGiven_nothing_built ]
  end.
  replace (byteOffset + 4 + 4 + 4 + 4 + 4 + 4 + 4 + 4)
    with (byteOffset + 32) in * by lia.
  unfold JSON_parse in *. rewrite Hparse in *.
  match goal with H : Normal featureTableJson = Normal _ |- _ =>
    injection H as <- end.
  match goal with
  | parts : (option Json * option (list Z) * Z)%type |- _ =>
      destruct parts as [[batchTableJson batchTableBinary] byteOffset']
  end.
  unfold bind at 1, update_this at 1 in Hrun.
  destruct (_ =? 0).
  - injection Hrun as <- _. by apply buildersGiven_nothing_built.
  - apply decodePrimitives_effect in Hrun as [ids Hgiven]; [| done ..].
    eexists _, ids. exact Hgiven.
Qed.

(** Whatever the constructor does with a tile, the builders it creates are
    given the batch ids and widths that lines 326-389 and 446-455 compute
    from the tile's feature table. *)
Lemma newVector3DTileContent_buildersGiven tileset tile url arrayBuffer
    byteOffset featureTableJson :
  tileFeatureTable JSON_parse_featureTable arrayBuffer byteOffset
  = Some featureTableJson ->
  buildersGiven featureTableJson
    (newVector3DTileContent JSON_parse_featureTable JSON_parse_batchTable
       tileset tile url arrayBuffer byteOffset).1.
Proof.
  unfold tileFeatureTable, newVector3DTileContent.
  destruct (getUint32 arrayBuffer (defaultValue byteOffset 0 + 12))
    as [featureTableJSONByteLength |] eqn:Hlength; [| done].
  intros Hparse.
  match goal with |- buildersGiven _ (initialize _ _ _ _ ?c).1 =>
    set (content := c) end.
  destruct (decide (getMagic arrayBuffer (defaultValue byteOffset 0) = "vctr"))
    as [Hmagic | Hmagic].
  2:{ rewrite initialize_bad_magic by done. by apply buildersGiven_nothing_built. }
  destruct (getUint32 arrayBuffer (defaultValue byteOffset 0 + 4))
    as [version | e] eqn:Hversion.
  2:{ unfold initialize. rewrite Hmagic. cbn [String.eqb Ascii.eqb Bool.eqb negb].
      unfold sizeOfUint32. rewrite (bind_lift_Throw _ _ _ _ Hversion).
      by apply buildersGiven_nothing_built. }
  destruct (decide (version = 1)) as [-> | Hne].
  2:{ rewrite (initialize_bad_version _ _ _ _ _ version) by done.
      by apply buildersGiven_nothing_built. }
  rewrite initialize_good_header by done.
  unfold bind, lift.
  destruct (getUint32 arrayBuffer (defaultValue byteOffset 0 + 8))
    as [byteLength | e]; [| by apply buildersGiven_nothing_built].
  destruct (byteLength =? 0); [by apply buildersGiven_nothing_built |].
  destruct (decodeTile _ _ _ _ content) as [content' r] eqn:Hrun.
  apply (decodeTile_buildersGiven _ _ _ _ _ _ _ Hrun Hlength); try done.
  by replace (defaultValue byteOffset 0 + 12 + 32)
    with (defaultValue byteOffset 0 + 44) by lia.
Qed.

End DecoderProperties.

(** ** Batch ids and widths of a tile *)

(** C3, as the code has it: for every tile with at most 65536 primitives in
    which no primitive type supplies an explicit batch-id array, the batch
    ids are synthesized from a running counter that starts at 0 (one more
    than the maximum, -1, of no present id) and are assigned sequentially to
    the polygons, then the polylines, then the points; they are unique
    across the three types, and they are the ids the polygon set, the
    polyline set and the billboards of the content get. *)
Theorem batch_ids_synthesized_sequentially
    (JSON_parse_featureTable : string -> option FeatureTableJson)
    (JSON_parse_batchTable : string -> option Json)
    tileset tile url arrayBuffer byteOffset featureTableJson
    numberOfPolygons numberOfPolylines numberOfPoints :
  tileFeatureTable JSON_parse_featureTable arrayBuffer byteOffset
  = Some featureTableJson ->
  defaultValue (POLYGONS_LENGTH featureTableJson) 0 = numberOfPolygons ->
  defaultValue (POLYLINES_LENGTH featureTableJson) 0 = numberOfPolylines ->
  defaultValue (POINTS_LENGTH featureTableJson) 0 = numberOfPoints ->
  suppliesBatchIds numberOfPolygons (POLYGON_BATCH_IDS featureTableJson)
  = false ->
  suppliesBatchIds numberOfPolylines (POLYLINE_BATCH_IDS featureTableJson)
  = false ->
  suppliesBatchIds numberOfPoints (POINT_BATCH_IDS featureTableJson) = false ->
  0 <= numberOfPolygons -> 0 <= numberOfPolylines -> 0 <= numberOfPoints ->
  numberOfPolygons + numberOfPolylines + numberOfPoints <= 65536 ->
  (forall featureTableBinary,
     resolveBatchIds featureTableJson featureTableBinary
       numberOfPolygons numberOfPolylines numberOfPoints
     = Normal (sequentialIds 0 numberOfPolygons,
               sequentialIds numberOfPolygons numberOfPolylines,
               sequentialIds (numberOfPolygons + numberOfPolylines)
                 numberOfPoints))
  /\ NoDup (allBatchIds
              (sequentialIds 0 numberOfPolygons,
               sequentialIds numberOfPolygons numberOfPolylines,
               sequentialIds (numberOfPolygons + numberOfPolylines)
                 numberOfPoints))
  /\ (forall polygons,
        _polygons
          (newVector3DTileContent JSON_parse_featureTable
             JSON_parse_batchTable tileset tile url arrayBuffer byteOffset).1
        = Some polygons ->
        pg_batchIds polygons = sequentialIds 0 numberOfPolygons)
  /\ (forall polylines,
        _polylines
          (newVector3DTileContent JSON_parse_featureTable
             JSON_parse_batchTable tileset tile url arrayBuffer byteOffset).1
        = Some polylines ->
        pl_batchIds polylines
        = sequentialIds numberOfPolygons numberOfPolylines)
  /\ (forall billboards i billboard,
        _billboardCollection
          (newVector3DTileContent JSON_parse_featureTable
             JSON_parse_batchTable tileset tile url arrayBuffer byteOffset).1
        = Some billboards ->
        billboards !! i = Some billboard ->
        b_batchIndex billboard
        = Some (numberOfPolygons + numberOfPolylines + Z.of_nat i)).
Proof.
  intros Htable Hnpg Hnpl Hnpt Hpg Hpl Hpt Hpg0 Hpl0 Hpt0 Htotal.
  assert (forall featureTableBinary,
     resolveBatchIds featureTableJson featureTableBinary
       numberOfPolygons numberOfPolylines numberOfPoints
     = Normal (sequentialIds 0 numberOfPolygons,
               sequentialIds numberOfPolygons numberOfPolylines,
               sequentialIds (numberOfPolygons + numberOfPolylines)
                 numberOfPoints)) as Hresolve.
  { intros featureTableBinary.
    rewrite resolveBatchIds_not_supplied by done.
    unfold storedSequentialIds, sequentialIds.
    by rewrite !toUint16_seqZ by lia. }
  split; [exact Hresolve |].
  split; [by apply NoDup_sequentialIds |].
  destruct (newVector3DTileContent_buildersGiven JSON_parse_featureTable
              JSON_parse_batchTable tileset tile url arrayBuffer byteOffset
              featureTableJson Htable)
    as (featureTableBinary & ids & Hpolygons & Hpolylines & Hbillboards).
  rewrite Hnpg, Hnpl, Hnpt, Hresolve in *.
  split; [| split].
  - intros polygons Hsome.
    destruct (Hpolygons polygons Hsome) as [[= <-] ->]. done.
  - intros polylines Hsome.
    destruct (Hpolylines polylines Hsome) as ([= <-] & -> & _). done.
  - intros billboards i billboard Hsome Hi.
    destruct (Hbillboards billboards Hsome) as ([= <-] & Hlen & Hgiven).
    destruct (Hgiven i billboard Hi) as (pointBatchIds & Hids & ->).
    cbn [snd] in Hids. unfold sequentialIds in Hids.
    destruct (0 <? numberOfPoints); [| done].
    injection Hids as <-.
    apply lookup_lt_Some in Hi.
    apply lookup_seqZ_lt. lia.
Qed.

Lemma batch_ids_synthesized_sequentially_witness :
  resolveBatchIds (sampleFeatureTable 2 1 0) sampleEmptyBinary 2 1 0
  = Normal (Some [0; 1], Some [2], None)
  /\ NoDup [0; 1; 2]
  /\ pg_batchIds
       <$> _polygons (decodeSample (sampleFeatureTable 2 1 0) sampleTile).1
     = Some (Some [0; 1])
  /\ pl_batchIds
       <$> _polylines (decodeSample (sampleFeatureTable 2 1 0) sampleTile).1
     = Some (Some [2]).
Proof.
  destruct (batch_ids_synthesized_sequentially
              (sampleParse (sampleFeatureTable 2 1 0)) sampleParseBatchTable
              0%nat sampleTileObject "sample.vctr" sampleTile None
              (sampleFeatureTable 2 1 0) 2 1 0)
    as (Hresolve & Hnodup & Hpolygons & Hpolylines & _);
    try reflexivity; try lia.
  split; [exact (Hresolve sampleEmptyBinary) |].
  split; [exact Hnodup |].
  split.
  - destruct (_polygons (decodeSample (sampleFeatureTable 2 1 0) sampleTile).1)
      as [polygons |] eqn:Hsome; [| vm_compute in Hsome; discriminate].
    cbn. f_equal. by apply Hpolygons.
  - destruct (_polylines (decodeSample (sampleFeatureTable 2 1 0) sampleTile).1)
      as [polylines |] eqn:Hsome; [| vm_compute in Hsome; discriminate].
    cbn. f_equal. by apply Hpolylines.
Defined.

(** C3, as stated, fails beyond 65536 primitives: the ids are stored in 16-bit
    elements, so with 65536 polygons and one polyline, none with explicit
    ids, the first polygon and the polyline both get id 0. *)
Lemma batch_ids_collide_beyond_65536 :
  suppliesBatchIds 65536
    (POLYGON_BATCH_IDS (sampleFeatureTableSmall 65536 1 None)) = false
  /\ suppliesBatchIds 1
       (POLYLINE_BATCH_IDS (sampleFeatureTableSmall 65536 1 None)) = false
  /\ suppliesBatchIds 0
       (POINT_BATCH_IDS (sampleFeatureTableSmall 65536 1 None)) = false
  /\ exists polygonBatchIds,
       resolveBatchIds (sampleFeatureTableSmall 65536 1 None)
         sampleEmptyBinary 65536 1 0
       = Normal (Some polygonBatchIds, Some [0], None)
       /\ polygonBatchIds !! 0%nat = Some 0
       /\ ~ NoDup (allBatchIds (Some polygonBatchIds, Some [0], None)).
Proof.
  split; [reflexivity |]. split; [reflexivity |]. split; [reflexivity |].
  rewrite resolveBatchIds_not_supplied by (reflexivity || lia).
  unfold storedSequentialIds.
  change (0 <? 65536) with true. change (0 <? 1) with true.
  change (0 <? 0) with false. cbv iota.
  rewrite (seqZ_cons 0 65536) by lia.
  eexists. split; [reflexivity |]. split; [reflexivity |].
  unfold allBatchIds. cbn [fst snd default map].
  intros Hnodup. apply NoDup_cons_1_1 in Hnodup. apply Hnodup.
  apply elem_of_app. right. apply elem_of_app. left.
  apply list_elem_of_singleton. reflexivity.
Qed.

(** A batch-id key declared for a type without primitives supplies no ids
    (line 331 tests the count first), and the other types are then numbered
    as usual. *)
Example batch_id_key_without_primitives :
  suppliesBatchIds 0
    (POLYGON_BATCH_IDS (sampleFeatureTableSmall 0 1 (Some 0))) = false
  /\ resolveBatchIds (sampleFeatureTableSmall 0 1 (Some 0))
       sampleEmptyBinary 0 1 0
     = Normal (None, Some [0], None).
Proof. split; reflexivity. Qed.

(** C4: for every tile in which at least one primitive type supplies an
    explicit batch-id array (it has primitives and the feature table declares
    its ids), no batch ids are synthesized: the three arrays are exactly the
    explicit ones, a type that omits its array is left without ids, and so
    are the polygon set and the polyline set of the content; no billboard is
    given an id when the points omit theirs. *)
Theorem explicit_batch_ids_disable_synthesis
    (JSON_parse_featureTable : string -> option FeatureTableJson)
    (JSON_parse_batchTable : string -> option Json)
    tileset tile url arrayBuffer byteOffset featureTableJson
    numberOfPolygons numberOfPolylines numberOfPoints :
  tileFeatureTable JSON_parse_featureTable arrayBuffer byteOffset
  = Some featureTableJson ->
  defaultValue (POLYGONS_LENGTH featureTableJson) 0 = numberOfPolygons ->
  defaultValue (POLYLINES_LENGTH featureTableJson) 0 = numberOfPolylines ->
  defaultValue (POINTS_LENGTH featureTableJson) 0 = numberOfPoints ->
  suppliesBatchIds numberOfPolygons (POLYGON_BATCH_IDS featureTableJson)
  = true
  \/ suppliesBatchIds numberOfPolylines (POLYLINE_BATCH_IDS featureTableJson)
     = true
  \/ suppliesBatchIds numberOfPoints (POINT_BATCH_IDS featureTableJson)
     = true ->
  (forall featureTableBinary polygonBatchIds polylineBatchIds pointBatchIds,
     explicitBatchIds featureTableBinary numberOfPolygons
       (POLYGON_BATCH_IDS featureTableJson) = Normal polygonBatchIds ->
     explicitBatchIds featureTableBinary numberOfPolylines
       (POLYLINE_BATCH_IDS featureTableJson) = Normal polylineBatchIds ->
     explicitBatchIds featureTableBinary numberOfPoints
       (POINT_BATCH_IDS featureTableJson) = Normal pointBatchIds ->
     resolveBatchIds featureTableJson featureTableBinary
       numberOfPolygons numberOfPolylines numberOfPoints
     = Normal (polygonBatchIds, polylineBatchIds, pointBatchIds)
     /\ (suppliesBatchIds numberOfPolygons
           (POLYGON_BATCH_IDS featureTableJson) = false ->
         polygonBatchIds = None)
     /\ (suppliesBatchIds numberOfPolylines
           (POLYLINE_BATCH_IDS featureTableJson) = false ->
         polylineBatchIds = None)
     /\ (suppliesBatchIds numberOfPoints
           (POINT_BATCH_IDS featureTableJson) = false ->
         pointBatchIds = None))
  /\ (forall polygons,
        _polygons
          (newVector3DTileContent JSON_parse_featureTable
             JSON_parse_batchTable tileset tile url arrayBuffer byteOffset).1
        = Some polygons ->
        suppliesBatchIds numberOfPolygons
          (POLYGON_BATCH_IDS featureTableJson) = false ->
        pg_batchIds polygons = None)
  /\ (forall polylines,
        _polylines
          (newVector3DTileContent JSON_parse_featureTable
             JSON_parse_batchTable tileset tile url arrayBuffer byteOffset).1
        = Some polylines ->
        suppliesBatchIds numberOfPolylines
          (POLYLINE_BATCH_IDS featureTableJson) = false ->
        pl_batchIds polylines = None)
  /\ (forall billboards,
        _billboardCollection
          (newVector3DTileContent JSON_parse_featureTable
             JSON_parse_batchTable tileset tile url arrayBuffer byteOffset).1
        = Some billboards ->
        suppliesBatchIds numberOfPoints
          (POINT_BATCH_IDS featureTableJson) = false ->
        billboards = []).
Proof.
  intros Htable Hnpg Hnpl Hnpt Hsupplied.
  assert (forall featureTableBinary polygonBatchIds polylineBatchIds
            pointBatchIds,
     explicitBatchIds featureTableBinary numberOfPolygons
       (POLYGON_BATCH_IDS featureTableJson) = Normal polygonBatchIds ->
     explicitBatchIds featureTableBinary numberOfPolylines
       (POLYLINE_BATCH_IDS featureTableJson) = Normal polylineBatchIds ->
     explicitBatchIds featureTableBinary numberOfPoints
       (POINT_BATCH_IDS featureTableJson) = Normal pointBatchIds ->
     resolveBatchIds featureTableJson featureTableBinary
       numberOfPolygons numberOfPolylines numberOfPoints
     = Normal (polygonBatchIds, polylineBatchIds, pointBatchIds)
     /\ (suppliesBatchIds numberOfPolygons
           (POLYGON_BATCH_IDS featureTableJson) = false ->
         polygonBatchIds = None)
     /\ (suppliesBatchIds numberOfPolylines
           (POLYLINE_BATCH_IDS featureTableJson) = false ->
         polylineBatchIds = None)
     /\ (suppliesBatchIds numberOfPoints
           (POINT_BATCH_IDS featureTableJson) = false ->
         pointBatchIds = None)) as Hstage.
  { intros featureTableBinary polygonBatchIds polylineBatchIds pointBatchIds
      Hpg Hpl Hpt.
    split; [by apply resolveBatchIds_explicit |].
    repeat split; intros Hnot;
      rewrite explicitBatchIds_not_supplied in * by done; congruence. }
  split; [exact Hstage |].
  destruct (newVector3DTileContent_buildersGiven JSON_parse_featureTable
              JSON_parse_batchTable tileset tile url arrayBuffer byteOffset
              featureTableJson Htable)
    as (featureTableBinary & ids & Hpolygons & Hpolylines & Hbillboards).
  rewrite Hnpg, Hnpl, Hnpt in *.
  assert (forall
            (Hids : resolveBatchIds featureTableJson featureTableBinary
                      numberOfPolygons numberOfPolylines numberOfPoints
                    = Normal ids),
            (suppliesBatchIds numberOfPolygons
               (POLYGON_BATCH_IDS featureTableJson) = false ->
             ids.1.1 = None)
            /\ (suppliesBatchIds numberOfPolylines
                  (POLYLINE_BATCH_IDS featureTableJson) = false ->
                ids.1.2 = None)
            /\ (suppliesBatchIds numberOfPoints
                  (POINT_BATCH_IDS featureTableJson) = false ->
                ids.2 = None)) as Hnone.
  { intros Hids.
    destruct (resolveBatchIds_inv _ _ _ _ _ _ Hids)
      as (polygonBatchIds & polylineBatchIds & pointBatchIds
          & Hpg & Hpl & Hpt).
    destruct (Hstage _ _ _ _ Hpg Hpl Hpt) as (Hsame & Hrest).
    rewrite Hids in Hsame. injection Hsame as ->. exact Hrest. }
  split; [| split].
  - intros polygons Hsome Hnot.
    destruct (Hpolygons polygons Hsome) as [Hids ->].
    by apply (Hnone Hids).
  - intros polylines Hsome Hnot.
    destruct (Hpolylines polylines Hsome) as (Hids & -> & _).
    by apply (Hnone Hids).
  - intros billboards Hsome Hnot.
    destruct (Hbillboards billboards Hsome) as (Hids & _ & Hgiven).
    destruct billboards as [| billboard rest]; [done |].
    destruct (Hgiven 0%nat billboard eq_refl) as (pointBatchIds & Hpoint & _).
    destruct (Hnone Hids) as (_ & _ & Hpt). rewrite Hpt in Hpoint; done.
Qed.

Lemma explicit_batch_ids_disable_synthesis_witness :
  resolveBatchIds (sampleFeatureTableWithPolygonIds 2 3 0)
    {| view_buffer := sampleTile; view_byteOffset := 48; view_length := 32 |}
    2 3 0
  = Normal (Some [7; 9], None, None)
  /\ pg_batchIds
       <$> _polygons
             (decodeSample (sampleFeatureTableWithPolygonIds 2 3 0)
                sampleTile).1
     = Some (Some [7; 9])
  /\ pl_batchIds
       <$> _polylines
             (decodeSample (sampleFeatureTableWithPolygonIds 2 3 0)
                sampleTile).1
     = Some None.
Proof.
  destruct (explicit_batch_ids_disable_synthesis
              (sampleParse (sampleFeatureTableWithPolygonIds 2 3 0))
              sampleParseBatchTable
              0%nat sampleTileObject "sample.vctr" sampleTile None
              (sampleFeatureTableWithPolygonIds 2 3 0) 2 3 0)
    as (Hstage & _ & Hpolylines & _);
    try reflexivity; [by left |].
  split.
  { apply (Hstage
             {| view_buffer := sampleTile; view_byteOffset := 48;
                view_length := 32 |}
             (Some [7; 9]) None None); reflexivity. }
  split; [vm_compute; reflexivity |].
  destruct (_polylines
              (decodeSample (sampleFeatureTableWithPolygonIds 2 3 0)
                 sampleTile).1)
    as [polylines |] eqn:Hsome; [| vm_compute in Hsome; discriminate].
  cbn. f_equal. by apply Hpolylines.
Defined.

(** C6: for every tile with N > 0 polylines whose feature table omits
    POLYLINE_WIDTHS, computing the widths is not an error and gives an array
    of length N whose entries all equal 2.0, and that array is the one the
    polyline set of the content is constructed with. *)
Theorem polyline_widths_default
    (JSON_parse_featureTable : string -> option FeatureTableJson)
    (JSON_parse_batchTable : string -> option Json)
    tileset tile url arrayBuffer byteOffset featureTableJson
    numberOfPolylines :
  tileFeatureTable JSON_parse_featureTable arrayBuffer byteOffset
  = Some featureTableJson ->
  POLYLINES_LENGTH featureTableJson = Some numberOfPolylines ->
  0 < numberOfPolylines ->
  POLYLINE_WIDTHS featureTableJson = None ->
  (forall featureTableBinary,
     polylineWidths featureTableJson featureTableBinary numberOfPolylines
     = Normal (replicate (Z.to_nat numberOfPolylines) 2%Q))
  /\ forall polylines,
       _polylines
         (newVector3DTileContent JSON_parse_featureTable
            JSON_parse_batchTable tileset tile url arrayBuffer byteOffset).1
       = Some polylines ->
       pl_widths polylines = replicate (Z.to_nat numberOfPolylines) 2%Q
       /\ Z.of_nat (length (pl_widths polylines)) = numberOfPolylines
       /\ Forall (fun width => width = 2%Q) (pl_widths polylines).
Proof.
  intros Htable Hlength Hpos Hwidths.
  assert (forall featureTableBinary,
     polylineWidths featureTableJson featureTableBinary numberOfPolylines
     = Normal (replicate (Z.to_nat numberOfPolylines) 2%Q)) as Hdefault.
  { intros featureTableBinary. unfold polylineWidths. by rewrite Hwidths. }
  split; [exact Hdefault |].
  intros polylines Hsome.
  destruct (newVector3DTileContent_buildersGiven JSON_parse_featureTable
              JSON_parse_batchTable tileset tile url arrayBuffer byteOffset
              featureTableJson Htable)
    as (featureTableBinary & ids & _ & Hpolylines & _).
  destruct (Hpolylines polylines Hsome) as (_ & _ & Hgiven).
  rewrite Hlength in Hgiven. cbn [defaultValue] in Hgiven.
  rewrite Hdefault in Hgiven. injection Hgiven as <-.
  split; [done |]. split.
  - rewrite length_replicate. lia.
  - apply Forall_forall. by intros width [-> _]%elem_of_replicate.
Qed.

Lemma polyline_widths_default_witness :
  exists polylines,
    _polylines (decodeSample (sampleFeatureTable 2 3 3) sampleTile).1
    = Some polylines
    /\ pl_widths polylines = [2%Q; 2%Q; 2%Q].
Proof.
  destruct (_polylines (decodeSample (sampleFeatureTable 2 3 3) sampleTile).1)
    as [polylines |] eqn:Hsome; [| vm_compute in Hsome; discriminate].
  exists polylines. split; [reflexivity |].
  apply (polyline_widths_default
           (sampleParse (sampleFeatureTable 2 3 3)) sampleParseBatchTable
           0%nat sampleTileObject "sample.vctr" sampleTile None
           (sampleFeatureTable 2 3 3) 3); try reflexivity.
  exact Hsome.
Defined.

(** * Further properties of the decoder *)

(** ** Malformed headers *)

Lemma newVector3DTileContent_fresh
    (JSON_parse_featureTable : string -> option FeatureTableJson)
    (JSON_parse_batchTable : string -> option Json)
    tileset tile url arrayBuffer byteOffset :
  newVector3DTileContent JSON_parse_featureTable JSON_parse_batchTable
    tileset tile url arrayBuffer byteOffset
  = initialize JSON_parse_featureTable JSON_parse_batchTable arrayBuffer
      byteOffset (freshContent tileset tile url).
Proof. reflexivity. Qed.

Lemma getUint32_Throw view byteOffset e :
  getUint32 view byteOffset = Throw e -> e = RangeError.
Proof. unfold getUint32. case_match; [done |]. by intros [= <-]. Qed.

Lemma newTypedArray_Throw bytesPerElement buffer byteOffset len e :
  newTypedArray bytesPerElement buffer byteOffset len = Throw e ->
  e = RangeError.
Proof. unfold newTypedArray. case_match; [done |]. by intros [= <-]. Qed.

Section MalformedTiles.

Variable JSON_parse_featureTable : string -> option FeatureTableJson.
Variable JSON_parse_batchTable : string -> option Json.

(** X1: A tile that is not empty must have a feature table: a zero
    featureTableJSONByteLength is reported with a DeveloperError, before
    anything is allocated. *)
Theorem initialize_rejects_empty_feature_table arrayBuffer byteOffset content
    byteLength :
  getMagic arrayBuffer (defaultValue byteOffset 0) = "vctr" ->
  getUint32 arrayBuffer (defaultValue byteOffset 0 + 4) = Normal 1 ->
  getUint32 arrayBuffer (defaultValue byteOffset 0 + 8) = Normal byteLength ->
  byteLength <> 0 ->
  getUint32 arrayBuffer (defaultValue byteOffset 0 + 12) = Normal 0 ->
  initialize JSON_parse_featureTable JSON_parse_batchTable arrayBuffer
    byteOffset content
  = (content,
     Throw (DeveloperError
              "Feature table must have a byte length greater than zero")).
Proof.
  intros Hmagic Hversion Hlength Hne Htable.
  rewrite initialize_good_header by done.
  rewrite (bind_lift_Normal _ _ _ _ Hlength).
  destruct (Z.eqb_spec byteLength 0) as [-> | _]; [done |].
  unfold decodeTile. rewrite (bind_lift_Normal _ _ _ _ Htable). reflexivity.
Qed.

(** X2: A buffer that ends inside the header, after a good magic, a good version,
    a non-zero byteLength and a non-zero featureTableJSONByteLength, makes the
    constructor fail with the runtime's RangeError, not with a
    DeveloperError; nothing has been allocated. *)
Theorem initialize_truncated_header arrayBuffer byteOffset content
    byteLength featureTableJSONByteLength :
  getMagic arrayBuffer (defaultValue byteOffset 0) = "vctr" ->
  getUint32 arrayBuffer (defaultValue byteOffset 0 + 4) = Normal 1 ->
  getUint32 arrayBuffer (defaultValue byteOffset 0 + 8) = Normal byteLength ->
  byteLength <> 0 ->
  getUint32 arrayBuffer (defaultValue byteOffset 0 + 12)
  = Normal featureTableJSONByteLength ->
  featureTableJSONByteLength <> 0 ->
  byteLengthOf arrayBuffer < defaultValue byteOffset 0 + 44 ->
  initialize JSON_parse_featureTable JSON_parse_batchTable arrayBuffer
    byteOffset content
  = (content, Throw RangeError).
Proof.
  intros Hmagic Hversion Hlength Hne Htable Hne' Hshort.
  rewrite initialize_good_header by done.
  rewrite (bind_lift_Normal _ _ _ _ Hlength).
  destruct (Z.eqb_spec byteLength 0) as [-> | _]; [done |].
  unfold decodeTile. rewrite (bind_lift_Normal _ _ _ _ Htable).
  destruct (Z.eqb_spec featureTableJSONByteLength 0) as [-> | _]; [done |].
  cbv zeta. unfold sizeOfUint32.
  assert (forall k, defaultValue byteOffset 0 + 44 <= k + 4 ->
                    getUint32 arrayBuffer k = Throw RangeError) as Hout.
  { intros k Hk. unfold getUint32.
    destruct (Z.leb_spec 0 k); [| done].
    destruct (Z.leb_spec (k + 4) (byteLengthOf arrayBuffer)); [lia | done]. }
  repeat match goal with
  | |- bind (lift (getUint32 ?b ?k)) _ _ = _ =>
      let E := fresh "E" in
      destruct (getUint32 b k) eqn:E;
        unfold bind at 1, lift at 1; cbv beta iota;
        [ try (rewrite Hout in E by lia; discriminate)
        | apply getUint32_Throw in E; by subst ]
  end.
Qed.

End MalformedTiles.

Lemma initialize_rejects_empty_feature_table_witness :
  decodeSample (sampleFeatureTable 0 0 0) sampleNoFeatureTableTile
  = (freshContent 0%nat sampleTileObject "sample.vctr",
     Throw (DeveloperError
              "Feature table must have a byte length greater than zero")).
Proof.
  apply (initialize_rejects_empty_feature_table
           (sampleParse (sampleFeatureTable 0 0 0)) sampleParseBatchTable
           sampleNoFeatureTableTile None
           (freshContent 0%nat sampleTileObject "sample.vctr") 44);
    (reflexivity || lia).
Defined.

Lemma initialize_truncated_header_witness :
  decodeSample (sampleFeatureTable 2 3 3) sampleTruncatedTile
  = (freshContent 0%nat sampleTileObject "sample.vctr", Throw RangeError).
Proof.
  apply (initialize_truncated_header
           (sampleParse (sampleFeatureTable 2 3 3)) sampleParseBatchTable
           sampleTruncatedTile None
           (freshContent 0%nat sampleTileObject "sample.vctr") 182 4);
    try reflexivity; try lia; (vm_compute; reflexivity).
Defined.

(** ** The point builder (lines 471-514) *)

Lemma seq_snoc_map {A : Type} (f : nat -> A) (n : nat) :
  map f (seq 0 (S n)) = map f (seq 0 n) ++ [f n].
Proof. by rewrite seq_S, map_app. Qed.

(** The loop of lines 486-513, started at point [k] with the records of the
    first [k] points in the collections, adds the records of the remaining
    points. *)
Lemma forLoop_addPoint ids uBuffer vBuffer heightBuffer rectangle minHeight
    maxHeight count :
  forall k content,
    _billboardCollection content
    = Some (billboardsOf ids uBuffer vBuffer heightBuffer rectangle
              minHeight maxHeight k) ->
    _labelCollection content
    = Some (labelsOf ids uBuffer vBuffer heightBuffer rectangle
              minHeight maxHeight k) ->
    _polylineCollection content
    = Some (anchorLinesOf uBuffer vBuffer heightBuffer rectangle
              minHeight maxHeight k) ->
    forLoop (Z.of_nat k) count
      (addPoint (Some ids) uBuffer vBuffer heightBuffer rectangle
         minHeight maxHeight) content
    = (withPointCollections
         (billboardsOf ids uBuffer vBuffer heightBuffer rectangle
            minHeight maxHeight (k + count))
         (labelsOf ids uBuffer vBuffer heightBuffer rectangle
            minHeight maxHeight (k + count))
         (anchorLinesOf uBuffer vBuffer heightBuffer rectangle
            minHeight maxHeight (k + count))
         content,
       Normal tt).
Proof.
  induction count as [| count IH]; intros k content Hbs Hls Hps.
  - cbn [forLoop]. rewrite Nat.add_0_r. unfold ret, withPointCollections.
    rewrite <- Hbs, <- Hls, <- Hps. by destruct content.
  - cbn [forLoop]. unfold bind at 1.
    unfold addPoint at 1. unfold bind, ret, update_this.
    cbn [with_billboardCollection with_labelCollection
         with_polylineCollection _tileset _tile _url _polygons _polylines
         _billboardCollection _labelCollection _polylineCollection
         _readyPromise _batchTable _features featurePropertiesDirty
         own_isDestroyed].
    rewrite Hbs, Hls, Hps. cbn [option_map]. rewrite Nat2Z.id.
    replace (Z.of_nat k + 1) with (Z.of_nat (S k)) by lia.
    rewrite IH.
    + replace (S k + count)%nat with (k + S count)%nat by lia. reflexivity.
    + unfold billboardsOf. by rewrite seq_snoc_map.
    + unfold labelsOf. by rewrite seq_snoc_map.
    + unfold anchorLinesOf. by rewrite seq_snoc_map.
Qed.

(** What [createPoints] does, in its three cases: the position buffer does
    not fit (RangeError, nothing allocated); the points have batch ids (one
    billboard, label and anchor line per point); the points have no batch
    ids (TypeError at the first point, with the three collections allocated
    and empty). *)
Lemma createPoints_out_of_range arrayBuffer byteOffset pointsPositionByteLength
    numberOfPoints pointBatchIds rectangle minHeight maxHeight content e :
  newUint16Array arrayBuffer byteOffset
    (pointsPositionByteLength / sizeOfUint16) = Throw e ->
  createPoints arrayBuffer byteOffset pointsPositionByteLength numberOfPoints
    pointBatchIds rectangle minHeight maxHeight content
  = (content, Throw RangeError).
Proof.
  intros Hthrow. unfold createPoints.
  rewrite (bind_lift_Throw _ _ _ _ Hthrow).
  by rewrite (newTypedArray_Throw _ _ _ _ _ Hthrow).
Qed.

Lemma createPoints_with_ids arrayBuffer byteOffset pointsPositionByteLength
    numberOfPoints ids rectangle minHeight maxHeight content pointPositions :
  newUint16Array arrayBuffer byteOffset
    (pointsPositionByteLength / sizeOfUint16) = Normal pointPositions ->
  createPoints arrayBuffer byteOffset pointsPositionByteLength numberOfPoints
    (Some ids) rectangle minHeight maxHeight content
  = (withPointCollections
       (billboardsOf ids
          (zigZagDeltaDecodeFrom 0 (subarray pointPositions 0 numberOfPoints))
          (zigZagDeltaDecodeFrom 0
             (subarray pointPositions numberOfPoints (2 * numberOfPoints)))
          (zigZagDeltaDecodeFrom 0
             (subarray pointPositions (2 * numberOfPoints)
                (3 * numberOfPoints)))
          rectangle minHeight maxHeight (Z.to_nat numberOfPoints))
       (labelsOf ids
          (zigZagDeltaDecodeFrom 0 (subarray pointPositions 0 numberOfPoints))
          (zigZagDeltaDecodeFrom 0
             (subarray pointPositions numberOfPoints (2 * numberOfPoints)))
          (zigZagDeltaDecodeFrom 0
             (subarray pointPositions (2 * numberOfPoints)
                (3 * numberOfPoints)))
          rectangle minHeight maxHeight (Z.to_nat numberOfPoints))
       (anchorLinesOf
          (zigZagDeltaDecodeFrom 0 (subarray pointPositions 0 numberOfPoints))
          (zigZagDeltaDecodeFrom 0
             (subarray pointPositions numberOfPoints (2 * numberOfPoints)))
          (zigZagDeltaDecodeFrom 0
             (subarray pointPositions (2 * numberOfPoints)
                (3 * numberOfPoints)))
          rectangle minHeight maxHeight (Z.to_nat numberOfPoints))
       content,
     Normal tt).
Proof.
  intros Hread. unfold createPoints.
  rewrite (bind_lift_Normal _ _ _ _ Hread).
  unfold bind, update_this. unfold zigZagDeltaDecode.
  rewrite (forLoop_addPoint _ _ _ _ _ _ _ _ 0%nat); try reflexivity.
Qed.

Lemma createPoints_without_ids arrayBuffer byteOffset pointsPositionByteLength
    numberOfPoints rectangle minHeight maxHeight content pointPositions :
  newUint16Array arrayBuffer byteOffset
    (pointsPositionByteLength / sizeOfUint16) = Normal pointPositions ->
  0 < numberOfPoints ->
  createPoints arrayBuffer byteOffset pointsPositionByteLength numberOfPoints
    None rectangle minHeight maxHeight content
  = (withPointCollections [] [] [] content, Throw TypeError).
Proof.
  intros Hread Hpos. unfold createPoints.
  rewrite (bind_lift_Normal _ _ _ _ Hread).
  unfold bind, update_this. unfold zigZagDeltaDecode.
  destruct (Z.to_nat numberOfPoints) as [| n] eqn:Hn; [lia |].
  reflexivity.
Qed.

(** ** The course of the constructor *)

(** [decodePrimitives], statement by statement. *)
Lemma decodePrimitives_unfold arrayBuffer byteOffset featureTableJson
    featureTableBinary indicesByteLength positionByteLength
    polylinePositionByteLength pointsPositionByteLength
    numberOfPolygons numberOfPolylines numberOfPoints content :
  decodePrimitives arrayBuffer byteOffset featureTableJson featureTableBinary
    indicesByteLength positionByteLength polylinePositionByteLength
    pointsPositionByteLength numberOfPolygons numberOfPolylines numberOfPoints
    content
  = let center := defaultValue (RTC_CENTER featureTableJson) Cartesian3_ZERO in
    let rectangle :=
      defaultValue (RECTANGLE featureTableJson)
        (contentBoundingVolume_rectangle (_tile content)) in
    let minHeight := MINIMUM_HEIGHT featureTableJson in
    let maxHeight := MAXIMUM_HEIGHT featureTableJson in
    match resolveBatchIds featureTableJson featureTableBinary
            numberOfPolygons numberOfPolylines numberOfPoints with
    | Throw e => (content, Throw e)
    | Normal (polygonBatchIds, polylineBatchIds, pointBatchIds) =>
        match
          (if 0 <? numberOfPolygons then
             createPolygons arrayBuffer byteOffset indicesByteLength
               positionByteLength featureTableJson featureTableBinary
               numberOfPolygons polygonBatchIds minHeight maxHeight center
               rectangle (defaultValue (FORMAT featureTableJson) 0 =? 0)
               (computedTransform (_tile content))
           else ret byteOffset) content
        with
        | (content1, Throw e) => (content1, Throw e)
        | (content1, Normal byteOffset1) =>
            match
              (if 0 <? numberOfPolylines then
                 createPolylines arrayBuffer byteOffset1
                   polylinePositionByteLength featureTableJson
                   featureTableBinary numberOfPolylines polylineBatchIds
                   minHeight maxHeight center rectangle
               else ret byteOffset1) content1
            with
            | (content2, Throw e) => (content2, Throw e)
            | (content2, Normal byteOffset2) =>
                (if 0 <? numberOfPoints then
                   createPoints arrayBuffer byteOffset2
                     pointsPositionByteLength numberOfPoints pointBatchIds
                     rectangle minHeight maxHeight
                 else ret tt) content2
            end
        end
    end.
Proof.
  unfold decodePrimitives. cbv zeta.
  unfold bind at 1, this at 1. unfold bind at 1, lift at 1.
  destruct (resolveBatchIds _ _ _ _ _) as [[[pg pl] pt] | e]; [| done].
  unfold bind.
  by destruct (RTC_CENTER featureTableJson), (RECTANGLE featureTableJson).
Qed.

Lemma featureTableArray_Throw bytesPerElement featureTableBinary key len e :
  featureTableArray bytesPerElement featureTableBinary key len = Throw e ->
  e = RangeError \/ e = TypeError /\ key = None.
Proof.
  unfold featureTableArray. destruct key as [byteOffset |].
  - intros ->%newTypedArray_Throw. by left.
  - intros [= <-]. by right.
Qed.

Lemma createPolygons_cases arrayBuffer byteOffset indicesByteLength
    positionByteLength featureTableJson featureTableBinary numberOfPolygons
    polygonBatchIds minHeight maxHeight center rectangle isCartographic
    modelMatrix content content' r :
  createPolygons arrayBuffer byteOffset indicesByteLength positionByteLength
    featureTableJson featureTableBinary numberOfPolygons polygonBatchIds
    minHeight maxHeight center rectangle isCartographic modelMatrix content
  = (content', r) ->
  (content' = content /\ exists e, r = Throw e)
  \/ exists polygons,
       content' = with_polygons (Some polygons) content
       /\ r = Normal (byteOffset + indicesByteLength + positionByteLength)
       /\ pg_batchIds polygons = polygonBatchIds
       /\ pg_center polygons = center
       /\ pg_rectangle polygons = rectangle
       /\ pg_minimumHeight polygons = minHeight
       /\ pg_maximumHeight polygons = maxHeight
       /\ pg_isCartographic polygons = isCartographic
       /\ pg_modelMatrix polygons = modelMatrix
       /\ pg_boundingVolume polygons
          = _boundingVolume_boundingVolume (_tile content)
       /\ newUint32Array arrayBuffer byteOffset
            (indicesByteLength / sizeOfUint32)
          = Normal (pg_indices polygons)
       /\ newUint16Array arrayBuffer (byteOffset + indicesByteLength)
            (positionByteLength / sizeOfUint16)
          = Normal (pg_positions polygons)
       /\ featureTableArray sizeOfUint32 featureTableBinary
            (POLYGON_COUNT featureTableJson) numberOfPolygons
          = Normal (pg_counts polygons)
       /\ featureTableArray sizeOfUint32 featureTableBinary
            (POLYGON_INDEX_COUNT featureTableJson) numberOfPolygons
          = Normal (pg_indexCounts polygons).
Proof.
  unfold createPolygons, bind, lift, this, update_this, ret.
  intros Hrun.
  repeat (case_match; simplify_eq); cbn; eauto 20.
  all: right; eexists; repeat split; by eauto.
Qed.

Lemma createPolylines_cases arrayBuffer byteOffset polylinePositionByteLength
    featureTableJson featureTableBinary numberOfPolylines polylineBatchIds
    minHeight maxHeight center rectangle content content' r :
  createPolylines arrayBuffer byteOffset polylinePositionByteLength
    featureTableJson featureTableBinary numberOfPolylines polylineBatchIds
    minHeight maxHeight center rectangle content
  = (content', r) ->
  (content' = content /\ exists e, r = Throw e)
  \/ exists polylines,
       content' = with_polylines (Some polylines) content
       /\ r = Normal (byteOffset + polylinePositionByteLength)
       /\ pl_batchIds polylines = polylineBatchIds
       /\ pl_center polylines = center
       /\ pl_rectangle polylines = rectangle
       /\ pl_minimumHeight polylines = minHeight
       /\ pl_maximumHeight polylines = maxHeight
       /\ pl_boundingVolume polylines
          = _boundingVolume_boundingVolume (_tile content)
       /\ newUint16Array arrayBuffer byteOffset
            (polylinePositionByteLength / sizeOfUint16)
          = Normal (pl_positions polylines)
       /\ featureTableArray sizeOfUint32 featureTableBinary
            (POLYLINE_COUNT featureTableJson) numberOfPolylines
          = Normal (pl_counts polylines)
       /\ polylineWidths featureTableJson featureTableBinary numberOfPolylines
          = Normal (pl_widths polylines).
Proof.
  unfold createPolylines, bind, lift, this, update_this, ret.
  intros Hrun.
  repeat (case_match; simplify_eq); cbn; eauto 20.
  all: right; eexists; repeat split; by eauto.
Qed.

Lemma createPoints_cases arrayBuffer byteOffset pointsPositionByteLength
    numberOfPoints pointBatchIds rectangle minHeight maxHeight
    content content' r :
  createPoints arrayBuffer byteOffset pointsPositionByteLength numberOfPoints
    pointBatchIds rectangle minHeight maxHeight content
  = (content', r) ->
  (content' = content /\ r = Throw RangeError)
  \/ (exists ids pointPositions,
        pointBatchIds = Some ids
        /\ newUint16Array arrayBuffer byteOffset
             (pointsPositionByteLength / sizeOfUint16)
           = Normal pointPositions
        /\ content'
           = withPointCollections
               (billboardsOf ids
                  (decodedPointBuffers pointPositions numberOfPoints).1.1
                  (decodedPointBuffers pointPositions numberOfPoints).1.2
                  (decodedPointBuffers pointPositions numberOfPoints).2
                  rectangle minHeight maxHeight (Z.to_nat numberOfPoints))
               (labelsOf ids
                  (decodedPointBuffers pointPositions numberOfPoints).1.1
                  (decodedPointBuffers pointPositions numberOfPoints).1.2
                  (decodedPointBuffers pointPositions numberOfPoints).2
                  rectangle minHeight maxHeight (Z.to_nat numberOfPoints))
               (anchorLinesOf
                  (decodedPointBuffers pointPositions numberOfPoints).1.1
                  (decodedPointBuffers pointPositions numberOfPoints).1.2
                  (decodedPointBuffers pointPositions numberOfPoints).2
                  rectangle minHeight maxHeight (Z.to_nat numberOfPoints))
               content
        /\ r = Normal tt)
  \/ (pointBatchIds = None
      /\ content' = withPointCollections [] [] [] content
      /\ (0 < numberOfPoints /\ r = Throw TypeError
          \/ numberOfPoints <= 0 /\ r = Normal tt)).
Proof.
  intros Hrun.
  destruct (newUint16Array arrayBuffer byteOffset
              (pointsPositionByteLength / sizeOfUint16))
    as [pointPositions | e] eqn:Hread.
  2:{ rewrite (createPoints_out_of_range _ _ _ _ _ _ _ _ _ _ Hread) in Hrun.
      injection Hrun as <- <-. by left. }
  destruct pointBatchIds as [ids |].
  - rewrite (createPoints_with_ids _ _ _ _ _ _ _ _ _ _ Hread) in Hrun.
    injection Hrun as <- <-. right. left. by eexists _, _.
  - right. right. split; [done |].
    destruct (Z.lt_ge_cases 0 numberOfPoints) as [Hpos | Hnone].
    + rewrite (createPoints_without_ids _ _ _ _ _ _ _ _ _ Hread Hpos) in Hrun.
      injection Hrun as <- <-. auto.
    + unfold createPoints in Hrun.
      rewrite (bind_lift_Normal _ _ _ _ Hread) in Hrun.
      unfold bind, update_this, zigZagDeltaDecode in Hrun.
      replace (Z.to_nat numberOfPoints) with 0%nat in Hrun by lia.
      injection Hrun as <- <-. split; [reflexivity |]. right. done.
Qed.

Section Course.

Variable JSON_parse_featureTable : string -> option FeatureTableJson.
Variable JSON_parse_batchTable : string -> option Json.

(** [decodeTile] either throws before it has written anything, or creates the
    batch table for the counts of the parsed feature table and, unless there
    is no primitive, goes on with [decodePrimitives]. *)
Lemma decodeTile_cases arrayBuffer byteOffset content content' r :
  decodeTile JSON_parse_featureTable JSON_parse_batchTable arrayBuffer
    byteOffset content = (content', r) ->
  (content' = content /\ exists e, r = Throw e)
  \/ exists featureTableJSONByteLength featureTableJson batchTable
       featureTableBinary byteOffset' indicesByteLength positionByteLength
       polylinePositionByteLength pointsPositionByteLength,
       getUint32 arrayBuffer byteOffset = Normal featureTableJSONByteLength
       /\ JSON_parse_featureTable
            (getStringFromTypedArray arrayBuffer (byteOffset + 32)
               featureTableJSONByteLength)
          = Some featureTableJson
       /\ featuresLength_ batchTable = totalPrimitivesOf featureTableJson
       /\ colorChanged_numberOfPolygons batchTable
          = numberOfPolygonsOf featureTableJson
       /\ (totalPrimitivesOf featureTableJson = 0
           /\ content' = with_batchTable (Some batchTable) content
           /\ r = Normal tt
           \/ totalPrimitivesOf featureTableJson <> 0
              /\ decodePrimitives arrayBuffer byteOffset' featureTableJson
                   featureTableBinary indicesByteLength positionByteLength
                   polylinePositionByteLength pointsPositionByteLength
                   (numberOfPolygonsOf featureTableJson)
                   (numberOfPolylinesOf featureTableJson)
                   (numberOfPointsOf featureTableJson)
                   (with_batchTable (Some batchTable) content)
                 = (content', r)).
Proof.
  intros Hrun.
  unfold decodeTile in Hrun. cbv zeta in Hrun. unfold sizeOfUint32 in Hrun.
  destruct (getUint32 arrayBuffer byteOffset)
    as [featureTableJSONByteLength | e] eqn:Hlength.
  2:{ unfold bind, lift in Hrun. injection Hrun as <- <-. left. eauto. }
  rewrite (bind_lift_Normal _ _ _ _ eq_refl) in Hrun.
  destruct (featureTableJSONByteLength =? 0).
  { injection Hrun as <- <-. left. eauto. }
  repeat match type of Hrun with
  | bind (lift ?x) _ _ = _ =>
      let E := fresh "E" in
      destruct x eqn:E;
        unfold bind at 1, lift at 1 in Hrun; cbv beta iota in Hrun;
        [| injection Hrun as <- <-; left; by eauto ]
  end.
  replace (byteOffset + 4 + 4 + 4 + 4 + 4 + 4 + 4 + 4)
    with (byteOffset + 32) in * by lia.
  unfold JSON_parse in *.
  match goal with
  | H : match JSON_parse_featureTable ?text with _ => _ end = Normal ?j |- _ =>
      destruct (JSON_parse_featureTable text) as [json |] eqn:Hparse;
        [injection H as -> | discriminate H]
  end.
  match goal with
  | parts : (option Json * option (list Z) * Z)%type |- _ =>
      destruct parts as [[batchTableJson batchTableBinary] byteOffset']
  end.
  unfold bind at 1, update_this at 1 in Hrun.
  right. eexists _, _.
  match type of Hrun with
  | context [with_batchTable (Some ?batchTable)] => exists batchTable
  end.
  eexists _, _, _, _, _, _.
  split; [reflexivity |]. split; [exact Hparse |].
  unfold totalPrimitivesOf, numberOfPolygonsOf, numberOfPolylinesOf,
    numberOfPointsOf.
  match type of Hrun with
  | (if ?total =? 0 then _ else _) _ = _ =>
      destruct (Z.eqb_spec total 0) as [Hzero | Hnonzero]
  end.
  - injection Hrun as <- <-.
    split; [reflexivity |]. split; [reflexivity |]. left. done.
  - split; [reflexivity |]. split; [reflexivity |]. right.
    split; [done |]. exact Hrun.
Qed.

(** The constructor, in its three courses: it throws before anything is
    written; the tile is empty and the ready promise is resolved; or the batch
    table is created and the primitives are decoded. *)
Lemma newVector3DTileContent_cases tileset tile url arrayBuffer byteOffset
    content r :
  newVector3DTileContent JSON_parse_featureTable JSON_parse_batchTable
    tileset tile url arrayBuffer byteOffset = (content, r) ->
  (content = freshContent tileset tile url /\ exists e, r = Throw e)
  \/ (getMagic arrayBuffer (defaultValue byteOffset 0) = "vctr"
      /\ getUint32 arrayBuffer (defaultValue byteOffset 0 + 4) = Normal 1
      /\ getUint32 arrayBuffer (defaultValue byteOffset 0 + 8) = Normal 0
      /\ content
         = with_readyPromise Resolved (freshContent tileset tile url)
      /\ r = Normal tt)
  \/ exists byteLength featureTableJson batchTable,
       getMagic arrayBuffer (defaultValue byteOffset 0) = "vctr"
       /\ getUint32 arrayBuffer (defaultValue byteOffset 0 + 4) = Normal 1
       /\ getUint32 arrayBuffer (defaultValue byteOffset 0 + 8)
          = Normal byteLength
       /\ byteLength <> 0
       /\ tileFeatureTable JSON_parse_featureTable arrayBuffer byteOffset
          = Some featureTableJson
       /\ featuresLength_ batchTable = totalPrimitivesOf featureTableJson
       /\ colorChanged_numberOfPolygons batchTable
          = numberOfPolygonsOf featureTableJson
       /\ (totalPrimitivesOf featureTableJson = 0
           /\ content
              = with_batchTable (Some batchTable)
                  (freshContent tileset tile url)
           /\ r = Normal tt
           \/ totalPrimitivesOf featureTableJson <> 0
              /\ exists featureTableBinary byteOffset' indicesByteLength
                   positionByteLength polylinePositionByteLength
                   pointsPositionByteLength,
                   decodePrimitives arrayBuffer byteOffset' featureTableJson
                     featureTableBinary indicesByteLength positionByteLength
                     polylinePositionByteLength pointsPositionByteLength
                     (numberOfPolygonsOf featureTableJson)
                     (numberOfPolylinesOf featureTableJson)
                     (numberOfPointsOf featureTableJson)
                     (with_batchTable (Some batchTable)
                        (freshContent tileset tile url))
                   = (content, r)).
Proof.
  rewrite newVector3DTileContent_fresh.
  set (fresh := freshContent tileset tile url).
  intros Hrun.
  destruct (decide (getMagic arrayBuffer (defaultValue byteOffset 0) = "vctr"))
    as [Hmagic | Hmagic].
  2:{ rewrite initialize_bad_magic in Hrun by done.
      injection Hrun as <- <-. left. eauto. }
  destruct (getUint32 arrayBuffer (defaultValue byteOffset 0 + 4))
    as [version | e] eqn:Hversion.
  2:{ unfold initialize in Hrun. rewrite Hmagic in Hrun.
      cbn [String.eqb Ascii.eqb Bool.eqb negb] in Hrun.
      unfold sizeOfUint32 in Hrun.
      rewrite (bind_lift_Throw _ _ _ _ Hversion) in Hrun.
      injection Hrun as <- <-. left. eauto. }
  destruct (decide (version = 1)) as [-> | Hne].
  2:{ rewrite (initialize_bad_version _ _ _ _ _ version) in Hrun by done.
      injection Hrun as <- <-. left. eauto. }
  rewrite initialize_good_header in Hrun by done.
  unfold bind, lift in Hrun.
  destruct (getUint32 arrayBuffer (defaultValue byteOffset 0 + 8))
    as [byteLength | e] eqn:Hlength.
  2:{ injection Hrun as <- <-. left. eauto. }
  destruct (Z.eqb_spec byteLength 0) as [-> | Hnonzero].
  { unfold update_this in Hrun. injection Hrun as <- <-. right. left. done. }
  apply decodeTile_cases in Hrun
    as [[-> [e ->]] | (len & json & batchTable & binary & offset' & ibl & pbl
                       & plbl & ptbl & Hlen & Hparse & Hfeatures & Hcolor
                       & Hrest)].
  { left. eauto. }
  right. right. exists byteLength, json, batchTable.
  repeat (split; [done |]).
  split.
  { unfold tileFeatureTable. rewrite Hlen.
    by replace (defaultValue byteOffset 0 + 44)
      with (defaultValue byteOffset 0 + 12 + 32) by lia. }
  split; [done |]. split; [done |].
  destruct Hrest as [Hzero | [Hnonzero' Hdecode]]; [by left |].
  right. split; [done |]. by eexists _, _, _, _, _, _.
Qed.

End Course.

(** ** What decoding leaves in the content *)

Lemma length_readElements bytesPerElement buffer byteOffset count :
  length (readElements bytesPerElement buffer byteOffset count) = count.
Proof.
  revert byteOffset. induction count as [| count IH]; intros byteOffset;
    cbn; [done | by rewrite IH].
Qed.

Lemma length_newTypedArray bytesPerElement buffer byteOffset len a :
  newTypedArray bytesPerElement buffer byteOffset len = Normal a ->
  length a = Z.to_nat len /\ 0 <= len.
Proof.
  unfold newTypedArray.
  destruct (Z.leb_spec 0 byteOffset); [| done].
  destruct (byteOffset mod bytesPerElement =? 0); [| done].
  destruct (Z.leb_spec 0 len); [| done].
  destruct (byteOffset + len * bytesPerElement <=? byteLengthOf buffer);
    [| done].
  intros [= <-]. by rewrite length_readElements.
Qed.

Lemma length_featureTableArray bytesPerElement featureTableBinary key len a :
  featureTableArray bytesPerElement featureTableBinary key len = Normal a ->
  length a = Z.to_nat len /\ is_Some key.
Proof.
  unfold featureTableArray. destruct key as [byteOffset |]; [| done].
  intros [H _]%length_newTypedArray. eauto.
Qed.

Lemma length_polylineWidths featureTableJson featureTableBinary
    numberOfPolylines widths :
  polylineWidths featureTableJson featureTableBinary numberOfPolylines
  = Normal widths ->
  length widths = Z.to_nat numberOfPolylines.
Proof.
  unfold polylineWidths.
  destruct (POLYLINE_WIDTHS featureTableJson) as [byteOffset |];
    cbn [defined negb].
  - destruct (featureTableArray _ _ _ _) as [a |] eqn:Harray; [| done].
    intros [= <-]. rewrite length_map.
    by apply length_featureTableArray in Harray as [-> _].
  - intros [= <-]. apply length_replicate.
Qed.

Lemma length_fillSequential count maxId :
  length (fillSequential count maxId).1 = count.
Proof. rewrite fillSequential_seqZ. cbn. rewrite length_fmap, length_seqZ. lia. Qed.

(** Explicit or synthesized, an array of batch ids has one id per primitive
    of its type. *)
Lemma length_explicitBatchIds featureTableBinary numberOf key ids :
  explicitBatchIds featureTableBinary numberOf key = Normal (Some ids) ->
  length ids = Z.to_nat numberOf.
Proof.
  unfold explicitBatchIds. destruct (suppliesBatchIds numberOf key); [| done].
  destruct key as [byteOffset |]; [| done].
  destruct (newUint16Array _ _ _) as [a |] eqn:Harray; [| done].
  intros [= <-]. by apply length_newTypedArray in Harray as [-> _].
Qed.

Lemma length_synthesizeOne ids numberOf maxId :
  (forall a, ids = Some a -> length a = Z.to_nat numberOf) ->
  forall a, (synthesizeOne ids numberOf maxId).1 = Some a ->
            length a = Z.to_nat numberOf.
Proof.
  intros Hids a. unfold synthesizeOne.
  destruct (negb (defined ids) && (0 <? numberOf)); [| by apply Hids].
  pose proof (length_fillSequential (Z.to_nat numberOf) maxId) as Hlen.
  destruct (fillSequential _ _) as [filled after].
  cbn in *. by intros [= <-].
Qed.

Lemma resolveBatchIds_counts featureTableJson featureTableBinary
    numberOfPolygons numberOfPolylines numberOfPoints
    polygonBatchIds polylineBatchIds pointBatchIds :
  resolveBatchIds featureTableJson featureTableBinary
    numberOfPolygons numberOfPolylines numberOfPoints
  = Normal (polygonBatchIds, polylineBatchIds, pointBatchIds) ->
  (forall ids, polygonBatchIds = Some ids ->
               0 < numberOfPolygons
               /\ Z.of_nat (length ids) = numberOfPolygons)
  /\ (forall ids, polylineBatchIds = Some ids ->
                  0 < numberOfPolylines
                  /\ Z.of_nat (length ids) = numberOfPolylines)
  /\ (forall ids, pointBatchIds = Some ids ->
                  0 < numberOfPoints
                  /\ Z.of_nat (length ids) = numberOfPoints).
Proof.
  assert (forall binary numberOf key a,
            explicitBatchIds binary numberOf key = Normal (Some a) ->
            0 < numberOf /\ Z.of_nat (length a) = numberOf) as Hexplicit.
  { intros binary numberOf key a Ha.
    pose proof (length_explicitBatchIds _ _ _ _ Ha) as Hlen.
    unfold explicitBatchIds, suppliesBatchIds in Ha.
    destruct (Z.ltb_spec 0 numberOf); [lia | done]. }
  assert (forall ids numberOf maxId a,
            (forall a', ids = Some a' ->
                        0 < numberOf /\ Z.of_nat (length a') = numberOf) ->
            (synthesizeOne ids numberOf maxId).1 = Some a ->
            0 < numberOf /\ Z.of_nat (length a) = numberOf) as Hsynthesized.
  { intros ids numberOf maxId a Hids Ha.
    unfold synthesizeOne in Ha.
    destruct ids as [a' |]; cbn [defined negb andb] in Ha.
    - apply Hids. by cbn in Ha.
    - destruct (Z.ltb_spec 0 numberOf); [| done].
      pose proof (length_fillSequential (Z.to_nat numberOf) maxId) as Hlen.
      destruct (fillSequential _ _) as [filled after].
      cbn in *. injection Ha as <-. lia. }
  unfold resolveBatchIds.
  destruct (explicitBatchIds _ numberOfPolygons _) as [pg |] eqn:Hpg; [| done].
  destruct (explicitBatchIds _ numberOfPolylines _) as [pl |] eqn:Hpl;
    [| done].
  destruct (explicitBatchIds _ numberOfPoints _) as [pt |] eqn:Hpt; [| done].
  unfold synthesizeBatchIds.
  destruct (negb (defined pg) && negb (defined pl) && negb (defined pt)).
  - destruct (synthesizeOne pg _ _) as [pg' after1] eqn:H1.
    destruct (synthesizeOne pl _ _) as [pl' after2] eqn:H2.
    destruct (synthesizeOne pt _ _) as [pt' after3] eqn:H3.
    intros [= <- <- <-].
    split; [| split]; intros ids ->.
    + eapply Hsynthesized; [| by rewrite H1].
      intros a' ->. by eapply Hexplicit.
    + eapply Hsynthesized; [| by rewrite H2].
      intros a' ->. by eapply Hexplicit.
    + eapply Hsynthesized; [| by rewrite H3].
      intros a' ->. by eapply Hexplicit.
  - intros [= <- <- <-].
    split; [| split]; intros ids ->; by eapply Hexplicit.
Qed.

(** X3: An array of batch ids, explicit or synthesized, exists only for a type
    that has primitives, and it has exactly one id per primitive. *)
Theorem batch_id_arrays_match_counts featureTableJson featureTableBinary
    numberOfPolygons numberOfPolylines numberOfPoints
    polygonBatchIds polylineBatchIds pointBatchIds :
  resolveBatchIds featureTableJson featureTableBinary
    numberOfPolygons numberOfPolylines numberOfPoints
  = Normal (polygonBatchIds, polylineBatchIds, pointBatchIds) ->
  (forall ids, polygonBatchIds = Some ids ->
               0 < numberOfPolygons
               /\ Z.of_nat (length ids) = numberOfPolygons)
  /\ (forall ids, polylineBatchIds = Some ids ->
                  0 < numberOfPolylines
                  /\ Z.of_nat (length ids) = numberOfPolylines)
  /\ (forall ids, pointBatchIds = Some ids ->
                  0 < numberOfPoints
                  /\ Z.of_nat (length ids) = numberOfPoints).
Proof. apply resolveBatchIds_counts. Qed.

Lemma batch_id_arrays_match_counts_witness :
  resolveBatchIds (sampleFeatureTableWithPolygonIds 2 3 3)
    {| view_buffer := sampleTile; view_byteOffset := 48; view_length := 32 |}
    2 3 3
  = Normal (Some [7; 9], None, None)
  /\ Z.of_nat (length [7; 9]) = 2.
Proof.
  assert (resolveBatchIds (sampleFeatureTableWithPolygonIds 2 3 3)
            {| view_buffer := sampleTile; view_byteOffset := 48;
               view_length := 32 |} 2 3 3
          = Normal (Some [7; 9], None, None)) as Hresolve
    by (vm_compute; reflexivity).
  split; [exact Hresolve |].
  by apply (proj1 (batch_id_arrays_match_counts _ _ _ _ _ _ _ _ Hresolve)
              [7; 9]).
Defined.

Lemma Forall_billboardsOf (P : Billboard -> Prop) ids u v h rectangle
    minHeight maxHeight n :
  (forall i, (i < n)%nat ->
     P {| b_position := pointPositionAt u v h rectangle minHeight maxHeight i;
          b_verticalOrigin := VerticalOrigin_BOTTOM;
          b_batchIndex := ids !! i |}) ->
  Forall P (billboardsOf ids u v h rectangle minHeight maxHeight n).
Proof.
  intros HP. unfold billboardsOf. apply Forall_map, Forall_forall.
  intros i Hi%list_elem_of_In%in_seq. apply HP. lia.
Qed.

Lemma Forall_labelsOf (P : Label -> Prop) ids u v h rectangle
    minHeight maxHeight n :
  (forall i, (i < n)%nat ->
     P {| l_text := " ";
          l_position := pointPositionAt u v h rectangle minHeight maxHeight i;
          l_verticalOrigin := VerticalOrigin_BOTTOM;
          l_batchIndex := ids !! i |}) ->
  Forall P (labelsOf ids u v h rectangle minHeight maxHeight n).
Proof.
  intros HP. unfold labelsOf. apply Forall_map, Forall_forall.
  intros i Hi%list_elem_of_In%in_seq. apply HP. lia.
Qed.

Lemma pointsBuiltFor_with_ids featureTableJson tile ids u v h minHeight
    maxHeight :
  0 < numberOfPointsOf featureTableJson ->
  Z.of_nat (length ids) = numberOfPointsOf featureTableJson ->
  pointsBuiltFor featureTableJson tile
    (billboardsOf ids u v h (rectangleOf featureTableJson tile) minHeight
       maxHeight (Z.to_nat (numberOfPointsOf featureTableJson)))
    (labelsOf ids u v h (rectangleOf featureTableJson tile) minHeight
       maxHeight (Z.to_nat (numberOfPointsOf featureTableJson)))
    (anchorLinesOf u v h (rectangleOf featureTableJson tile) minHeight
       maxHeight (Z.to_nat (numberOfPointsOf featureTableJson))).
Proof.
  intros Hpos Hids. unfold pointsBuiltFor.
  split; [done |].
  split; [unfold labelsOf, billboardsOf; by rewrite !length_map |].
  split; [unfold anchorLinesOf, billboardsOf; by rewrite !length_map |].
  split.
  { right. unfold billboardsOf. rewrite length_map, length_seq. lia. }
  split; [| split].
  - apply Forall_billboardsOf. intros i Hi. cbn.
    split; [| done]. apply lookup_lt_is_Some. lia.
  - apply Forall_labelsOf. intros i Hi. cbn.
    split; [| done]. apply lookup_lt_is_Some. lia.
  - unfold anchorLinesOf. apply Forall_map, Forall_forall. intros i _.
    cbn. eauto.
Qed.

Lemma pointsBuiltFor_empty featureTableJson tile :
  0 < numberOfPointsOf featureTableJson ->
  pointsBuiltFor featureTableJson tile [] [] [].
Proof. intros Hpos. unfold pointsBuiltFor. repeat split; auto. Qed.

Lemma polygons_stage arrayBuffer byteOffset indicesByteLength
    positionByteLength featureTableJson featureTableBinary polygonBatchIds
    content content1 r1 :
  (if 0 <? numberOfPolygonsOf featureTableJson then
     createPolygons arrayBuffer byteOffset indicesByteLength
       positionByteLength featureTableJson featureTableBinary
       (numberOfPolygonsOf featureTableJson) polygonBatchIds
       (MINIMUM_HEIGHT featureTableJson) (MAXIMUM_HEIGHT featureTableJson)
       (defaultValue (RTC_CENTER featureTableJson) Cartesian3_ZERO)
       (defaultValue (RECTANGLE featureTableJson)
          (contentBoundingVolume_rectangle (_tile content)))
       (defaultValue (FORMAT featureTableJson) 0 =? 0)
       (computedTransform (_tile content))
   else ret byteOffset) content = (content1, r1) ->
  (forall ids, polygonBatchIds = Some ids ->
               Z.of_nat (length ids) = numberOfPolygonsOf featureTableJson) ->
  exists built,
    content1 = addPolygons built content
    /\ (forall polygons,
          built = Some polygons ->
          polygonsBuiltFor featureTableJson (_tile content) polygons)
    /\ (forall byteOffset1,
          r1 = Normal byteOffset1 ->
          0 < numberOfPolygonsOf featureTableJson -> is_Some built).
Proof.
  intros Hrun Hids.
  destruct (Z.ltb_spec 0 (numberOfPolygonsOf featureTableJson))
    as [Hpos | Hnone].
  - apply createPolygons_cases in Hrun
      as [[-> [e ->]] | (polygons & -> & -> & Hb & Hc & Hr & Hmin & Hmax
                         & Hcart & Hmm & Hbv & _ & _ & Hcounts & Hindex)].
    + exists None. by repeat split.
    + exists (Some polygons). split; [done |]. split; [| by eauto].
      intros ? [= <-].
      apply length_featureTableArray in Hcounts as [Hcounts ?].
      apply length_featureTableArray in Hindex as [Hindex ?].
      unfold polygonsBuiltFor, centerOf, rectangleOf.
      repeat split; try done; try lia.
      intros ids Hsome. rewrite Hb in Hsome. by apply Hids.
  - injection Hrun as <- <-. exists None.
    split; [done |]. split; [done |]. intros; lia.
Qed.

Lemma polylines_stage arrayBuffer byteOffset polylinePositionByteLength
    featureTableJson featureTableBinary polylineBatchIds rectangleTile
    content content2 r2 :
  (if 0 <? numberOfPolylinesOf featureTableJson then
     createPolylines arrayBuffer byteOffset polylinePositionByteLength
       featureTableJson featureTableBinary
       (numberOfPolylinesOf featureTableJson) polylineBatchIds
       (MINIMUM_HEIGHT featureTableJson) (MAXIMUM_HEIGHT featureTableJson)
       (defaultValue (RTC_CENTER featureTableJson) Cartesian3_ZERO)
       (defaultValue (RECTANGLE featureTableJson)
          (contentBoundingVolume_rectangle rectangleTile))
   else ret byteOffset) content = (content2, r2) ->
  (forall ids, polylineBatchIds = Some ids ->
               Z.of_nat (length ids) = numberOfPolylinesOf featureTableJson) ->
  _boundingVolume_boundingVolume (_tile content)
  = _boundingVolume_boundingVolume rectangleTile ->
  exists built,
    content2 = addPolylines built content
    /\ (forall polylines,
          built = Some polylines ->
          polylinesBuiltFor featureTableJson rectangleTile polylines)
    /\ (forall byteOffset2,
          r2 = Normal byteOffset2 ->
          0 < numberOfPolylinesOf featureTableJson -> is_Some built).
Proof.
  intros Hrun Hids Htile.
  destruct (Z.ltb_spec 0 (numberOfPolylinesOf featureTableJson))
    as [Hpos | Hnone].
  - apply createPolylines_cases in Hrun
      as [[-> [e ->]] | (polylines & -> & -> & Hb & Hc & Hr & Hmin & Hmax
                         & Hbv & _ & Hcounts & Hwidths)].
    + exists None. by repeat split.
    + exists (Some polylines). split; [done |]. split; [| by eauto].
      intros ? [= <-].
      apply length_featureTableArray in Hcounts as [Hcounts ?].
      apply length_polylineWidths in Hwidths.
      unfold polylinesBuiltFor, centerOf, rectangleOf.
      repeat split; try done; try lia; try congruence.
      intros ids Hsome. rewrite Hb in Hsome. by apply Hids.
  - injection Hrun as <- <-. exists None.
    split; [done |]. split; [done |]. intros; lia.
Qed.

Lemma points_stage arrayBuffer byteOffset pointsPositionByteLength
    featureTableJson pointBatchIds tile content content' r :
  (if 0 <? numberOfPointsOf featureTableJson then
     createPoints arrayBuffer byteOffset pointsPositionByteLength
       (numberOfPointsOf featureTableJson) pointBatchIds
       (defaultValue (RECTANGLE featureTableJson)
          (contentBoundingVolume_rectangle tile))
       (MINIMUM_HEIGHT featureTableJson) (MAXIMUM_HEIGHT featureTableJson)
   else ret tt) content = (content', r) ->
  (forall ids, pointBatchIds = Some ids ->
               Z.of_nat (length ids) = numberOfPointsOf featureTableJson) ->
  exists built,
    content' = addPoints built content
    /\ (forall billboards labels polylines,
          built = Some (billboards, labels, polylines) ->
          pointsBuiltFor featureTableJson tile billboards labels polylines)
    /\ (r = Normal tt ->
        0 < numberOfPointsOf featureTableJson ->
        exists billboards labels polylines,
          built = Some (billboards, labels, polylines)
          /\ Z.of_nat (length billboards)
             = numberOfPointsOf featureTableJson).
Proof.
  intros Hrun Hids.
  destruct (Z.ltb_spec 0 (numberOfPointsOf featureTableJson))
    as [Hpos | Hnone].
  - apply createPoints_cases in Hrun
      as [[-> ->] | [(ids & positions & -> & _ & -> & ->)
                    | (-> & -> & [[_ ->] | [? _]])]]; [| | | lia].
    + exists None. by repeat split.
    + eexists (Some (_, _, _)). split; [reflexivity |].
      specialize (Hids ids eq_refl). split.
      * intros ? ? ? [= <- <- <-].
        by apply pointsBuiltFor_with_ids.
      * intros _ _. eexists _, _, _. split; [reflexivity |].
        unfold billboardsOf. rewrite length_map, length_seq. lia.
    + exists (Some ([], [], [])). split; [reflexivity |]. split; [| done].
      intros ? ? ? [= <- <- <-]. by apply pointsBuiltFor_empty.
  - injection Hrun as <- <-. exists None.
    split; [done |]. split; [done |]. intros; lia.
Qed.

(** What [decodePrimitives] leaves in a content that had no primitives. *)
Lemma decodePrimitives_decodedFor arrayBuffer byteOffset featureTableJson
    featureTableBinary indicesByteLength positionByteLength
    polylinePositionByteLength pointsPositionByteLength content content' r :
  decodePrimitives arrayBuffer byteOffset featureTableJson featureTableBinary
    indicesByteLength positionByteLength polylinePositionByteLength
    pointsPositionByteLength (numberOfPolygonsOf featureTableJson)
    (numberOfPolylinesOf featureTableJson)
    (numberOfPointsOf featureTableJson) content
  = (content', r) ->
  noPrimitives content ->
  sameOutsidePrimitives content content'
  /\ decodedFor featureTableJson (_tile content) content' r.
Proof.
  intros Hrun (Hpg & Hpl & Hbs & Hls & Hps).
  rewrite decodePrimitives_unfold in Hrun. cbv zeta in Hrun.
  destruct (resolveBatchIds _ _ _ _ _)
    as [[[polygonBatchIds polylineBatchIds] pointBatchIds] | e] eqn:Hids.
  2:{ injection Hrun as <- <-. split; [by repeat split |].
      unfold decodedFor. rewrite Hpg, Hpl, Hbs, Hls, Hps.
      split; [done |]. split; [done |]. split; [by left | done]. }
  destruct (resolveBatchIds_counts _ _ _ _ _ _ _ _ Hids)
    as (Hpgids & Hplids & Hptids).
  run_first Hrun content1 r1 Hrun1.
  apply polygons_stage in Hrun1 as (built1 & -> & Hbuilt1 & Hdone1);
    [| intros ids Hsome; by apply Hpgids].
  assert (forall built2 built3,
            sameOutsidePrimitives content
              (addPoints built3 (addPolylines built2
                                   (addPolygons built1 content)))
            /\ _polygons (addPoints built3 (addPolylines built2
                                   (addPolygons built1 content))) = built1
            /\ _polylines (addPoints built3 (addPolylines built2
                                   (addPolygons built1 content))) = built2
            /\ _billboardCollection
                 (addPoints built3 (addPolylines built2
                                      (addPolygons built1 content)))
               = (fun b => b.1.1) <$> built3
            /\ _labelCollection
                 (addPoints built3 (addPolylines built2
                                      (addPolygons built1 content)))
               = (fun b => b.1.2) <$> built3
            /\ _polylineCollection
                 (addPoints built3 (addPolylines built2
                                      (addPolygons built1 content)))
               = (fun b => b.2) <$> built3) as Hfields.
  { intros built2 built3.
    destruct built1, built2, built3 as [[[? ?] ?] |]; cbn;
      by repeat split. }
  assert (forall built2 built3 r',
            (forall polylines,
               built2 = Some polylines ->
               polylinesBuiltFor featureTableJson (_tile content) polylines) ->
            (forall billboards labels polylines,
               built3 = Some (billboards, labels, polylines) ->
               pointsBuiltFor featureTableJson (_tile content) billboards
                 labels polylines) ->
            (r' = Normal tt ->
             (0 < numberOfPolygonsOf featureTableJson -> is_Some built1)
             /\ (0 < numberOfPolylinesOf featureTableJson -> is_Some built2)
             /\ (0 < numberOfPointsOf featureTableJson ->
                 exists billboards labels polylines,
                   built3 = Some (billboards, labels, polylines)
                   /\ Z.of_nat (length billboards)
                      = numberOfPointsOf featureTableJson)) ->
            sameOutsidePrimitives content
              (addPoints built3 (addPolylines built2
                                   (addPolygons built1 content)))
            /\ decodedFor featureTableJson (_tile content)
                 (addPoints built3 (addPolylines built2
                                      (addPolygons built1 content))) r')
    as Hfinish.
  { intros built2 built3 r' Hbuilt2 Hbuilt3 Hdone.
    destruct (Hfields built2 built3) as (Hsame & Hg & Hli & Hb & Hl & Hp).
    split; [done |]. unfold decodedFor. rewrite Hg, Hli.
    split; [done |]. split; [done |]. split.
    - rewrite Hb, Hl, Hp.
      destruct built3 as [[[billboards labels] polylines] |]; [| by left].
      right. exists billboards, labels, polylines. cbn.
      split; [done |]. split; [done |]. split; [done |]. by apply Hbuilt3.
    - intros Hr. destruct (Hdone Hr) as (H1 & H2 & H3).
      split; [done |]. split; [done |]. intros Hpos.
      destruct (H3 Hpos) as (billboards & labels & polylines & -> & Hlen).
      rewrite Hb. cbn. eauto. }
  destruct r1 as [byteOffset1 | e1].
  2:{ injection Hrun as <- <-.
      apply (Hfinish None None); done. }
  run_first Hrun content2 r2 Hrun2.
  apply (polylines_stage _ _ _ _ _ _ (_tile content)) in Hrun2
    as (built2 & -> & Hbuilt2 & Hdone2);
    [| intros ids Hsome; by apply Hplids | by destruct built1].
  destruct r2 as [byteOffset2 | e2].
  2:{ injection Hrun as <- <-.
      apply (Hfinish built2 None); done. }
  apply (points_stage _ _ _ _ _ (_tile content)) in Hrun
    as (built3 & -> & Hbuilt3 & Hdone3);
    [| intros ids Hsome; by apply Hptids].
  apply (Hfinish built2 built3); try done.
  intros Hr. split; [by eapply Hdone1 |]. split; [by eapply Hdone2 |].
  by apply Hdone3.
Qed.

Lemma decodedFor_noPrimitives featureTableJson tile content e :
  noPrimitives content ->
  decodedFor featureTableJson tile content (Throw e).
Proof.
  intros (Hpg & Hpl & Hbs & Hls & Hps). unfold decodedFor.
  rewrite Hpg, Hpl, Hbs, Hls, Hps.
  split; [done |]. split; [done |]. split; [by left | done].
Qed.

Lemma decodedFor_Throw featureTableJson tile content r e :
  decodedFor featureTableJson tile content r ->
  decodedFor featureTableJson tile content (Throw e).
Proof.
  intros (Hpg & Hpl & Hpt & _). unfold decodedFor.
  split; [done |]. split; [done |]. split; done.
Qed.

Section Constructed.

Variable JSON_parse_featureTable : string -> option FeatureTableJson.
Variable JSON_parse_batchTable : string -> option Json.

(** Everything the course of the constructor tells about the content it
    leaves, for a tile whose feature table parses to [featureTableJson]. *)
Lemma newVector3DTileContent_decodedFor tileset tile url arrayBuffer
    byteOffset featureTableJson content r :
  newVector3DTileContent JSON_parse_featureTable JSON_parse_batchTable
    tileset tile url arrayBuffer byteOffset = (content, r) ->
  tileFeatureTable JSON_parse_featureTable arrayBuffer byteOffset
  = Some featureTableJson ->
  (_tileset content = tileset /\ _tile content = tile /\ _url content = url
   /\ _features content = None /\ own_isDestroyed content = None)
  /\ (_readyPromise content = Resolved <->
      getMagic arrayBuffer (defaultValue byteOffset 0) = "vctr"
      /\ getUint32 arrayBuffer (defaultValue byteOffset 0 + 4) = Normal 1
      /\ getUint32 arrayBuffer (defaultValue byteOffset 0 + 8) = Normal 0)
  /\ (forall batchTable,
        _batchTable content = Some batchTable ->
        featuresLength_ batchTable = totalPrimitivesOf featureTableJson
        /\ colorChanged_numberOfPolygons batchTable
           = numberOfPolygonsOf featureTableJson)
  /\ (_batchTable content = None -> noPrimitives content)
  /\ (totalPrimitivesOf featureTableJson = 0 -> noPrimitives content)
  /\ decodedFor featureTableJson tile content (Throw RangeError)
  /\ (getUint32 arrayBuffer (defaultValue byteOffset 0 + 8) <> Normal 0 ->
      (totalPrimitivesOf featureTableJson <> 0 ->
       decodedFor featureTableJson tile content r)
      /\ (r = Normal tt -> is_Some (_batchTable content))).
Proof.
  intros Hrun Htable.
  pose proof Hrun as Hrun0.
  assert (noPrimitives (freshContent tileset tile url)) as Hnone
    by (by repeat split).
  apply newVector3DTileContent_cases in Hrun
    as [[-> [e ->]]
       | [(Hmagic & Hversion & Hlength & -> & ->)
         | (byteLength & json & batchTable & Hmagic & Hversion & Hlength
            & Hnonzero & Htable' & Hfeatures & Hcolor & Hrest)]].
  - split; [done |]. split.
    { cbn. split; [done |]. intros (Hm & Hv & Hl). exfalso.
      rewrite newVector3DTileContent_fresh in Hrun0.
      rewrite initialize_good_header in Hrun0 by done.
      rewrite (bind_lift_Normal _ _ _ _ Hl) in Hrun0. discriminate Hrun0. }
    split; [done |]. split; [done |]. split; [done |].
    split; [by apply decodedFor_noPrimitives |].
    intros _. split; [intros _; by apply decodedFor_noPrimitives | done].
  - split; [done |]. split; [done |]. split; [done |].
    split; [done |]. split; [done |].
    split; [by apply decodedFor_noPrimitives |]. done.
  - rewrite Htable in Htable'. injection Htable' as <-.
    assert (getUint32 arrayBuffer (defaultValue byteOffset 0 + 8)
            <> Normal 0) as Hne by (rewrite Hlength; congruence).
    destruct Hrest as [(Hzero & -> & ->) | (Hnz & binary & offset' & ibl
                                             & pbl & plbl & ptbl & Hdecode)].
    + split; [done |]. split; [cbn; split; [done | tauto] |].
      split; [by intros ? [= <-] |]. split; [done |]. split; [done |].
      split; [by apply decodedFor_noPrimitives |].
      intros _. split; [done | by eauto].
    + apply decodePrimitives_decodedFor in Hdecode
        as [(Ht & Hti & Hu & Hr & Hb & Hf & Hd & Ho) Hdecoded]; [| done].
      cbn in Ht, Hti, Hu, Hr, Hb, Hf, Hd, Ho, Hdecoded.
      split; [done |]. split; [rewrite Hr; split; [done | tauto] |].
      rewrite Hb.
      split; [by intros ? [= <-] |]. split; [done |]. split; [done |].
      split; [by eapply decodedFor_Throw |]. intros _. split; [done | eauto].
Qed.

End Constructed.

(** ** The constructed content *)

(** X4: The constructor resolves the ready promise of an empty tile only: the
    promise of the content it leaves is resolved exactly when the header is
    valid and its byteLength field is 0.  For every other tile, decoded or
    failed, it is still pending. *)
Theorem constructor_resolves_only_empty_tile
    (JSON_parse_featureTable : string -> option FeatureTableJson)
    (JSON_parse_batchTable : string -> option Json)
    tileset tile url arrayBuffer byteOffset :
  readyPromise
    (newVector3DTileContent JSON_parse_featureTable JSON_parse_batchTable
       tileset tile url arrayBuffer byteOffset).1 = Resolved
  <-> getMagic arrayBuffer (defaultValue byteOffset 0) = "vctr"
      /\ getUint32 arrayBuffer (defaultValue byteOffset 0 + 4) = Normal 1
      /\ getUint32 arrayBuffer (defaultValue byteOffset 0 + 8) = Normal 0.
Proof.
  destruct (newVector3DTileContent _ _ _ _ _ _ _) as [content r] eqn:Hrun.
  pose proof Hrun as Hrun0. cbn [fst]. unfold readyPromise.
  apply newVector3DTileContent_cases in Hrun
    as [[-> [e ->]]
       | [(Hmagic & Hversion & Hlength & -> & ->)
         | (byteLength & json & batchTable & Hmagic & Hversion & Hlength
            & Hnonzero & Htable' & Hfeatures & Hcolor & Hrest)]].
  - cbn. split; [done |]. intros (Hm & Hv & Hl). exfalso.
    rewrite newVector3DTileContent_fresh in Hrun0.
    rewrite initialize_good_header in Hrun0 by done.
    rewrite (bind_lift_Normal _ _ _ _ Hl) in Hrun0. discriminate Hrun0.
  - done.
  - assert (_readyPromise content = Pending) as ->.
    { destruct Hrest as [(_ & -> & _) | (_ & binary & offset' & ibl & pbl
                                          & plbl & ptbl & Hdecode)];
        [done |].
      apply decodePrimitives_decodedFor in Hdecode
        as [(_ & _ & _ & Hr & _) _]; [| by repeat split].
      by rewrite Hr. }
    split; [done |]. intros (_ & _ & Hl). rewrite Hlength in Hl. congruence.
Qed.

(** X5: When the constructor leaves a batch table, its capacity is the sum of the
    three counts of the feature table, so featuresLength is
    polygons + polylines + points, and the color-changed callback was made
    for the number of polygons. *)
Theorem constructor_batch_table_capacity
    (JSON_parse_featureTable : string -> option FeatureTableJson)
    (JSON_parse_batchTable : string -> option Json)
    tileset tile url arrayBuffer byteOffset featureTableJson batchTable :
  tileFeatureTable JSON_parse_featureTable arrayBuffer byteOffset
  = Some featureTableJson ->
  _batchTable
    (newVector3DTileContent JSON_parse_featureTable JSON_parse_batchTable
       tileset tile url arrayBuffer byteOffset).1 = Some batchTable ->
  featuresLength
    (newVector3DTileContent JSON_parse_featureTable JSON_parse_batchTable
       tileset tile url arrayBuffer byteOffset).1
  = defaultValue (POLYGONS_LENGTH featureTableJson) 0
    + defaultValue (POLYLINES_LENGTH featureTableJson) 0
    + defaultValue (POINTS_LENGTH featureTableJson) 0
  /\ colorChanged_numberOfPolygons batchTable
     = defaultValue (POLYGONS_LENGTH featureTableJson) 0.
Proof.
  intros Htable Hsome.
  destruct (newVector3DTileContent _ _ _ _ _ _ _) as [content r] eqn:Hrun.
  cbn [fst] in *.
  destruct (newVector3DTileContent_decodedFor _ _ _ _ _ _ _ _ _ _ Hrun Htable)
    as (_ & _ & Hcapacity & _).
  destruct (Hcapacity batchTable Hsome) as [Hlen Hcolor].
  unfold featuresLength. rewrite Hsome. done.
Qed.

Lemma constructor_batch_table_capacity_witness :
  featuresLength (decodeSample (sampleFeatureTable 2 3 3) sampleTile).1 = 8.
Proof.
  destruct (_batchTable (decodeSample (sampleFeatureTable 2 3 3) sampleTile).1)
    as [batchTable |] eqn:Hsome; [| vm_compute in Hsome; discriminate].
  apply (constructor_batch_table_capacity
           (sampleParse (sampleFeatureTable 2 3 3)) sampleParseBatchTable
           0%nat sampleTileObject "sample.vctr" sampleTile None
           (sampleFeatureTable 2 3 3) batchTable);
    [reflexivity | exact Hsome].
Defined.

(** X6: The frame of reference of the builders.  Whatever the tile, a polygon set
    the constructor built was given RTC_CENTER (the origin when absent),
    RECTANGLE (the rectangle of the tile's content bounding volume when
    absent), the two heights of the feature table, isCartographic = (FORMAT
    is 0 or absent), the tile's computed transform and bounding volume, and
    count and index-count arrays with one entry per polygon; a polyline set
    was given the same center, rectangle, heights and bounding volume, and
    count and width arrays with one entry per polyline.  Either set exists
    only for a positive count. *)
Theorem constructor_builders_frame
    (JSON_parse_featureTable : string -> option FeatureTableJson)
    (JSON_parse_batchTable : string -> option Json)
    tileset tile url arrayBuffer byteOffset featureTableJson :
  tileFeatureTable JSON_parse_featureTable arrayBuffer byteOffset
  = Some featureTableJson ->
  (forall polygons,
     _polygons
       (newVector3DTileContent JSON_parse_featureTable JSON_parse_batchTable
          tileset tile url arrayBuffer byteOffset).1 = Some polygons ->
     polygonsBuiltFor featureTableJson tile polygons)
  /\ (forall polylines,
        _polylines
          (newVector3DTileContent JSON_parse_featureTable
             JSON_parse_batchTable tileset tile url arrayBuffer byteOffset).1
        = Some polylines ->
        polylinesBuiltFor featureTableJson tile polylines).
Proof.
  intros Htable.
  destruct (newVector3DTileContent _ _ _ _ _ _ _) as [content r] eqn:Hrun.
  cbn [fst].
  destruct (newVector3DTileContent_decodedFor _ _ _ _ _ _ _ _ _ _ Hrun Htable)
    as (_ & _ & _ & _ & _ & (Hpg & Hpl & _) & _).
  by split.
Qed.

Lemma constructor_builders_frame_witness :
  exists polygons,
    _polygons (decodeSample (sampleFeatureTable 2 3 3) sampleTile).1
    = Some polygons
    /\ polygonsBuiltFor (sampleFeatureTable 2 3 3) sampleTileObject polygons.
Proof.
  destruct (_polygons (decodeSample (sampleFeatureTable 2 3 3) sampleTile).1)
    as [polygons |] eqn:Hsome; [| vm_compute in Hsome; discriminate].
  exists polygons. split; [reflexivity |].
  apply (constructor_builders_frame
           (sampleParse (sampleFeatureTable 2 3 3)) sampleParseBatchTable
           0%nat sampleTileObject "sample.vctr" sampleTile None
           (sampleFeatureTable 2 3 3)); [reflexivity | exact Hsome].
Defined.

(** X7: The three point collections are allocated together and stay parallel:
    after the constructor either none of them exists, or all three do and
    hold the same number of records, which is 0 or POINTS_LENGTH; every
    billboard and label has a batch id and the vertical origin BOTTOM, every
    label has the text of one space, and every anchor line has two equal
    positions. *)
Theorem constructor_point_collections_parallel
    (JSON_parse_featureTable : string -> option FeatureTableJson)
    (JSON_parse_batchTable : string -> option Json)
    tileset tile url arrayBuffer byteOffset featureTableJson :
  tileFeatureTable JSON_parse_featureTable arrayBuffer byteOffset
  = Some featureTableJson ->
  match
    _billboardCollection
      (newVector3DTileContent JSON_parse_featureTable JSON_parse_batchTable
         tileset tile url arrayBuffer byteOffset).1,
    _labelCollection
      (newVector3DTileContent JSON_parse_featureTable JSON_parse_batchTable
         tileset tile url arrayBuffer byteOffset).1,
    _polylineCollection
      (newVector3DTileContent JSON_parse_featureTable JSON_parse_batchTable
         tileset tile url arrayBuffer byteOffset).1
  with
  | None, None, None => True
  | Some billboards, Some labels, Some polylines =>
      pointsBuiltFor featureTableJson tile billboards labels polylines
  | _, _, _ => False
  end.
Proof.
  intros Htable.
  destruct (newVector3DTileContent _ _ _ _ _ _ _) as [content r] eqn:Hrun.
  cbn [fst].
  destruct (newVector3DTileContent_decodedFor _ _ _ _ _ _ _ _ _ _ Hrun Htable)
    as (_ & _ & _ & _ & _ & (_ & _ & Hpt & _) & _).
  destruct Hpt as [(-> & -> & ->)
                  | (billboards & labels & polylines & -> & -> & -> & Hbuilt)];
    done.
Qed.

Lemma constructor_point_collections_parallel_witness :
  exists billboards labels polylines,
    _billboardCollection (decodeSample (sampleFeatureTable 2 3 3) sampleTile).1
    = Some billboards
    /\ length billboards = 3%nat
    /\ pointsBuiltFor (sampleFeatureTable 2 3 3) sampleTileObject
         billboards labels polylines.
Proof.
  pose proof (constructor_point_collections_parallel
                (sampleParse (sampleFeatureTable 2 3 3)) sampleParseBatchTable
                0%nat sampleTileObject "sample.vctr" sampleTile None
                (sampleFeatureTable 2 3 3) eq_refl) as Hbuilt.
  fold (decodeSample (sampleFeatureTable 2 3 3) sampleTile) in Hbuilt.
  destruct (_billboardCollection
              (decodeSample (sampleFeatureTable 2 3 3) sampleTile).1)
    as [billboards |] eqn:Hbs; [| vm_compute in Hbs; discriminate].
  destruct (_labelCollection
              (decodeSample (sampleFeatureTable 2 3 3) sampleTile).1)
    as [labels |]; [| done].
  destruct (_polylineCollection
              (decodeSample (sampleFeatureTable 2 3 3) sampleTile).1)
    as [polylines |]; [| done].
  exists billboards, labels, polylines.
  split; [reflexivity |]. split; [| exact Hbuilt].
  vm_compute in Hbs. injection Hbs as <-. reflexivity.
Defined.

(** X8: A constructor that returns normally on a tile that is not empty has
    decoded all of it: with counts that are not negative, featuresLength is
    their sum, the polygon set exists exactly when there are polygons, the
    polyline set exactly when there are polylines, the point collections
    exactly when there are points, with one billboard per point; and the
    ready promise is still pending. *)
Theorem constructor_success_is_complete
    (JSON_parse_featureTable : string -> option FeatureTableJson)
    (JSON_parse_batchTable : string -> option Json)
    tileset tile url arrayBuffer byteOffset featureTableJson :
  tileFeatureTable JSON_parse_featureTable arrayBuffer byteOffset
  = Some featureTableJson ->
  getUint32 arrayBuffer (defaultValue byteOffset 0 + 8) <> Normal 0 ->
  0 <= defaultValue (POLYGONS_LENGTH featureTableJson) 0 ->
  0 <= defaultValue (POLYLINES_LENGTH featureTableJson) 0 ->
  0 <= defaultValue (POINTS_LENGTH featureTableJson) 0 ->
  (newVector3DTileContent JSON_parse_featureTable JSON_parse_batchTable
     tileset tile url arrayBuffer byteOffset).2 = Normal tt ->
  let content :=
    (newVector3DTileContent JSON_parse_featureTable JSON_parse_batchTable
       tileset tile url arrayBuffer byteOffset).1 in
  featuresLength content
  = defaultValue (POLYGONS_LENGTH featureTableJson) 0
    + defaultValue (POLYLINES_LENGTH featureTableJson) 0
    + defaultValue (POINTS_LENGTH featureTableJson) 0
  /\ (is_Some (_polygons content)
      <-> 0 < defaultValue (POLYGONS_LENGTH featureTableJson) 0)
  /\ (is_Some (_polylines content)
      <-> 0 < defaultValue (POLYLINES_LENGTH featureTableJson) 0)
  /\ (is_Some (_billboardCollection content)
      <-> 0 < defaultValue (POINTS_LENGTH featureTableJson) 0)
  /\ (forall billboards,
        _billboardCollection content = Some billboards ->
        Z.of_nat (length billboards)
        = defaultValue (POINTS_LENGTH featureTableJson) 0)
  /\ readyPromise content = Pending.
Proof.
  intros Htable Hlength Hnpg Hnpl Hnpt.
  destruct (newVector3DTileContent _ _ _ _ _ _ _) as [content r] eqn:Hrun.
  cbn [fst snd]. intros ->. cbn zeta.
  destruct (newVector3DTileContent_decodedFor _ _ _ _ _ _ _ _ _ _ Hrun Htable)
    as (_ & Hready & Hcapacity & _ & Hzero & (Hpg & Hpl & Hpt & _) & Hrest).
  destruct (Hrest Hlength) as [Hdecoded Hbatch].
  destruct (Hbatch eq_refl) as [batchTable Hsome].
  destruct (Hcapacity batchTable Hsome) as [Hlen _].
  unfold totalPrimitivesOf, numberOfPolygonsOf, numberOfPolylinesOf,
    numberOfPointsOf in *.
  split; [unfold featuresLength; by rewrite Hsome |].
  assert (readyPromise content = Pending) as Hpending.
  { unfold readyPromise. destruct (_readyPromise content); [done |].
    destruct (proj1 Hready eq_refl) as (_ & _ & Hempty). done. }
  destruct (decide (defaultValue (POLYGONS_LENGTH featureTableJson) 0
                    + defaultValue (POLYLINES_LENGTH featureTableJson) 0
                    + defaultValue (POINTS_LENGTH featureTableJson) 0 = 0))
    as [Hnone | Hsomething].
  - destruct (Hzero Hnone) as (-> & -> & -> & _).
    repeat split; try done; try (intros [? [=]]); try lia.
  - destruct (Hdecoded Hsomething) as (_ & _ & _ & Hcomplete).
    destruct (Hcomplete eq_refl) as (Hcpg & Hcpl & Hcpt).
    assert (forall billboards,
              _billboardCollection content = Some billboards ->
              0 < defaultValue (POINTS_LENGTH featureTableJson) 0) as Hpoints.
    { intros billboards Hbs.
      destruct Hpt as [(Hnone & _) | (? & ? & ? & _ & _ & _ & Hpos & _)];
        [congruence | done]. }
    split; [split; [intros [polygons Hp]; by apply Hpg in Hp as [? _] | done] |].
    split; [split; [intros [polylines Hp]; by apply Hpl in Hp as [? _] | done] |].
    split.
    { split; [intros [billboards Hbs]; by eapply Hpoints |].
      intros Hpos. destruct (Hcpt Hpos) as (billboards & -> & _). by eexists. }
    split; [| done].
    intros billboards Hbs.
    destruct (Hcpt (Hpoints _ Hbs)) as (billboards' & Hbs' & Hlen').
    rewrite Hbs in Hbs'. injection Hbs' as <-. exact Hlen'.
Qed.

Lemma constructor_success_is_complete_witness :
  featuresLength (decodeSample (sampleFeatureTable 2 3 3) sampleTile).1 = 2 + 3 + 3
  /\ is_Some (_polygons (decodeSample (sampleFeatureTable 2 3 3) sampleTile).1).
Proof.
  destruct (constructor_success_is_complete
              (sampleParse (sampleFeatureTable 2 3 3)) sampleParseBatchTable
              0%nat sampleTileObject "sample.vctr" sampleTile None
              (sampleFeatureTable 2 3 3))
    as (Hlen & Hpg & _); try reflexivity; try (cbn; lia);
    try (vm_compute; discriminate).
  split; [exact Hlen | apply Hpg; cbn; lia].
Defined.

(** X9: A tile that declares polygons but lacks the POLYGON_COUNT or the
    POLYGON_INDEX_COUNT key, or declares polylines but lacks POLYLINE_COUNT,
    cannot be decoded: the constructor throws, and the set of that type is
    not built. *)
Theorem constructor_missing_counts_fail
    (JSON_parse_featureTable : string -> option FeatureTableJson)
    (JSON_parse_batchTable : string -> option Json)
    tileset tile url arrayBuffer byteOffset featureTableJson :
  tileFeatureTable JSON_parse_featureTable arrayBuffer byteOffset
  = Some featureTableJson ->
  getUint32 arrayBuffer (defaultValue byteOffset 0 + 8) <> Normal 0 ->
  0 <= defaultValue (POLYGONS_LENGTH featureTableJson) 0 ->
  0 <= defaultValue (POLYLINES_LENGTH featureTableJson) 0 ->
  0 <= defaultValue (POINTS_LENGTH featureTableJson) 0 ->
  let run :=
    newVector3DTileContent JSON_parse_featureTable JSON_parse_batchTable
      tileset tile url arrayBuffer byteOffset in
  (0 < defaultValue (POLYGONS_LENGTH featureTableJson) 0 ->
   POLYGON_COUNT featureTableJson = None
   \/ POLYGON_INDEX_COUNT featureTableJson = None ->
   (exists e, run.2 = Throw e) /\ _polygons run.1 = None)
  /\ (0 < defaultValue (POLYLINES_LENGTH featureTableJson) 0 ->
      POLYLINE_COUNT featureTableJson = None ->
      (exists e, run.2 = Throw e) /\ _polylines run.1 = None).
Proof.
  intros Htable Hlength Hnpg Hnpl Hnpt.
  destruct (newVector3DTileContent _ _ _ _ _ _ _) as [content r] eqn:Hrun.
  cbn [fst snd]. cbn zeta.
  destruct (newVector3DTileContent_decodedFor _ _ _ _ _ _ _ _ _ _ Hrun Htable)
    as (_ & _ & _ & _ & _ & (Hpg & Hpl & _) & Hrest).
  destruct (Hrest Hlength) as [Hdecoded _].
  unfold totalPrimitivesOf, numberOfPolygonsOf, numberOfPolylinesOf,
    numberOfPointsOf in *.
  split.
  - intros Hpos Hmissing.
    assert (_polygons content = None) as Hnone.
    { destruct (_polygons content) as [polygons |]; [| done].
      destruct (Hpg polygons eq_refl)
        as (_ & _ & _ & _ & _ & _ & _ & _ & [? Hc] & [? Hi] & _).
      destruct Hmissing; congruence. }
    split; [| done].
    destruct r as [[] | e]; [| by eexists]. exfalso.
    destruct Hdecoded as (_ & _ & _ & Hcomplete); [lia |].
    destruct (Hcomplete eq_refl) as (Hc & _).
    destruct (Hc Hpos) as [? ?]. congruence.
  - intros Hpos Hmissing.
    assert (_polylines content = None) as Hnone.
    { destruct (_polylines content) as [polylines |]; [| done].
      destruct (Hpl polylines eq_refl)
        as (_ & _ & _ & _ & _ & _ & [? Hc] & _).
      congruence. }
    split; [| done].
    destruct r as [[] | e]; [| by eexists]. exfalso.
    destruct Hdecoded as (_ & _ & _ & Hcomplete); [lia |].
    destruct (Hcomplete eq_refl) as (_ & Hc & _).
    destruct (Hc Hpos) as [? ?]. congruence.
Qed.

Lemma constructor_missing_counts_fail_witness :
  (exists e,
     (decodeSample (sampleFeatureTableWithoutPolygonCount 2 3 3) sampleTile).2
     = Throw e)
  /\ _polygons
       (decodeSample (sampleFeatureTableWithoutPolygonCount 2 3 3) sampleTile).1
     = None.
Proof.
  apply (constructor_missing_counts_fail
           (sampleParse (sampleFeatureTableWithoutPolygonCount 2 3 3))
           sampleParseBatchTable
           0%nat sampleTileObject "sample.vctr" sampleTile None
           (sampleFeatureTableWithoutPolygonCount 2 3 3));
    try reflexivity; try (cbn; lia); try (vm_compute; discriminate).
  by left.
Defined.

(** X10: Points cannot borrow ids.  When the polygons or the polylines of a tile
    supply explicit batch ids and its points do not, the constructor throws,
    whatever else the tile holds, and the billboard collection, if it was
    allocated, is empty: the first point already fails on its missing id. *)
Theorem constructor_points_without_ids_fail
    (JSON_parse_featureTable : string -> option FeatureTableJson)
    (JSON_parse_batchTable : string -> option Json)
    tileset tile url arrayBuffer byteOffset featureTableJson :
  tileFeatureTable JSON_parse_featureTable arrayBuffer byteOffset
  = Some featureTableJson ->
  getUint32 arrayBuffer (defaultValue byteOffset 0 + 8) <> Normal 0 ->
  0 <= defaultValue (POLYGONS_LENGTH featureTableJson) 0 ->
  0 <= defaultValue (POLYLINES_LENGTH featureTableJson) 0 ->
  0 < defaultValue (POINTS_LENGTH featureTableJson) 0 ->
  POINT_BATCH_IDS featureTableJson = None ->
  suppliesBatchIds (defaultValue (POLYGONS_LENGTH featureTableJson) 0)
    (POLYGON_BATCH_IDS featureTableJson) = true
  \/ suppliesBatchIds (defaultValue (POLYLINES_LENGTH featureTableJson) 0)
       (POLYLINE_BATCH_IDS featureTableJson) = true ->
  let run :=
    newVector3DTileContent JSON_parse_featureTable JSON_parse_batchTable
      tileset tile url arrayBuffer byteOffset in
  (exists e, run.2 = Throw e)
  /\ forall billboards,
       _billboardCollection run.1 = Some billboards -> billboards = [].
Proof.
  intros Htable Hlength Hnpg Hnpl Hnpt Hnoids Hsupplied. cbn zeta.
  pose proof (newVector3DTileContent_buildersGiven JSON_parse_featureTable
                JSON_parse_batchTable tileset tile url arrayBuffer byteOffset
                featureTableJson Htable) as Hgiven.
  destruct (newVector3DTileContent _ _ _ _ _ _ _) as [content r] eqn:Hrun.
  cbn [fst snd] in *.
  destruct Hgiven as (featureTableBinary & ids & _ & _ & Hbillboards).
  assert (forall billboards,
            _billboardCollection content = Some billboards ->
            billboards = []) as Hempty.
  { intros billboards Hbs.
    destruct (Hbillboards billboards Hbs) as (Hresolve & _ & Hids).
    destruct billboards as [| billboard rest]; [done |]. exfalso.
    destruct (Hids 0%nat billboard eq_refl) as (pointBatchIds & Hsome & _).
    destruct (resolveBatchIds_inv _ _ _ _ _ _ Hresolve)
      as (a & b & c & Ha & Hb & Hc).
    rewrite (resolveBatchIds_explicit _ _ _ _ _ a b c) in Hresolve;
      [| tauto | done | done | done].
    injection Hresolve as <-. cbn in Hsome. subst c.
    rewrite explicitBatchIds_not_supplied in Hc; [done |].
    unfold suppliesBatchIds. rewrite Hnoids. by rewrite andb_false_r. }
  split; [| exact Hempty].
  destruct r as [[] | e]; [| by eexists]. exfalso.
  destruct (newVector3DTileContent_decodedFor _ _ _ _ _ _ _ _ _ _ Hrun Htable)
    as (_ & _ & _ & _ & _ & _ & Hrest).
  destruct (Hrest Hlength) as [Hdecoded _].
  unfold totalPrimitivesOf, numberOfPolygonsOf, numberOfPolylinesOf,
    numberOfPointsOf in *.
  destruct Hdecoded as (_ & _ & _ & Hcomplete); [lia |].
  destruct (Hcomplete eq_refl) as (_ & _ & Hc).
  destruct (Hc Hnpt) as (billboards & Hbs & Hlen).
  apply Hempty in Hbs as Hnil. subst billboards.
  unfold numberOfPointsOf in Hlen. cbn in Hlen. lia.
Qed.

Lemma constructor_points_without_ids_fail_witness :
  exists e,
    (decodeSample (sampleFeatureTableWithPolygonIds 2 3 3) sampleTile).2
    = Throw e.
Proof.
  apply (constructor_points_without_ids_fail
           (sampleParse (sampleFeatureTableWithPolygonIds 2 3 3))
           sampleParseBatchTable
           0%nat sampleTileObject "sample.vctr" sampleTile None
           (sampleFeatureTableWithPolygonIds 2 3 3));
    try reflexivity; try (cbn; lia); (vm_compute; discriminate).
Defined.

(** ** Decoding the point positions *)





(** ** Features (lines 517-556) *)

Lemma with_features_same content :
  with_features (_features content) content = content.
Proof. by destruct content. Qed.

Lemma createFeatures_nothing content :
  _features content = None ->
  featuresLength content <= 0 ->
  createFeatures content = (content, Normal tt).
Proof.
  intros Hnone Hlen. unfold createFeatures, bind, this. rewrite Hnone.
  by destruct (Z.ltb_spec 0 (featuresLength content)); [lia |].
Qed.

(** [createFeatures] writes nothing but [_features], and its result is
    the materialized features. *)
Lemma createFeatures_materialized content :
  is_Some (_features content) \/ 0 < featuresLength content ->
  createFeatures content
  = (with_features (Some (materialized content)) content, Normal tt).
Proof.
  intros Hcase. unfold materialized.
  destruct (_features content) as [features |] eqn:Hfeatures.
  - rewrite (createFeatures_existing _ _ Hfeatures). cbn [fst].
    rewrite Hfeatures. change (default [] (Some features)) with features.
    rewrite <- Hfeatures. by rewrite with_features_same.
  - destruct Hcase as [[? [=]] | Hpos].
    destruct (createFeatures_fresh _ Hfeatures Hpos)
      as (features & -> & _). done.
Qed.

Lemma materialized_existing content features :
  _features content = Some features -> materialized content = features.
Proof.
  intros Hfeatures. unfold materialized.
  rewrite (createFeatures_existing _ _ Hfeatures). cbn [fst].
  by rewrite Hfeatures.
Qed.

Lemma materialized_fresh content :
  _features content = None ->
  0 < featuresLength content ->
  materialized content
  = map (fun i =>
           newCesium3DTileFeature i
             match _billboardCollection content with
             | Some billboards => i <? Z.of_nat (length billboards)
             | None => false
             end)
        (seqZ 0 (featuresLength content)).
Proof.
  intros Hnone Hpos. unfold materialized, createFeatures, bind, this.
  rewrite Hnone.
  destruct (Z.ltb_spec 0 (featuresLength content)) as [_ | ?]; [| lia].
  cbn. apply map_ext. intros i.
  destruct (_billboardCollection content) as [billboards |]; [| done].
  by destruct (i <? Z.of_nat (length billboards)).
Qed.

Lemma featuresIndexed_materialized content :
  featuresIndexed content ->
  0 < featuresLength content ->
  Z.of_nat (length (materialized content)) = featuresLength content
  /\ forall i feature,
       materialized content !! i = Some feature ->
       f_batchId feature = Z.of_nat i.
Proof.
  intros Hindexed Hpos.
  destruct (_features content) as [features |] eqn:Hfeatures.
  - rewrite (materialized_existing _ _ Hfeatures). by apply Hindexed.
  - rewrite (materialized_fresh _ Hfeatures Hpos). split.
    + rewrite length_map, length_seqZ. lia.
    + intros i feature Hi.
      rewrite list_lookup_fmap in Hi.
      destruct (seqZ 0 (featuresLength content) !! i) as [k |] eqn:Hk;
        [| done].
      apply lookup_seqZ in Hk as [-> _].
      cbn in Hi. injection Hi as <-. cbn. lia.
Qed.

Lemma createFeatures_Normal content :
  (createFeatures content).2 = Normal tt
  /\ featuresLength (createFeatures content).1 = featuresLength content.
Proof.
  unfold createFeatures, bind, this.
  by destruct (negb (defined (_features content))
               && (0 <? featuresLength content)).
Qed.

(** [getFeature] with a batch id in range, in terms of [createFeatures]. *)
Lemma getFeature_unfold content i :
  0 <= i < featuresLength content ->
  getFeature i content
  = ((createFeatures content).1,
     match _features (createFeatures content).1 with
     | Some features => Normal (features !! Z.to_nat i)
     | None => Throw TypeError
     end).
Proof.
  intros Hi. unfold getFeature. unfold bind at 1, this at 1.
  destruct (Z.ltb_spec i 0) as [? | _]; [lia |].
  destruct (Z.leb_spec (featuresLength content) i) as [? | _]; [lia |].
  cbn [orb]. unfold bind at 1.
  destruct (createFeatures_Normal content) as [Hnormal _].
  destruct (createFeatures content) as [content' r]. cbn [fst snd] in *.
  subst r. unfold bind, this, ret, throw.
  by destruct (_features content').
Qed.

(** X12: A batch id outside 0 .. featuresLength - 1 is refused with a
    DeveloperError before anything happens: the content is returned as it
    was, and in particular no features are created.  On a content without
    batch table every batch id is refused. *)
Theorem getFeature_out_of_range content batchId :
  batchId < 0 \/ featuresLength content <= batchId ->
  exists message,
    getFeature batchId content = (content, Throw (DeveloperError message)).
Proof.
  intros Hout. unfold getFeature, bind, this.
  destruct (Z.ltb_spec batchId 0) as [? | ?];
    destruct (Z.leb_spec (featuresLength content) batchId) as [? | ?];
    cbn [orb]; try lia; by eexists.
Qed.

Lemma getFeature_out_of_range_witness :
  exists message,
    getFeature 8 (decodeSample (sampleFeatureTable 2 3 3) sampleTile).1
    = ((decodeSample (sampleFeatureTable 2 3 3) sampleTile).1,
       Throw (DeveloperError message)).
Proof.
  apply (getFeature_out_of_range
           (decodeSample (sampleFeatureTable 2 3 3) sampleTile).1 8).
  right. vm_compute. discriminate.
Defined.

(** X13: A batch id in range gets its feature.  [getFeature i] returns normally
    the element [i] of the feature array, whose batch id is [i]; the call
    leaves a content with one feature per row of the batch table, creating
    them all if there were none (a fresh feature [i] is given the point
    collections exactly when [i] is less than the number of billboards) and
    changing nothing if they existed. *)
Theorem getFeature_in_range content i :
  featuresIndexed content ->
  0 <= i < featuresLength content ->
  exists feature,
    getFeature i content
    = (with_features (Some (materialized content)) content,
       Normal (Some feature))
    /\ materialized content !! Z.to_nat i = Some feature
    /\ f_batchId feature = i
    /\ Z.of_nat (length (materialized content)) = featuresLength content
    /\ featuresIndexed (getFeature i content).1
    /\ (forall features,
          _features content = Some features ->
          (getFeature i content).1 = content
          /\ features !! Z.to_nat i = Some feature)
    /\ (_features content = None ->
        feature
        = newCesium3DTileFeature i
            match _billboardCollection content with
            | Some billboards => i <? Z.of_nat (length billboards)
            | None => false
            end).
Proof.
  intros Hindexed Hi.
  destruct (featuresIndexed_materialized content Hindexed ltac:(lia))
    as [Hlen Hids].
  destruct (lookup_lt_is_Some_2 (materialized content) (Z.to_nat i)
              ltac:(lia)) as [feature Hfeature].
  assert (getFeature i content
          = (with_features (Some (materialized content)) content,
             Normal (Some feature))) as Hrun.
  { unfold getFeature. unfold bind at 1, this at 1.
    destruct (Z.ltb_spec i 0) as [? | _]; [lia |].
    destruct (Z.leb_spec (featuresLength content) i) as [? | _]; [lia |].
    cbn [orb].
    rewrite (bind_Normal _ _ _ _ _
               (createFeatures_materialized content ltac:(right; lia))).
    unfold bind, this. cbn [_features with_features]. by rewrite Hfeature. }
  exists feature. split; [exact Hrun |]. split; [exact Hfeature |].
  split; [rewrite (Hids _ _ Hfeature); lia |]. split; [exact Hlen |].
  split; [| split].
  - rewrite Hrun. cbn [fst]. intros features [= <-].
    by rewrite featuresLength_with_features.
  - intros features Hfeatures. rewrite Hrun. cbn [fst].
    rewrite (materialized_existing _ _ Hfeatures) in *.
    split; [| done]. rewrite <- Hfeatures. apply with_features_same.
  - intros Hnone.
    rewrite (materialized_fresh _ Hnone ltac:(lia)) in Hfeature.
    rewrite list_lookup_fmap in Hfeature.
    destruct (seqZ 0 (featuresLength content) !! Z.to_nat i) as [k |] eqn:Hk;
      [| done].
    apply lookup_seqZ in Hk as [-> _].
    cbn in Hfeature. injection Hfeature as <-.
    by replace (0 + Z.of_nat (Z.to_nat i)) with i by lia.
Qed.

Lemma getFeature_in_range_witness :
  exists feature,
    (getFeature 7 (decodeSample (sampleFeatureTable 2 3 3) sampleTile).1).2
    = Normal (Some feature)
    /\ f_batchId feature = 7.
Proof.
  destruct (getFeature_in_range
              (decodeSample (sampleFeatureTable 2 3 3) sampleTile).1 7)
    as (feature & Hrun & _ & Hid & _).
  - intros features Hfeatures. vm_compute in Hfeatures. discriminate.
  - split; [lia | vm_compute; reflexivity].
  - exists feature. rewrite Hrun. by split.
Defined.

(** X14: Features are created once.  A second [createFeatures] changes nothing,
    and a second [getFeature] with the same batch id changes nothing more and
    gives the same answer as the first, whatever the content and the batch
    id: what a caller writes to a feature is still there when the feature is
    asked for again. *)
Theorem features_are_created_once content batchId :
  createFeatures (createFeatures content).1
  = ((createFeatures content).1, Normal tt)
  /\ getFeature batchId (getFeature batchId content).1
     = getFeature batchId content.
Proof.
  assert (createFeatures (createFeatures content).1
          = ((createFeatures content).1, Normal tt)) as Honce.
  { destruct (_features content) as [features |] eqn:Hfeatures.
    - rewrite (createFeatures_existing _ _ Hfeatures). cbn [fst].
      by apply (createFeatures_existing _ features).
    - destruct (Z.lt_ge_cases 0 (featuresLength content)) as [Hpos | Hnone].
      + destruct (createFeatures_fresh _ Hfeatures Hpos)
          as (features & -> & _). cbn [fst].
        by apply (createFeatures_existing _ features).
      + rewrite (createFeatures_nothing _ Hfeatures Hnone). cbn [fst].
        by apply createFeatures_nothing. }
  split; [exact Honce |].
  destruct (decide (batchId < 0 \/ featuresLength content <= batchId))
    as [Hout | Hin].
  - assert (exists message,
              getFeature batchId content
              = (content, Throw (DeveloperError message)))
      as [message Hthrow].
    { unfold getFeature, bind, this.
      destruct (Z.ltb_spec batchId 0) as [? | ?];
        destruct (Z.leb_spec (featuresLength content) batchId) as [? | ?];
        cbn [orb]; try lia; by eexists. }
    rewrite Hthrow. cbn [fst]. exact Hthrow.
  - assert (0 <= batchId < featuresLength content) as Hrange by lia.
    rewrite (getFeature_unfold content batchId Hrange). cbn [fst].
    rewrite getFeature_unfold
      by (by rewrite (proj2 (createFeatures_Normal content))).
    by rewrite Honce.
Qed.

(** ** Styling, feature by feature (lines 572-684) *)


(** [applyStyle] on a content with features: every materialized feature gets
    the assignments of the loop body, and nothing else is written. *)
Lemma applyStyle_materialized style content :
  featuresConsistent content ->
  0 < featuresLength content ->
  applyStyle style content
  = (with_features
       (Some (map (assignAll
                     match style with
                     | None => clearStyleAssignments
                     | Some style => applyStyleAssignments style
                     end) (materialized content)))
       content,
     Normal tt).
Proof.
  intros Hconsistent Hpos.
  assert (Z.of_nat (length (materialized content)) <= featuresLength content)
    as Hlen.
  { destruct (_features content) as [features |] eqn:Hfeatures.
    - rewrite (materialized_existing _ _ Hfeatures).
      by rewrite (Hconsistent _ Hfeatures).
    - rewrite (materialized_fresh _ Hfeatures Hpos).
      rewrite length_map, length_seqZ. lia. }
  unfold applyStyle.
  rewrite (bind_Normal _ _ _ _ _
             (createFeatures_materialized content ltac:(by right))).
  destruct style as [style |].
  - unfold bind at 1, this at 1. cbn [_features with_features].
    rewrite styleLoop_run; [reflexivity | reflexivity |].
    by rewrite featuresLength_with_features.
  - unfold clearStyle. unfold bind at 1, this at 1.
    cbn [_features with_features].
    rewrite styleLoop_run; [reflexivity | reflexivity |].
    by rewrite featuresLength_with_features.
Qed.

Lemma styled_materialized style content :
  featuresConsistent content ->
  0 < featuresLength content ->
  styled style content
  = map (assignAll
           match style with
           | None => clearStyleAssignments
           | Some style => applyStyleAssignments style
           end) (materialized content).
Proof.
  intros Hconsistent Hpos. unfold styled.
  by rewrite (applyStyle_materialized style content Hconsistent Hpos).
Qed.

Lemma styled_lookup style content i old new :
  featuresConsistent content ->
  0 < featuresLength content ->
  materialized content !! i = Some old ->
  styled style content !! i = Some new ->
  new = assignAll
          match style with
          | None => clearStyleAssignments
          | Some style => applyStyleAssignments style
          end old.
Proof.
  intros Hconsistent Hpos Hold Hnew.
  rewrite (styled_materialized style content Hconsistent Hpos) in Hnew.
  rewrite list_lookup_fmap, Hold in Hnew. by injection Hnew as <-.
Qed.

Lemma assignAll_app l1 l2 feature :
  assignAll (l1 ++ l2) feature = assignAll l2 (assignAll l1 feature).
Proof. unfold assignAll. apply fold_left_app. Qed.

(** The value of a property after a run of assignments is the one its last
    writer left. *)
Lemma assignAll_last_writer name k assignments step feature :
  assignments !! k = Some step ->
  Forall (keeps name) (drop (S k) assignments) ->
  property name (assignAll assignments feature)
  = property name (step (assignAll (take k assignments) feature)).
Proof.
  intros Hstep Hkeeps.
  rewrite <- (take_drop_middle assignments k step Hstep) at 1.
  rewrite assignAll_app.
  change (assignAll (step :: drop (S k) assignments) ?f)
    with (assignAll (drop (S k) assignments) (step f)).
  by apply assignAll_keeps.
Qed.

Ltac keeps_step :=
  first
    [ apply keeps_setBillboardImage
    | apply keeps_id
    | apply keeps_assign; reflexivity
    | apply keeps_assignEvaluated; reflexivity
    | apply keeps_assignEvaluatedColor; reflexivity
    | (intros ?; cbv beta zeta; by rewrite property_assign) ].

Ltac keeps_all :=
  repeat first [apply Forall_nil_2 | apply Forall_cons_2];
  try match goal with
      | |- keeps _ (match ?x with _ => _ end) => destruct x
      end;
  keeps_step.







(** X15: Without features there is nothing to style, and [applyStyle] does not
    cope with that: on a content without batch table or with an empty one
    (an empty tile, a tile with no primitives) whose features were never
    created, it throws a TypeError, with or without a style, and leaves the
    content as it was. *)
Theorem applyStyle_without_features_throws style content :
  _features content = None ->
  featuresLength content <= 0 ->
  applyStyle style content = (content, Throw TypeError).
Proof.
  intros Hnone Hlen. unfold applyStyle.
  rewrite (bind_Normal _ _ _ _ _ (createFeatures_nothing _ Hnone Hlen)).
  destruct style as [style |].
  - unfold bind, this. by rewrite Hnone.
  - unfold clearStyle, bind, this. by rewrite Hnone.
Qed.

Lemma applyStyle_without_features_throws_witness :
  applyStyle None (decodeSample (sampleFeatureTable 0 0 0) sampleEmptyTile).1
  = ((decodeSample (sampleFeatureTable 0 0 0) sampleEmptyTile).1,
     Throw TypeError).
Proof.
  apply (applyStyle_without_features_throws None
           (decodeSample (sampleFeatureTable 0 0 0) sampleEmptyTile).1);
    [reflexivity | vm_compute; discriminate].
Defined.



(** X17: The expressions of a style are evaluated in the order of the source, each
    on the feature as the assignments before it left it: the color of a
    feature after [applyStyle] is the style's color for the feature as it was
    before the call, and its show is the style's show for the feature that
    already has the new color. *)
Theorem applyStyle_evaluates_in_order style content i old new :
  featuresConsistent content ->
  0 < featuresLength content ->
  materialized content !! i = Some old ->
  styled (Some style) content !! i = Some new ->
  property "color" new = Some (VColor (style_color style old))
  /\ property "show" new
     = Some (style_show style
               (assignEvaluatedColor "color" (style_color style) old)).
Proof.
  intros Hconsistent Hpos Hold Hnew.
  rewrite (styled_lookup (Some style) content i old new Hconsistent Hpos
             Hold Hnew).
  split.
  - rewrite (assignAll_last_writer "color" 0 _
               (assignEvaluatedColor "color" (style_color style)));
      [| reflexivity |].
    + by rewrite property_assignEvaluatedColor.
    + unfold applyStyleAssignments. cbn [drop]. keeps_all.
  - rewrite (assignAll_last_writer "show" 1 _
               (assignEvaluated "show" (style_show style)));
      [| reflexivity |].
    + by rewrite property_assignEvaluated.
    + unfold applyStyleAssignments. cbn [drop]. keeps_all.
Qed.

Lemma applyStyle_evaluates_in_order_witness :
  exists new,
    styled (Some sampleStyle) samplePointsContent !! 1%nat = Some new
    /\ property "color" new = Some (VColor Color_BLACK).
Proof.
  destruct (styled (Some sampleStyle) samplePointsContent !! 1%nat)
    as [new |] eqn:Hnew; [| vm_compute in Hnew; discriminate].
  exists new. split; [reflexivity |].
  apply (applyStyle_evaluates_in_order sampleStyle samplePointsContent 1%nat
           (newCesium3DTileFeature 1 true) new).
  - intros features Hfeatures. vm_compute in Hfeatures. discriminate.
  - vm_compute. reflexivity.
  - vm_compute. reflexivity.
  - exact Hnew.
Defined.

(** A property whose last writer in the loop body of [applyStyle] assigns
    undefined. *)
Ltac assigned_undefined name k H :=
  unfold applyStyleAssignments; rewrite H;
  rewrite (assignAll_last_writer name k _ (assign name VUndefined));
    [by rewrite property_assign | reflexivity | cbn [drop]; keeps_all].

(** A property no assignment of the loop body writes. *)
Ltac never_assigned H :=
  apply assignAll_keeps; unfold applyStyleAssignments; rewrite H;
  keeps_all.

Lemma applyStyleAssignments_scaleByDistance style feature :
  style_scaleByDistance style = None ->
  property "scaleByDistance" (assignAll (applyStyleAssignments style) feature)
  = property "scaleByDistance" feature
  /\ property "scaleBydistance"
       (assignAll (applyStyleAssignments style) feature)
     = Some VUndefined.
Proof.
  intros H. split.
  - never_assigned H.
  - assigned_undefined "scaleBydistance" 14%nat H.
Qed.

Lemma applyStyleAssignments_absent style feature :
  let after := assignAll (applyStyleAssignments style) feature in
  (style_labelText style = None ->
   property "labelText" after = Some VUndefined)
  /\ (style_translucencyByDistance style = None ->
      property "translucencyByDistance" after = Some VUndefined)
  /\ (style_distanceDisplayCondition style = None ->
      property "distanceDisplayCondition" after = Some VUndefined)
  /\ (style_image style = None -> property "image" after = Some VUndefined)
  /\ (style_backgroundColor style = None ->
      property "backgroundColor" after = property "backgroundColor" feature)
  /\ (style_backgroundPadding style = None ->
      property "backgroundPadding" after
      = property "backgroundPadding" feature).
Proof.
  cbn zeta. repeat split; intros H.
  - assigned_undefined "labelText" 10%nat H.
  - assigned_undefined "translucencyByDistance" 15%nat H.
  - assigned_undefined "distanceDisplayCondition" 16%nat H.
  - assigned_undefined "image" 20%nat H.
  - never_assigned H.
  - never_assigned H.
Qed.

(** X18: A style without scaleByDistance does not reset the scaleByDistance of a
    feature: line 655 assigns undefined to a property spelled scaleBydistance,
    so the feature keeps the scaleByDistance it had, for instance the one an
    earlier style gave it, and gains a property of the other name. *)
Theorem applyStyle_absent_scaleByDistance_is_kept style content i old new :
  featuresConsistent content ->
  0 < featuresLength content ->
  style_scaleByDistance style = None ->
  materialized content !! i = Some old ->
  styled (Some style) content !! i = Some new ->
  property "scaleByDistance" new = property "scaleByDistance" old
  /\ property "scaleBydistance" new = Some VUndefined.
Proof.
  intros Hconsistent Hpos Habsent Hold Hnew.
  rewrite (styled_lookup (Some style) content i old new Hconsistent Hpos
             Hold Hnew).
  by apply applyStyleAssignments_scaleByDistance.
Qed.

Lemma applyStyle_absent_scaleByDistance_is_kept_witness :
  exists new,
    styled (Some sampleStyleWithoutOptionals) sampleStyledContent !! 0%nat
    = Some new
    /\ property "scaleByDistance" new
       = Some (VNearFarScalar 1%Q 2%Q 3%Q 4%Q).
Proof.
  destruct (styled (Some sampleStyleWithoutOptionals) sampleStyledContent
              !! 0%nat) as [new |] eqn:Hnew;
    [| vm_compute in Hnew; discriminate].
  exists new. split; [reflexivity |].
  destruct (materialized sampleStyledContent !! 0%nat) as [old |] eqn:Hold;
    [| vm_compute in Hold; discriminate].
  destruct (applyStyle_absent_scaleByDistance_is_kept
              sampleStyleWithoutOptionals sampleStyledContent 0%nat old new)
    as [-> _];
    [| vm_compute; reflexivity | reflexivity | exact Hold | exact Hnew |].
  - intros features Hfeatures.
    assert (Z.of_nat (length (default [] (_features sampleStyledContent)))
            = featuresLength sampleStyledContent) as Hlen
      by (vm_compute; reflexivity).
    by rewrite Hfeatures in Hlen.
  - assert (property "scaleByDistance"
              <$> materialized sampleStyledContent !! 0%nat
            = Some (Some (VNearFarScalar 1%Q 2%Q 3%Q 4%Q))) as Hscale
      by (vm_compute; reflexivity).
    rewrite Hold in Hscale. by injection Hscale.
Defined.

(** X19: The other optional properties of a style.  When the style does not
    define it, labelText, translucencyByDistance, distanceDisplayCondition
    and image of every feature are reset to undefined, whereas
    backgroundColor and backgroundPadding are left as they were: lines
    641-647 have no else branch. *)
Theorem applyStyle_absent_optional_properties style content i old new :
  featuresConsistent content ->
  0 < featuresLength content ->
  materialized content !! i = Some old ->
  styled (Some style) content !! i = Some new ->
  (style_labelText style = None ->
   property "labelText" new = Some VUndefined)
  /\ (style_translucencyByDistance style = None ->
      property "translucencyByDistance" new = Some VUndefined)
  /\ (style_distanceDisplayCondition style = None ->
      property "distanceDisplayCondition" new = Some VUndefined)
  /\ (style_image style = None -> property "image" new = Some VUndefined)
  /\ (style_backgroundColor style = None ->
      property "backgroundColor" new = property "backgroundColor" old)
  /\ (style_backgroundPadding style = None ->
      property "backgroundPadding" new = property "backgroundPadding" old).
Proof.
  intros Hconsistent Hpos Hold Hnew.
  rewrite (styled_lookup (Some style) content i old new Hconsistent Hpos
             Hold Hnew).
  apply (applyStyleAssignments_absent style old).
Qed.

Lemma applyStyle_absent_optional_properties_witness :
  exists new,
    styled (Some sampleStyleWithoutOptionals) sampleStyledContent !! 0%nat
    = Some new
    /\ property "labelText" new = Some VUndefined
    /\ property "backgroundColor" new = Some (VColor Color_WHITE).
Proof.
  destruct (styled (Some sampleStyleWithoutOptionals) sampleStyledContent
              !! 0%nat) as [new |] eqn:Hnew;
    [| vm_compute in Hnew; discriminate].
  exists new. split; [reflexivity |].
  destruct (materialized sampleStyledContent !! 0%nat) as [old |] eqn:Hold;
    [| vm_compute in Hold; discriminate].
  destruct (applyStyle_absent_optional_properties
              sampleStyleWithoutOptionals sampleStyledContent 0%nat old new)
    as (Htext & _ & _ & _ & Hcolor & _);
    [| vm_compute; reflexivity | exact Hold | exact Hnew |].
  - intros features Hfeatures.
    assert (Z.of_nat (length (default [] (_features sampleStyledContent)))
            = featuresLength sampleStyledContent) as Hlen
      by (vm_compute; reflexivity).
    by rewrite Hfeatures in Hlen.
  - split; [by apply Htext |]. rewrite Hcolor by reflexivity.
    assert (property "backgroundColor"
              <$> materialized sampleStyledContent !! 0%nat
            = Some (Some (VColor Color_WHITE))) as Hbackground
      by (vm_compute; reflexivity).
    rewrite Hold in Hbackground. by injection Hbackground.
Defined.

(** ** The per-frame update (lines 689-719) *)

Lemma update_first content :
  pointCollectionsTogether content ->
  update (live content)
  = (if defined (_polygons content)
     then {| live_content := content;
             _polygonReadyPromise := Some PolygonReadyPromise_then;
             calls := frameCalls content ++ [Polygons_readyPromise_then] |}
     else {| live_content := with_readyPromise Resolved content;
             _polygonReadyPromise := Some PolygonReadyPromise_true;
             calls := frameCalls content |},
     Normal tt).
Proof.
  intros [Hlabels Hpolylines].
  destruct content as [? ? ? pg pl bs ls ps ? bt ? ? ?].
  cbn in Hlabels, Hpolylines.
  destruct bt, pg, pl, bs, ls, ps; try discriminate; reflexivity.
Qed.

Lemma update_later content promise before :
  pointCollectionsTogether content ->
  update {| live_content := content;
            _polygonReadyPromise := Some promise;
            calls := before |}
  = ({| live_content := content;
        _polygonReadyPromise := Some promise;
        calls := before ++ frameCalls content |},
     Normal tt).
Proof.
  intros [Hlabels Hpolylines].
  destruct content as [? ? ? pg pl bs ls ps ? bt ? ? ?].
  cbn in Hlabels, Hpolylines.
  destruct bt, pg, pl, bs, ls, ps; try discriminate;
    unfold update, frameCalls, callIf, call;
    cbn [live_content _polygonReadyPromise calls defined negb app
         _batchTable _polygons _polylines _billboardCollection
         _labelCollection _polylineCollection];
    rewrite <- ?app_assoc, ?app_nil_r; reflexivity.
Qed.

Lemma updates_later content promise frames :
  pointCollectionsTogether content ->
  forall before,
    updates frames {| live_content := content;
                      _polygonReadyPromise := Some promise;
                      calls := before |}
    = ({| live_content := content;
          _polygonReadyPromise := Some promise;
          calls := before ++ concat (replicate frames (frameCalls content)) |},
       Normal tt).
Proof.
  intros Htogether.
  induction frames as [| frames IH]; intros before.
  - cbn. by rewrite app_nil_r.
  - cbn [updates]. rewrite update_later by done. rewrite IH.
    cbn [replicate concat]. by rewrite app_assoc.
Qed.

Lemma pointCollectionsTogether_with_readyPromise v content :
  pointCollectionsTogether content ->
  pointCollectionsTogether (with_readyPromise v content).
Proof. done. Qed.

(** Any number of frames, from the content as the constructor left it. *)
Lemma updates_spec content frames :
  pointCollectionsTogether content ->
  updates (S frames) (live content)
  = (if defined (_polygons content)
     then {| live_content := content;
             _polygonReadyPromise := Some PolygonReadyPromise_then;
             calls := (frameCalls content ++ [Polygons_readyPromise_then])
                      ++ concat (replicate frames (frameCalls content)) |}
     else {| live_content := with_readyPromise Resolved content;
             _polygonReadyPromise := Some PolygonReadyPromise_true;
             calls := frameCalls content
                      ++ concat (replicate frames (frameCalls content)) |},
     Normal tt).
Proof.
  intros Htogether. cbn [updates]. rewrite update_first by done.
  destruct (defined (_polygons content)).
  - by rewrite updates_later.
  - rewrite updates_later
      by (by apply pointCollectionsTogether_with_readyPromise).
    reflexivity.
Qed.

Lemma filter_concat_replicate {A : Type} (P : A -> Prop)
    `{forall x, Decision (P x)} (l : list A) (n : nat) :
  length (filter P (concat (replicate n l)))
  = (n * length (filter P l))%nat.
Proof.
  induction n as [| n IH]; [done |].
  cbn [replicate concat]. rewrite filter_app, length_app, IH. lia.
Qed.

(** Counts the occurrences of a call in a list of calls that is known. *)
Ltac count_calls :=
  repeat match goal with
         | |- context [length (filter ?P ?l)] =>
             let n := eval vm_compute in (length (filter P l)) in
             change (length (filter P l)) with n
         end.

(** X20: Without a polygon set, the first [update] resolves the ready promise.
    On a content whose point collections exist together and that has no
    polygon set, any number of frames, at least one, returns normally,
    leaves the ready promise resolved, changes nothing else in the content,
    and never asks a collaborator for its ready promise. *)
Theorem update_resolves_without_polygons content frames :
  pointCollectionsTogether content ->
  _polygons content = None ->
  (0 < frames)%nat ->
  (updates frames (live content)).2 = Normal tt
  /\ live_content (updates frames (live content)).1
     = with_readyPromise Resolved content
  /\ readyPromise (live_content (updates frames (live content)).1) = Resolved
  /\ callsOf Polygons_readyPromise_then (updates frames (live content)).1
     = 0%nat.
Proof.
  intros Htogether Hnone Hframes.
  destruct frames as [| frames]; [lia |].
  rewrite (updates_spec content frames Htogether). rewrite Hnone.
  cbn [defined fst snd live_content]. repeat split.
  unfold callsOf. cbn [calls].
  rewrite filter_app, length_app, filter_concat_replicate.
  assert (length (filter (eq Polygons_readyPromise_then) (frameCalls content))
          = 0%nat) as ->; [| lia].
  unfold frameCalls.
  by destruct (defined (_batchTable content)), (defined (_polygons content)),
    (defined (_polylines content)), (defined (_billboardCollection content)).
Qed.

Lemma update_resolves_without_polygons_witness :
  readyPromise (live_content (updates 2 (live samplePointsContent)).1)
  = Resolved.
Proof.
  apply (update_resolves_without_polygons samplePointsContent 2);
    [split; vm_compute; reflexivity | vm_compute; reflexivity | lia].
Defined.



(** X22: Every frame reaches every live collaborator once.  After [frames] calls
    of [update], the batch table, the polygon set, the polyline set and each
    of the three point collections has been updated [frames] times if the
    content has it, and never otherwise. *)
Theorem update_forwards_every_frame content frames :
  pointCollectionsTogether content ->
  let after := (updates frames (live content)).1 in
  callsOf BatchTable_update after
  = (if defined (_batchTable content) then frames else 0%nat)
  /\ callsOf Polygons_update after
     = (if defined (_polygons content) then frames else 0%nat)
  /\ callsOf Polylines_update after
     = (if defined (_polylines content) then frames else 0%nat)
  /\ callsOf BillboardCollection_update after
     = (if defined (_billboardCollection content) then frames else 0%nat)
  /\ callsOf LabelCollection_update after
     = (if defined (_labelCollection content) then frames else 0%nat)
  /\ callsOf PolylineCollection_update after
     = (if defined (_polylineCollection content) then frames else 0%nat).
Proof.
  intros Htogether. cbn zeta.
  destruct frames as [| frames].
  { cbn. unfold callsOf. cbn.
    by repeat split; match goal with |- _ = if ?b then _ else _ =>
                                       destruct b end. }
  rewrite (updates_spec content frames Htogether).
  destruct Htogether as [-> ->].
  unfold callsOf.
  destruct (defined (_polygons content)) eqn:Hpg; cbn [fst calls];
    rewrite !filter_app, !length_app, !filter_concat_replicate;
    unfold frameCalls; rewrite Hpg;
    destruct (defined (_batchTable content)), (defined (_polylines content)),
      (defined (_billboardCollection content));
    cbn [app defined]; repeat split; count_calls; lia.
Qed.

Lemma update_forwards_every_frame_witness :
  callsOf LabelCollection_update (updates 4 (live samplePointsContent)).1
  = 4%nat.
Proof.
  destruct (update_forwards_every_frame samplePointsContent 4)
    as (_ & _ & _ & _ & Hlabels & _);
    [split; vm_compute; reflexivity |].
  rewrite Hlabels. vm_compute. reflexivity.
Defined.

(** ** The constructed content in the scene *)




(** X24: An empty tile answers no question about features.  On the content of a
    tile whose header is valid and whose byteLength is 0, [hasProperty]
    throws a TypeError (there is no batch table to ask), [getFeature] refuses
    every batch id with a DeveloperError, [applyStyle] throws a TypeError
    with or without a style, and [update] calls no collaborator. *)
Theorem empty_tile_interface
    (JSON_parse_featureTable : string -> option FeatureTableJson)
    (JSON_parse_batchTable : string -> option Json)
    (BatchTable_hasProperty : Cesium3DTileBatchTable -> Z -> string -> bool)
    tileset tile url arrayBuffer byteOffset :
  getMagic arrayBuffer (defaultValue byteOffset 0) = "vctr" ->
  getUint32 arrayBuffer (defaultValue byteOffset 0 + 4) = Normal 1 ->
  getUint32 arrayBuffer (defaultValue byteOffset 0 + 8) = Normal 0 ->
  let content :=
    (newVector3DTileContent JSON_parse_featureTable JSON_parse_batchTable
       tileset tile url arrayBuffer byteOffset).1 in
  (forall batchId name,
     hasProperty BatchTable_hasProperty batchId name content
     = Throw TypeError)
  /\ (forall batchId,
        exists message,
          getFeature batchId content
          = (content, Throw (DeveloperError message)))
  /\ (forall style, applyStyle style content = (content, Throw TypeError))
  /\ (forall frames,
        (updates frames (live content)).2 = Normal tt
        /\ calls (updates frames (live content)).1 = []).
Proof.
  intros Hmagic Hversion Hlength. cbn zeta.
  assert (newVector3DTileContent JSON_parse_featureTable JSON_parse_batchTable
            tileset tile url arrayBuffer byteOffset
          = (with_readyPromise Resolved (freshContent tileset tile url),
             Normal tt)) as ->.
  { rewrite newVector3DTileContent_fresh.
    rewrite initialize_good_header by done.
    by rewrite (bind_lift_Normal _ _ _ _ Hlength). }
  cbn [fst].
  split; [done |]. split; [| split].
  - intros batchId. unfold getFeature, bind, this.
    change (featuresLength
              (with_readyPromise Resolved (freshContent tileset tile url)))
      with 0.
    destruct (Z.ltb_spec batchId 0) as [? | ?];
      destruct (Z.leb_spec 0 batchId) as [? | ?];
      cbn [orb]; try lia; by eexists.
  - intros [style |]; reflexivity.
  - intros [| frames]; [done |].
    rewrite updates_spec by (by split).
    cbn [defined _polygons with_readyPromise freshContent fst snd calls].
    split; [done |].
    assert (frameCalls
              (with_readyPromise Resolved (freshContent tileset tile url))
            = []) as -> by reflexivity.
    cbn [app]. induction frames as [| frames IH]; [done |].
    cbn [replicate concat app]. exact IH.
Qed.

Lemma empty_tile_interface_witness :
  applyStyle None (decodeSample (sampleFeatureTable 0 0 0) sampleEmptyTile).1
  = ((decodeSample (sampleFeatureTable 0 0 0) sampleEmptyTile).1,
     Throw TypeError).
Proof.
  destruct (empty_tile_interface
              (sampleParse (sampleFeatureTable 0 0 0)) sampleParseBatchTable
              (fun _ _ _ => false)
              0%nat sampleTileObject "sample.vctr" sampleEmptyTile None)
    as (_ & _ & Hstyle & _); [reflexivity | reflexivity | reflexivity |].
  apply (Hstyle None).
Defined.

(** X25: The color-changed callback reaches the polygons.  In a tile without
    explicit batch ids and with at most 65536 polygons, the callback the
    batch table was created with forwards a color change for a batch id
    that is not negative to the polygon set exactly when that id is the
    batch id of a polygon; a color change for the id of a polyline or a
    point is dropped. *)
Theorem colorChanged_reaches_polygons_only
    (JSON_parse_featureTable : string -> option FeatureTableJson)
    (JSON_parse_batchTable : string -> option Json)
    tileset tile url arrayBuffer byteOffset featureTableJson batchTable
    batchId color :
  tileFeatureTable JSON_parse_featureTable arrayBuffer byteOffset
  = Some featureTableJson ->
  suppliesBatchIds (defaultValue (POLYGONS_LENGTH featureTableJson) 0)
    (POLYGON_BATCH_IDS featureTableJson) = false ->
  suppliesBatchIds (defaultValue (POLYLINES_LENGTH featureTableJson) 0)
    (POLYLINE_BATCH_IDS featureTableJson) = false ->
  suppliesBatchIds (defaultValue (POINTS_LENGTH featureTableJson) 0)
    (POINT_BATCH_IDS featureTableJson) = false ->
  0 <= defaultValue (POLYGONS_LENGTH featureTableJson) 0 <= 65536 ->
  0 <= defaultValue (POLYLINES_LENGTH featureTableJson) 0 ->
  0 <= defaultValue (POINTS_LENGTH featureTableJson) 0 ->
  0 <= batchId ->
  let content :=
    (newVector3DTileContent JSON_parse_featureTable JSON_parse_batchTable
       tileset tile url arrayBuffer byteOffset).1 in
  _batchTable content = Some batchTable ->
  let forwarded :=
    calls (createColorChangedCallback
             (colorChanged_numberOfPolygons batchTable) batchId color
             (live content)) in
  (forwarded = [Polygons_updateCommands batchId color]
   \/ forwarded = [])
  /\ (forwarded = [Polygons_updateCommands batchId color]
      <-> exists polygons ids,
            _polygons content = Some polygons
            /\ pg_batchIds polygons = Some ids
            /\ batchId ∈ ids).
Proof.
  intros Htable Hpg Hpl Hpt Hnpg Hnpl Hnpt Hid. cbn zeta.
  pose proof (newVector3DTileContent_buildersGiven JSON_parse_featureTable
                JSON_parse_batchTable tileset tile url arrayBuffer byteOffset
                featureTableJson Htable) as Hgiven.
  destruct (newVector3DTileContent _ _ _ _ _ _ _) as [content r] eqn:Hrun.
  cbn [fst] in *. intros Hsome.
  destruct (newVector3DTileContent_decodedFor _ _ _ _ _ _ _ _ _ _ Hrun Htable)
    as (_ & _ & Hcapacity & _ & _ & (Hbuilt & _) & _).
  destruct (Hcapacity batchTable Hsome) as [_ ->].
  unfold numberOfPolygonsOf.
  destruct Hgiven as (featureTableBinary & ids & Hpolygons & _).
  assert (forall polygons,
            _polygons content = Some polygons ->
            0 < defaultValue (POLYGONS_LENGTH featureTableJson) 0
            /\ pg_batchIds polygons
               = Some (seqZ 0
                         (defaultValue (POLYGONS_LENGTH featureTableJson) 0)))
    as Hids.
  { intros polygons Hp.
    destruct (Hbuilt polygons Hp) as [Hpos _].
    unfold numberOfPolygonsOf in Hpos. split; [done |].
    destruct (Hpolygons polygons Hp) as [Hresolve ->].
    rewrite resolveBatchIds_not_supplied in Hresolve by (try done; lia).
    injection Hresolve as <-. cbn [fst]. unfold storedSequentialIds.
    destruct (Z.ltb_spec 0 (defaultValue (POLYGONS_LENGTH featureTableJson) 0))
      as [_ | ?]; [| lia].
    by rewrite toUint16_seqZ by lia. }
  unfold createColorChangedCallback, callIf, call, live.
  cbn [live_content calls _polygonReadyPromise].
  destruct (_polygons content) as [polygons |] eqn:Hp; cbn [defined andb].
  - destruct (Hids polygons eq_refl) as [Hpos Hseq].
    destruct (Z.ltb_spec batchId
                (defaultValue (POLYGONS_LENGTH featureTableJson) 0))
      as [Hlt | Hge]; cbn [calls app].
    + split; [by left |]. split; [| done]. intros _.
      exists polygons, (seqZ 0
                          (defaultValue (POLYGONS_LENGTH featureTableJson) 0)).
      split; [done |]. split; [done |]. apply elem_of_seqZ. lia.
    + split; [by right |]. split; [done |].
      intros (polygons' & ids' & [= <-] & Hids' & Hin).
      rewrite Hseq in Hids'. injection Hids' as <-.
      apply elem_of_seqZ in Hin. lia.
  - cbn [calls]. split; [by right |]. split; [done |].
    by intros (? & ? & [=] & _).
Qed.

Lemma colorChanged_reaches_polygons_only_witness :
  exists batchTable,
    _batchTable (decodeSample (sampleFeatureTable 2 3 3) sampleTile).1
    = Some batchTable
    /\ calls (createColorChangedCallback
                (colorChanged_numberOfPolygons batchTable) 1 Color_BLACK
                (live (decodeSample (sampleFeatureTable 2 3 3) sampleTile).1))
       = [Polygons_updateCommands 1 Color_BLACK].
Proof.
  destruct (_batchTable (decodeSample (sampleFeatureTable 2 3 3) sampleTile).1)
    as [batchTable |] eqn:Hsome; [| vm_compute in Hsome; discriminate].
  exists batchTable. split; [reflexivity |].
  destruct (colorChanged_reaches_polygons_only
              (sampleParse (sampleFeatureTable 2 3 3)) sampleParseBatchTable
              0%nat sampleTileObject "sample.vctr" sampleTile None
              (sampleFeatureTable 2 3 3) batchTable 1 Color_BLACK)
    as [_ Hforwarded];
    [reflexivity | reflexivity | reflexivity | reflexivity
    | cbn; lia | cbn; lia | cbn; lia | lia | exact Hsome |].
  apply Hforwarded.
  destruct (_polygons (decodeSample (sampleFeatureTable 2 3 3) sampleTile).1)
    as [polygons |] eqn:Hpolygons; [| vm_compute in Hpolygons; discriminate].
  exists polygons, [0; 1]. split; [exact Hpolygons |].
  split; [| by apply list_elem_of_In; right; left].
  assert (pg_batchIds
            <$> _polygons (decodeSample (sampleFeatureTable 2 3 3) sampleTile).1
          = Some (Some [0; 1])) as Hids by (vm_compute; reflexivity).
  rewrite Hpolygons in Hids. by injection Hids.
Defined.

(** * Properties of DynamicObjectCollection *)

Section DynamicObjectCollectionProperties.

Import DynamicObjectCollection.

Context {DynamicObject : Type} `{EqDecision DynamicObject}.
Variable id_of : DynamicObject -> string.

Implicit Types (collection : @Collection DynamicObject).
Implicit Types (dynamicObject other : DynamicObject).
Implicit Types (array : list DynamicObject).






















Lemma fireChangedEvent_suspended collection :
  _suspectRefCount collection <> 0 -> fireChangedEvent collection = collection.
Proof.
  intros Hne. unfold fireChangedEvent.
  by destruct (Z.eqb_spec (_suspectRefCount collection) 0).
Qed.








Lemma after_suspended operation collection :
  0 < _suspectRefCount collection ->
  (operation = ResumeEvents -> 1 < _suspectRefCount collection) ->
  _collectionChanged (after id_of operation collection)
  = _collectionChanged collection.
Proof.
  intros Hsuspended Hresume.
  assert (forall given,
            _collectionChanged (add id_of given collection).1
            = _collectionChanged collection) as Hadd.
  { intros [o |]; [| done]. unfold add.
    destruct (hashGet (_hash collection) (id_of o)); cbn [defined]; [done |].
    destruct (negb (indexOf o (_removed collection) =? -1));
      cbn [fst]; by rewrite fireChangedEvent_suspended by (cbn; lia). }
  assert (forall id,
            _collectionChanged (removeById id collection).1
            = _collectionChanged collection) as Hremove.
  { intros [id |]; [| done]. unfold removeById.
    destruct (hashGet (_hash collection) id) as [o |]; [| done].
    destruct (negb (indexOf o (_added collection) =? -1));
      cbn [fst]; by rewrite fireChangedEvent_suspended by (cbn; lia). }
  destruct operation as [given | given | id | | created id | |]; cbn [after].
  - apply Hadd.
  - destruct given as [o |]; [apply Hremove | done].
  - apply Hremove.
  - unfold removeAll. by rewrite fireChangedEvent_suspended by (cbn; lia).
  - unfold getOrCreateObject. destruct id as [id |]; [| done].
    destruct (hashGet (_hash collection) id); [done |].
    specialize (Hadd (Some created)).
    by destruct (add id_of (Some created) collection) as [? [[] | ?]].
  - done.
  - unfold resumeEvents.
    destruct (Z.eqb_spec (_suspectRefCount collection) 0); [done |].
    cbn [fst]. rewrite fireChangedEvent_suspended; [done |].
    cbn. specialize (Hresume eq_refl). lia.
Qed.

(** X29: Suspended events wait for the last resume.  [resumeEvents] on a
    collection that is not suspended throws a DeveloperError and changes
    nothing.  While events are suspended no call raises the event, whatever
    it adds or removes, and neither does a resume that leaves them
    suspended.  The resume that ends the suspension raises the event once,
    with all the objects then waiting, or not at all when none is waiting,
    and leaves nothing waiting. *)
Theorem events_wait_for_resume :
  (forall collection,
     _suspectRefCount collection = 0 ->
     resumeEvents collection
     = (collection,
        Throw (DeveloperError
                 "resumeEvents can not be called before suspendEvents.")))
  /\ (forall operation collection,
        0 < _suspectRefCount collection ->
        (operation = ResumeEvents -> 1 < _suspectRefCount collection) ->
        _collectionChanged (after id_of operation collection)
        = _collectionChanged collection)
  /\ (forall collection,
        _suspectRefCount collection = 1 ->
        _collectionChanged (resumeEvents collection).1
        = _collectionChanged collection
          ++ match _added collection, _removed collection with
             | [], [] => []
             | added, removed => [(added, removed)]
             end
        /\ _added (resumeEvents collection).1 = []
        /\ _removed (resumeEvents collection).1 = []
        /\ _suspectRefCount (resumeEvents collection).1 = 0).
Proof.
  split_and!.
  - intros collection Hzero. unfold resumeEvents. by rewrite Hzero.
  - apply after_suspended.
  - intros collection Hone. unfold resumeEvents, fireChangedEvent.
    rewrite Hone. cbn [Z.eqb Z.sub Z.add Z.opp Z.pos_sub fst _added _removed
                       _suspectRefCount _collectionChanged].
    destruct (_added collection) as [| a added],
      (_removed collection) as [| r removed];
      cbn [length Nat.eqb negb orb _added _removed _collectionChanged
           _suspectRefCount];
      rewrite ?app_nil_r; done.
Qed.


End DynamicObjectCollectionProperties.

(** ** On sample objects: a reference paired with its id *)




Lemma events_wait_for_resume_witness :
  exists message,
    DynamicObjectCollection.resumeEvents
      (DynamicObjectCollection.newDynamicObjectCollection
         (DynamicObject := nat * string))
    = (DynamicObjectCollection.newDynamicObjectCollection,
       Throw (DeveloperError message)).
Proof.
  eexists.
  apply (proj1 (events_wait_for_resume (DynamicObject := nat * string) snd)).
  reflexivity.
Defined.

